(** * Strands Visual Builder backend: the code-generation pipeline

    A shallow embedding of the parts of the backend that the pipeline
    specification talks about:

    - [backend/services/agent_service.py]: response-text normalisation,
      layered code extraction, formatting cleanup, the remote (AgentCore)
      attempt with its streamed response reconstruction, and the
      orchestrator [generate_code_freeform];
    - [backend/services/s3_code_storage_service.py]: the artifact store client;
    - [model_utils.py] and [backend/services/model_id_service.py]: the
      regional (CRIS) prefix formatting of model identifiers, the choice of
      the effective model id and its validation;
    - further parts of the same units and their callers: the pattern scans
      of the validation gate, the storage references of a response and the
      recovery of the code from the store, the listing and deletion of the
      artifacts of a session, the artifact routes of
      [backend/routers/s3_code.py], and the capability tests of
      [backend/routers/models.py].

    The first part holds the embedding, one module per source unit, and the
    vocabulary and sample inputs of the statements (module [Spec]); the
    second part holds the lemmas and, for each property of the
    specification, its theorem (C1 to C10), followed by further properties of
    the code (X1 to X30).

    Conventions.  A Python [str] is a [string]; a character is one of the 256
    code points U+0000..U+00FF, and the character predicates ([str.isspace],
    [str.isalnum], the class [\s]) are the Unicode ones restricted to that
    range.  In a Rocq string literal the backslash is an ordinary character:
    the literal "\n" below is the two-character Python string ['\\n'], and a
    real line feed is written [NL].  Python exceptions are values of [exn],
    a call that may raise returns a [result], and a [try]/[except] is a match
    on it.  Log records are collected in a list, oldest first. *)

From Stdlib Require Import String Ascii List Bool Arith ZArith Lia DecimalString.
From stdpp Require Import gmap strings sorting.
Import ListNotations.

Set Default Proof Using "Type".
Set Warnings "-register-all".

(** stdpp keeps [simpl] from unfolding the concatenation of strings; the
    proofs below compute with it. *)
#[global] Arguments String.append !s1 s2 : simpl nomatch.

(** ** Python strings *)

Module PyStr.

Definition LF : ascii := "010"%char.
Definition CR : ascii := "013"%char.
Definition DQ : ascii := "034"%char.
Definition SQ : ascii := "039"%char.
Definition BSL : ascii := "092"%char.

(** ['\n'] and ['\r'] as one-character strings. *)
Definition NL : string := String LF EmptyString.
Definition CRs : string := String CR EmptyString.

(** [str.isspace] on one character: TAB..CR, FS..US, SPACE, NEL, NBSP. *)
Definition isspace (c : ascii) : bool :=
  let n := nat_of_ascii c in
  ((9 <=? n) && (n <=? 13)) || ((28 <=? n) && (n <=? 32))
  || (n =? 133) || (n =? 160).

(** [str.isalnum] on one character: digits, ASCII letters, and the
    Latin-1 letters and numerics (feminine and masculine ordinal, micro
    sign, superscript digits, vulgar fractions, U+00C0..U+00FF without the
    multiplication and division signs). *)
Definition isalnum (c : ascii) : bool :=
  let n := nat_of_ascii c in
  ((48 <=? n) && (n <=? 57)) || ((65 <=? n) && (n <=? 90))
  || ((97 <=? n) && (n <=? 122))
  || (n =? 170) || (n =? 178) || (n =? 179) || (n =? 181) || (n =? 185)
  || (n =? 186) || ((188 <=? n) && (n <=? 190))
  || ((192 <=? n) && (n <=? 214)) || ((216 <=? n) && (n <=? 246))
  || ((248 <=? n) && (n <=? 255)).

(** Lower-casing used by [re.IGNORECASE] on the ASCII letters. *)
Definition lower (c : ascii) : ascii :=
  let n := nat_of_ascii c in
  if (65 <=? n) && (n <=? 90) then ascii_of_nat (n + 32) else c.

(** [s.startswith(p)]. *)
Fixpoint startswith (s p : string) {struct p} : bool :=
  match p with
  | EmptyString => true
  | String a p' =>
      match s with
      | String b s' => Ascii.eqb a b && startswith s' p'
      | EmptyString => false
      end
  end.

(** [sub in s]. *)
Fixpoint contains (sub s : string) : bool :=
  startswith s sub
  || match s with
     | EmptyString => false
     | String _ s' => contains sub s'
     end.

(** [c in s] for one character. *)
Fixpoint has_char (c : ascii) (s : string) : bool :=
  match s with
  | EmptyString => false
  | String a s' => Ascii.eqb a c || has_char c s'
  end.

(** [s[:n]]. *)
Fixpoint take (n : nat) (s : string) : string :=
  match n, s with
  | S n', String c s' => String c (take n' s')
  | _, _ => EmptyString
  end.

(** [s[n:]]. *)
Fixpoint drop (n : nat) (s : string) : string :=
  match n, s with
  | S n', String _ s' => drop n' s'
  | _, _ => s
  end.

Definition is_empty (s : string) : bool :=
  match s with EmptyString => true | String _ _ => false end.

(** [s.lstrip()]. *)
Fixpoint lstrip (s : string) : string :=
  match s with
  | EmptyString => EmptyString
  | String c s' => if isspace c then lstrip s' else s
  end.

(** [s.rstrip()]: a character is dropped when it is white space and
    everything after it has been dropped. *)
Fixpoint rstrip (s : string) : string :=
  match s with
  | EmptyString => EmptyString
  | String c s' =>
      let r := rstrip s' in
      if is_empty r && isspace c then EmptyString else String c r
  end.

(** [s.strip()]. *)
Definition strip (s : string) : string := rstrip (lstrip s).

(** [s.endswith(p)]. *)
Fixpoint endswith (s p : string) : bool :=
  String.eqb s p
  || match s with
     | EmptyString => false
     | String _ s' => endswith s' p
     end.

(** [s.replace(old, new)] for a non-empty [old] (the only use in the
    sources): occurrences are replaced from left to right and do not
    overlap.  [skip] counts the characters of an occurrence that was just
    replaced and that are still to be passed over. *)
Fixpoint replace_from (old new : string) (skip : nat) (s : string) : string :=
  match s with
  | EmptyString => EmptyString
  | String c s' =>
      match skip with
      | S k => replace_from old new k s'
      | O =>
          if startswith s old
          then new +:+ replace_from old new (String.length old - 1) s'
          else String c (replace_from old new 0 s')
      end
  end.

Definition replace (old new s : string) : string := replace_from old new 0 s.

(** [sep.join(parts)]. *)
Fixpoint join (sep : string) (parts : list string) : string :=
  match parts with
  | [] => EmptyString
  | [p] => p
  | p :: rest => p +:+ sep +:+ join sep rest
  end.

(** [''.join(parts)]. *)
Definition concat (parts : list string) : string :=
  fold_right String.append EmptyString parts.

(** [''.join(c for c in s if keep(c))]. *)
Fixpoint filter_chars (keep : ascii -> bool) (s : string) : string :=
  match s with
  | EmptyString => EmptyString
  | String c s' =>
      if keep c then String c (filter_chars keep s') else filter_chars keep s'
  end.

(** [all(p(c) for c in s)]. *)
Fixpoint all_chars (p : ascii -> bool) (s : string) : bool :=
  match s with
  | EmptyString => true
  | String c s' => p c && all_chars p s'
  end.

(** [k] line feeds. *)
Fixpoint newlines (k : nat) : string :=
  match k with
  | O => EmptyString
  | S k' => String LF (newlines k')
  end.

End PyStr.

(** ** Exceptions, results and log records *)

Inductive exn : Type :=
| ValueError (msg : string)
| TypeError (msg : string)
| AttributeError (msg : string)
| KeyError (key : string)
| JSONDecodeError
| ClientError (code : string)
| OtherException (name : string).

Inductive result (A : Type) : Type :=
| Ok (a : A)
| Raise (e : exn).
Arguments Ok {A} a.
Arguments Raise {A} e.

Definition bind {A B : Type} (m : result A) (f : A -> result B) : result B :=
  match m with
  | Ok a => f a
  | Raise e => Raise e
  end.

Notation "'let!' x ':=' m 'in' k" := (bind m (fun x => k))
  (at level 10, x name, m at level 100, k at level 200).

Inductive log_level : Type := DEBUG | INFO | WARNING | ERROR.

Definition log_record : Type := (log_level * string)%type.

(** ** Formatting cleanup ([agent_service.py], [_cleanup_code_formatting]) *)

Module Cleanup.
Import PyStr.

(** What [re.sub(r'\n{3,}', '\n\n', code)] writes for a maximal run of
    [k] line feeds: the run matches [\n{3,}] exactly when [3 <= k], and is
    then replaced by two line feeds. *)
Definition flush_run (k : nat) : string :=
  if 3 <=? k then newlines 2 else newlines k.

(** [re.sub(r'\n{3,}', '\n\n', code)].  [pending] is the length of the
    run of line feeds read just before [s]; the quantifier is greedy, so a
    match always covers a whole maximal run. *)
Fixpoint sub_newline_runs (pending : nat) (s : string) : string :=
  match s with
  | EmptyString => flush_run pending
  | String c s' =>
      if Ascii.eqb c LF then sub_newline_runs (S pending) s'
      else flush_run pending +:+ String c (sub_newline_runs 0 s')
  end.

(** The test of line 640: one of the escape sequences backslash-n,
    backslash-t, backslash-double-quote, backslash-quote occurs. *)
Definition has_escape_sequences (code : string) : bool :=
  contains "\n" code || contains "\t" code
  || contains (String BSL (String DQ EmptyString)) code
  || contains (String BSL (String SQ EmptyString)) code.

(** The first record logged at line 641. *)
Definition critical_message : string :=
  "CRITICAL: Code still contains escape sequences after proper extraction - this indicates a bug!".

(** The three formatting steps of lines 647, 651 and 654. *)
Definition format_steps (code : string) : string :=
  let code := replace CRs NL (replace (String CR NL) NL code) in
  let code := sub_newline_runs 0 code in
  rstrip code +:+ NL.

(** [_cleanup_code_formatting(code)].  The argument is [None] for Python's
    [None]; [not code] holds for [None] and for the empty string, which are
    returned as they are.  The second component is what the call logs. *)
Definition _cleanup_code_formatting (code : option string)
  : option string * list log_record :=
  match code with
  | None => (None, [])
  | Some EmptyString => (Some EmptyString, [])
  | Some c =>
      let logs :=
        if has_escape_sequences c
        then [ (ERROR, critical_message);
               (ERROR, "Code preview: " +:+ take 200 c +:+ "...") ]
        else [] in
      (Some (format_steps c), logs)
  end.

(** The value returned, without the log. *)
Definition cleaned (code : option string) : option string :=
  fst (_cleanup_code_formatting code).

End Cleanup.

(** ** The fragment of Python's [re] used by the extraction methods *)

Module Regex.
Import PyStr.

Record flags : Type := { IGNORECASE : bool; DOTALL : bool }.

(** One-character items. *)
Inductive atom : Type :=
| Chr (c : ascii)      (* a literal character *)
| Dot                  (* [.] *)
| Space.               (* [\s] *)

Inductive regex : Type :=
| Eps
| One (a : atom)
| Cat (r1 r2 : regex)
| Alt (r1 r2 : regex)          (* [r1|r2] *)
| Star (a : atom)              (* greedy [a*] *)
| LazyStar (a : atom)          (* [a*?] *)
| Group (r : regex)            (* the capturing group [(r)] *)
| Ahead (r : regex)            (* [(?=r)] *)
| EndZ.                        (* [\Z] *)

(** The literal text [s] as a pattern. *)
Fixpoint lit (s : string) : regex :=
  match s with
  | EmptyString => Eps
  | String c s' => Cat (One (Chr c)) (lit s')
  end.

Definition atom_matches (f : flags) (a : atom) (c : ascii) : bool :=
  match a with
  | Chr x => if IGNORECASE f then Ascii.eqb (lower x) (lower c) else Ascii.eqb x c
  | Dot => DOTALL f || negb (Ascii.eqb c LF)
  | Space => isspace c
  end.

(** Greedy repetition: take as many characters as possible, give them
    back one at a time while the rest of the pattern fails. *)
Fixpoint star_greedy {X : Type} (f : flags) (a : atom) (s : string)
    (k : string -> option X) : option X :=
  match s with
  | String c s' =>
      if atom_matches f a c
      then match star_greedy f a s' k with
           | Some x => Some x
           | None => k s
           end
      else k s
  | EmptyString => k s
  end.

(** Lazy repetition: try the rest of the pattern first, take one more
    character each time it fails. *)
Fixpoint star_lazy {X : Type} (f : flags) (a : atom) (s : string)
    (k : string -> option X) : option X :=
  match k s with
  | Some x => Some x
  | None =>
      match s with
      | String c s' => if atom_matches f a c then star_lazy f a s' k else None
      | EmptyString => None
      end
  end.

(** Backtracking matcher in continuation-passing style.  [s] is the text
    still to be read, [g] the text captured by the group so far, and the
    continuation receives both; the answer is the first one in the order in
    which Python's matcher explores the alternatives. *)
Fixpoint run {X : Type} (f : flags) (r : regex) (s : string) (g : option string)
    (k : string -> option string -> option X) : option X :=
  match r with
  | Eps => k s g
  | One a =>
      match s with
      | String c s' => if atom_matches f a c then k s' g else None
      | EmptyString => None
      end
  | Cat r1 r2 => run f r1 s g (fun s1 g1 => run f r2 s1 g1 k)
  | Alt r1 r2 =>
      match run f r1 s g k with
      | Some x => Some x
      | None => run f r2 s g k
      end
  | Star a => star_greedy f a s (fun s1 => k s1 g)
  | LazyStar a => star_lazy f a s (fun s1 => k s1 g)
  | Group r1 =>
      run f r1 s g
        (fun s1 _ => k s1 (Some (take (String.length s - String.length s1) s)))
  | Ahead r1 =>
      match run f r1 s g (fun _ g1 => Some g1) with
      | Some g1 => k s g1
      | None => None
      end
  | EndZ => if is_empty s then k s g else None
  end.

(** A match of [r] at the start of [s]: the captured group and the text
    after the match. *)
Definition match_here (f : flags) (r : regex) (s : string)
  : option (string * string) :=
  run f r s None
    (fun rest g => Some (match g with Some t => t | None => EmptyString end, rest)).

(** [re.findall(r, s, flags)] for a pattern with one group: the captured
    texts of the matches found from left to right, each search starting
    where the previous match ended.  [skip] counts the characters of the
    last match that are still to be passed over. *)
Fixpoint findall_from (f : flags) (r : regex) (skip : nat) (s : string)
  : list string :=
  match skip with
  | S n =>
      match s with
      | EmptyString => []
      | String _ s' => findall_from f r n s'
      end
  | O =>
      match match_here f r s with
      | Some (g, rest) =>
          g :: match s with
               | EmptyString => []
               | String _ s' =>
                   findall_from f r (String.length s - String.length rest - 1) s'
               end
      | None =>
          match s with
          | EmptyString => []
          | String _ s' => findall_from f r 0 s'
          end
      end
  end.

Definition findall (f : flags) (r : regex) (s : string) : list string :=
  findall_from f r 0 s.

End Regex.

(** ** Layered code extraction ([agent_service.py], lines 897-1031) *)

Module Extraction.
Import PyStr Regex.

(** The two shapes of the dictionary returned by
    [_extract_code_with_fallbacks]: with [success = True] it carries
    [code], [method] and [confidence]; with [success = False] it carries
    [error] and [raw_response].  The confidence is counted in tenths (the
    sources add the floats 0.3, 0.3, 0.2, 0.1, 0.1; their rounding is not
    modelled). *)
Inductive extraction_result : Type :=
| ExtractionSuccess (code method : string) (confidence : nat)
| ExtractionFailure (error raw_response : string).

Definition success (r : extraction_result) : bool :=
  match r with
  | ExtractionSuccess _ _ _ => true
  | ExtractionFailure _ _ => false
  end.

Definition fence : string := "```".

Definition blank_line_or_end : regex :=
  Ahead (Alt (lit (NL +:+ NL)) EndZ).

(** [r'```python\s*\n(.*?)\n```'] *)
Definition python_pattern : regex :=
  Cat (lit (fence +:+ "python"))
    (Cat (Star Space)
       (Cat (One (Chr LF))
          (Cat (Group (LazyStar Dot)) (lit (NL +:+ fence))))).

(** [r'```\s*\n(.*?)\n```'] *)
Definition code_pattern : regex :=
  Cat (lit fence)
    (Cat (Star Space)
       (Cat (One (Chr LF))
          (Cat (Group (LazyStar Dot)) (lit (NL +:+ fence))))).

(** [r'(from strands.*?(?=\n\n|\Z))'] *)
Definition import_pattern : regex :=
  Group (Cat (lit "from strands") (Cat (LazyStar Dot) blank_line_or_end)).

(** The three patterns of [_extract_pattern_matching]:
    [r'(from strands import.*?(?=\n\n|\Z))'],
    [r'(import strands.*?(?=\n\n|\Z))'] and
    [r'(Agent\(.*?\).*?(?=\n\n|\Z))']. *)
Definition patterns : list regex :=
  [ Group (Cat (lit "from strands import") (Cat (LazyStar Dot) blank_line_or_end));
    Group (Cat (lit "import strands") (Cat (LazyStar Dot) blank_line_or_end));
    Group (Cat (lit "Agent(")
             (Cat (LazyStar Dot)
                (Cat (lit ")") (Cat (LazyStar Dot) blank_line_or_end)))) ].

Definition dotall : flags := {| IGNORECASE := false; DOTALL := true |}.
Definition dotall_ignorecase : flags := {| IGNORECASE := true; DOTALL := true |}.

(** [matches[-1]], when [matches] is not empty. *)
Definition last_match (matches : list string) : option string :=
  last matches.

Definition _extract_python_blocks (response : string) : result string :=
  match last_match (findall dotall_ignorecase python_pattern response) with
  | Some m => Ok (strip m)
  | None => Raise (ValueError "No Python code blocks found")
  end.

Definition python_indicators : list string :=
  [ "from strands"; "import strands"; "Agent("; "def "; "class "; "if __name__" ].

Definition _looks_like_python (code : string) : bool :=
  existsb (fun indicator => contains indicator code) python_indicators.

Definition _extract_generic_blocks (response : string) : result string :=
  match find _looks_like_python (rev (findall dotall code_pattern response)) with
  | Some m => Ok (strip m)
  | None => Raise (ValueError "No generic code blocks with Python content found")
  end.

Definition _extract_import_based (response : string) : result string :=
  match last_match (findall dotall import_pattern response) with
  | Some m => Ok (strip m)
  | None => Raise (ValueError "No import-based code found")
  end.

(** The loop over [patterns]: the first pattern with a match decides. *)
Fixpoint first_pattern_match (ps : list regex) (response : string)
  : result string :=
  match ps with
  | [] => Raise (ValueError "No pattern-based code found")
  | p :: ps' =>
      match last_match (findall dotall p response) with
      | Some m => Ok (strip m)
      | None => first_pattern_match ps' response
      end
  end.

Definition _extract_pattern_matching (response : string) : result string :=
  first_pattern_match patterns response.

(** [_calculate_confidence], in tenths. *)
Definition _calculate_confidence (code : string) : nat :=
  let add (b : bool) (w : nat) (acc : nat) := if b then acc + w else acc in
  let confidence := 0 in
  let confidence :=
    add (contains "from strands" code || contains "import strands" code) 3 confidence in
  let confidence := add (contains "Agent(" code) 3 confidence in
  let confidence := add (contains "def " code || contains "class " code) 2 confidence in
  let confidence := add (contains "#" code) 1 confidence in
  let confidence := add (contains "import" code) 1 confidence in
  Nat.min confidence 10.

Definition extraction_methods : list (string * (string -> result string)) :=
  [ ("python_blocks", _extract_python_blocks);
    ("generic_blocks", _extract_generic_blocks);
    ("import_based", _extract_import_based);
    ("pattern_matching", _extract_pattern_matching) ].

(** [str(e)] for the exceptions raised by the extraction methods. *)
Definition exn_str (e : exn) : string :=
  match e with
  | ValueError msg | TypeError msg | AttributeError msg => msg
  | KeyError k => "'" +:+ k +:+ "'"
  | JSONDecodeError => "Expecting value"
  | ClientError code => code
  | OtherException name => name
  end.

(** The test of line 911: [code and len(code.strip()) > 50]. *)
Definition viable (code : string) : bool :=
  negb (is_empty code) && (50 <? String.length (strip code)).

Definition critical_message (method_name : string) : string :=
  "CRITICAL: " +:+ method_name
  +:+ " extracted code with escape sequences - investigate extraction logic!".

(** The loop of lines 908-925 over the methods still to be tried, and
    the final return of lines 927-931.  [logs] is what has been logged so
    far. *)
Fixpoint try_methods (methods : list (string * (string -> result string)))
    (response : string) (logs : list log_record)
  : extraction_result * list log_record :=
  match methods with
  | [] =>
      (ExtractionFailure "All code extraction methods failed" (take 500 response),
       logs)
  | (method_name, method) :: rest =>
      match method response with
      | Ok code =>
          if viable code
          then
            let logs :=
              if contains "\n" code
              then logs ++ [(ERROR, critical_message method_name)]
              else logs in
            (ExtractionSuccess code method_name (_calculate_confidence code), logs)
          else try_methods rest response logs
      | Raise e =>
          try_methods rest response
            (logs ++ [(DEBUG, "Extraction method " +:+ method_name
                              +:+ " failed: " +:+ exn_str e)])
      end
  end.

Definition _extract_code_with_fallbacks (response : string)
  : extraction_result * list log_record :=
  try_methods extraction_methods response [].

(** A method fails on a response when it raises or when what it returns
    does not pass the test of line 911. *)
Definition method_fails (method : string -> result string) (response : string)
  : bool :=
  match method response with
  | Ok code => negb (viable code)
  | Raise _ => true
  end.

Definition all_methods_fail (response : string) : bool :=
  forallb (fun nm => method_fails (snd nm) response) extraction_methods.

End Extraction.


(** ** Python values and response-text normalisation
    ([agent_service.py], [_extract_response_text_properly]) *)

Module Response.
Import PyStr.

(** The Python values that reach the pipeline: JSON-like data, and objects
    with attributes.  A dictionary is the list of its items in insertion
    order, with distinct keys; an object is the list of its attributes and
    the text that [str()] gives for it. *)
Inductive pyval : Type :=
| PNone
| PBool (b : bool)
| PInt (n : Z)
| PStr (s : string)
| PList (items : list pyval)
| PDict (items : list (string * pyval))
| PObj (attrs : list (string * pyval)) (shown : string).

Fixpoint assoc {A : Type} (key : string) (items : list (string * A)) : option A :=
  match items with
  | [] => None
  | (k, v) :: rest => if String.eqb k key then Some v else assoc key rest
  end.

(** [hasattr(v, name)] and [getattr(v, name)] for the attribute names the
    sources ask for ([message], [content], [text]): only objects have them. *)
Definition getattr (v : pyval) (name : string) : option pyval :=
  match v with
  | PObj attrs _ => assoc name attrs
  | _ => None
  end.

Definition hex_digit (n : nat) : ascii :=
  if n <? 10 then ascii_of_nat (48 + n) else ascii_of_nat (87 + n).

Definition hex2 (c : ascii) : string :=
  let n := nat_of_ascii c in
  String (hex_digit (n / 16)) (String (hex_digit (n mod 16)) EmptyString).

(** [str.isprintable] on one character. *)
Definition isprintable (c : ascii) : bool :=
  let n := nat_of_ascii c in
  ((32 <=? n) && (n <=? 126)) || ((161 <=? n) && negb (n =? 173)).

(** [repr(s)] for a string: written between single quotes, unless the
    text has a single quote and no double quote; the quote in use, the
    backslash, TAB, LF, CR and the unprintable characters are escaped. *)
Definition repr_char (quote c : ascii) : string :=
  if Ascii.eqb c quote || Ascii.eqb c BSL then String BSL (String c EmptyString)
  else if Ascii.eqb c "009"%char then "\t"
  else if Ascii.eqb c LF then "\n"
  else if Ascii.eqb c CR then "\r"
  else if isprintable c then String c EmptyString
  else "\x" +:+ hex2 c.

Fixpoint repr_chars (quote : ascii) (s : string) : string :=
  match s with
  | EmptyString => EmptyString
  | String c s' => repr_char quote c +:+ repr_chars quote s'
  end.

Definition repr_str (s : string) : string :=
  let quote := if has_char SQ s && negb (has_char DQ s) then DQ else SQ in
  String quote (repr_chars quote s +:+ String quote EmptyString).

Definition str_of_Z (n : Z) : string :=
  DecimalString.NilZero.string_of_int (Z.to_int n).

(** [repr(v)]. *)
Fixpoint repr (v : pyval) : string :=
  match v with
  | PNone => "None"
  | PBool true => "True"
  | PBool false => "False"
  | PInt n => str_of_Z n
  | PStr s => repr_str s
  | PList items => "[" +:+ join ", " (map repr items) +:+ "]"
  | PDict items =>
      "{" +:+ join ", " (map (fun kv => repr_str (fst kv) +:+ ": " +:+ repr (snd kv)) items)
      +:+ "}"
  | PObj _ shown => shown
  end.

(** [str(v)]. *)
Definition str (v : pyval) : string :=
  match v with
  | PStr s => s
  | _ => repr v
  end.

(** The loop of lines 1055-1059 over the blocks of a dictionary's
    [content] list. *)
Fixpoint dict_text_parts (content : list pyval) : list pyval :=
  match content with
  | [] => []
  | block :: rest =>
      match block with
      | PDict items =>
          match assoc "text" items with
          | Some t => t :: dict_text_parts rest
          | None => dict_text_parts rest
          end
      | PStr s => PStr s :: dict_text_parts rest
      | _ => dict_text_parts rest
      end
  end.

(** The loop of lines 1073-1079 over the blocks of an object's [content]
    list. *)
Fixpoint object_text_parts (content : list pyval) : list pyval :=
  match content with
  | [] => []
  | block :: rest =>
      match getattr block "text" with
      | Some t => t :: object_text_parts rest
      | None =>
          match block with
          | PDict items =>
              match assoc "text" items with
              | Some t => t :: object_text_parts rest
              | None => object_text_parts rest
              end
          | PStr s => PStr s :: object_text_parts rest
          | _ => object_text_parts rest
          end
      end
  end.

(** The texts of a list of values that are all strings. *)
Fixpoint strings_of (parts : list pyval) : option (list string) :=
  match parts with
  | [] => Some []
  | PStr s :: rest =>
      match strings_of rest with
      | Some l => Some (s :: l)
      | None => None
      end
  | _ :: _ => None
  end.

(** ['\n'.join(text_parts)]: raises [TypeError] when a part is not a
    string. *)
Definition join_parts (text_parts : list pyval) : result pyval :=
  match strings_of text_parts with
  | Some l => Ok (PStr (join NL l))
  | None => Raise (TypeError "sequence item: expected str instance")
  end.

(** Cases 3 and 4 and the fallback (lines 1068-1090). *)
Definition extract_from_attributes (message : pyval) : result pyval :=
  let case4 :=
    match getattr message "text" with
    | Some t => Ok t
    | None => Ok (PStr (str message))
    end in
  match getattr message "content" with
  | Some (PList (b :: bs)) =>
      match object_text_parts (b :: bs) with
      | [] => Ok (PStr (str (PList (b :: bs))))
      | parts => join_parts parts
      end
  | Some (PStr s) => Ok (PStr s)
  | _ => case4
  end.

(** [_extract_response_text_properly(result)]; the argument is called
    [response] here. *)
Definition _extract_response_text_properly (response : pyval) : result pyval :=
  match getattr response "message" with
  | None => Ok (PStr (str response))
  | Some message =>
      match message with
      | PStr s => Ok (PStr s)
      | PDict items =>
          let other_structures :=
            match assoc "text" items with
            | Some t => Ok t
            | None => extract_from_attributes message
            end in
          match assoc "content" items with
          | Some (PList (b :: bs)) =>
              match dict_text_parts (b :: bs) with
              | [] => Ok (PStr (str message))
              | parts => join_parts parts
              end
          | Some (PStr s) => Ok (PStr s)
          | _ => other_structures
          end
      | _ => extract_from_attributes message
      end
  end.

(** A response dictionary [{'content': [{'text': t1}, {'text': t2}, ...]}]. *)
Definition text_block (t : string) : pyval := PDict [("text", PStr t)].

Definition content_response (texts : list string) : pyval :=
  PDict [("content", PList (map text_block texts))].

(** An agent result object whose [message] attribute is [message]. *)
Definition with_message (message : pyval) (shown : string) : pyval :=
  PObj [("message", message)] shown.

End Response.


(** ** JSON text ([json.dumps], and the decoder taken as a parameter) *)

Module Json.
Import PyStr Response.

Definition hex4 (c : ascii) : string := "00" +:+ hex2 c.

(** One character of a string under [json.dumps] with its default
    [ensure_ascii=True]: the double quote, the backslash and the control
    characters with a short form are written with it; every other
    character outside SPACE..TILDE is written as a [u] escape. *)
Definition json_char (c : ascii) : string :=
  let n := nat_of_ascii c in
  if Ascii.eqb c DQ then String BSL (String DQ EmptyString)
  else if Ascii.eqb c BSL then String BSL (String BSL EmptyString)
  else if Ascii.eqb c LF then "\n"
  else if Ascii.eqb c CR then "\r"
  else if Ascii.eqb c "009"%char then "\t"
  else if Ascii.eqb c "008"%char then "\b"
  else if Ascii.eqb c "012"%char then "\f"
  else if (32 <=? n) && (n <=? 126) then String c EmptyString
  else "\u" +:+ hex4 c.

Fixpoint json_chars (s : string) : string :=
  match s with
  | EmptyString => EmptyString
  | String c s' => json_char c +:+ json_chars s'
  end.

Definition json_str (s : string) : string :=
  String DQ (json_chars s +:+ String DQ EmptyString).

Definition all_some {A : Type} (l : list (option A)) : option (list A) :=
  fold_right
    (fun o acc =>
       match o, acc with
       | Some a, Some r => Some (a :: r)
       | _, _ => None
       end)
    (Some []) l.

(** [json.dumps(v)] with the default separators; [None] when [v] holds
    an object, which is not serialisable ([TypeError]). *)
Fixpoint json_dumps (v : pyval) : option string :=
  match v with
  | PNone => Some "null"
  | PBool true => Some "true"
  | PBool false => Some "false"
  | PInt n => Some (str_of_Z n)
  | PStr s => Some (json_str s)
  | PList items =>
      match all_some (map json_dumps items) with
      | Some l => Some ("[" +:+ join ", " l +:+ "]")
      | None => None
      end
  | PDict items =>
      match all_some
              (map (fun kv =>
                      match json_dumps (snd kv) with
                      | Some t => Some (json_str (fst kv) +:+ ": " +:+ t)
                      | None => None
                      end) items) with
      | Some l => Some ("{" +:+ join ", " l +:+ "}")
      | None => None
      end
  | PObj _ _ => None
  end.

(** A decoder for a fragment of JSON, used where a concrete [json.loads]
    is needed to run the model: a string literal without escapes (no
    backslash, no double quote and no control character inside), the words
    [null], [true], [false], and a decimal natural number without leading
    zero.  On these texts it answers what [json.loads] answers; on a text
    made only of letters that is none of the three words it answers [None],
    as [json.loads] raises [JSONDecodeError] there.  It is applied to no
    other text in this file. *)
Definition plain_char (c : ascii) : bool :=
  let n := nat_of_ascii c in
  (32 <=? n) && negb (Ascii.eqb c DQ) && negb (Ascii.eqb c BSL).

Definition is_digit (c : ascii) : bool :=
  let n := nat_of_ascii c in (48 <=? n) && (n <=? 57).

Fixpoint nat_of_digits (acc : nat) (s : string) : nat :=
  match s with
  | EmptyString => acc
  | String c s' => nat_of_digits (10 * acc + (nat_of_ascii c - 48)) s'
  end.

Definition json_loads_fragment (s : string) : option pyval :=
  match s with
  | String c rest =>
      if Ascii.eqb c DQ then
        if endswith rest (String DQ EmptyString)
           && all_chars plain_char (take (String.length rest - 1) rest)
        then Some (PStr (take (String.length rest - 1) rest))
        else None
      else if String.eqb s "null" then Some PNone
      else if String.eqb s "true" then Some (PBool true)
      else if String.eqb s "false" then Some (PBool false)
      else if all_chars is_digit s && (is_empty rest || negb (Ascii.eqb c "0"%char))
      then Some (PInt (Z.of_nat (nat_of_digits 0 s)))
      else None
  | EmptyString => None
  end.

End Json.

(** ** Streamed remote responses
    ([agent_service.py], [_process_agentcore_response], lines 1330-1401) *)

Module Sse.
Import PyStr Response Json.

(** The state of the loop of line 1336. *)
Record loop_state : Type := { chunk_count : nat; full_content : string }.

(** [final_response] of lines 1383-1391. *)
Definition final_response (full_content : string) (request_id : option string)
  : pyval :=
  PDict
    [ ("success", PBool true);
      ("code", PStr full_content);
      ("metadata",
        PDict
          [ ("request_id",
              match request_id with Some r => PStr r | None => PNone end);
            ("streaming", PBool true);
            ("generation_method", PStr "agentcore_expert_streaming") ]) ].

(** The frame of line 1394, when [json.dumps] succeeds. *)
Definition final_sse (full_content : string) (request_id : option string)
  : option string :=
  match json_dumps (final_response full_content request_id) with
  | Some t => Some ("data: [FINAL]" +:+ t +:+ NL +:+ NL)
  | None => None
  end.

(** A content frame: [f"data: {payload}\n\n"]. *)
Definition data_frame (payload : string) : string :=
  "data: " +:+ payload +:+ NL +:+ NL.

(** Line 1356: [text.replace('\n', '\\n').replace('\r', '\\r')]. *)
Definition escape_newlines (text : string) : string :=
  replace CRs "\r" (replace NL "\n" text).

Section Stream.

(** [json.loads]: [None] stands for [JSONDecodeError]. *)
Variable json_loads : string -> option pyval.

(** The body of the loop for one line of [iter_lines()], given as its
    text (the line decodes as UTF-8): the new state and the frames
    yielded, or the exception that leaves the loop. *)
Definition handle_line (line : string) (st : loop_state)
  : result (loop_state * list string) :=
  if is_empty line then Ok (st, [])
  else
    let chunk_count := S (chunk_count st) in
    if startswith line "data: " then
      let content_chunk := drop 6 line in
      match json_loads content_chunk with
      | Some (PStr text_content) =>
          Ok ({| chunk_count := chunk_count;
                 full_content := full_content st +:+ text_content |},
              [data_frame (escape_newlines text_content)])
      | Some _ =>
          (* [full_content += text_content] with a value that is not a
             string *)
          Raise (TypeError "can only concatenate str to str")
      | None =>
          Ok ({| chunk_count := chunk_count;
                 full_content := full_content st +:+ content_chunk |},
              [data_frame content_chunk])
      end
    else if is_empty (strip line) then
      Ok ({| chunk_count := chunk_count; full_content := full_content st |},
          [line +:+ NL])
    else
      Ok ({| chunk_count := chunk_count;
             full_content := full_content st +:+ line +:+ NL |},
          [data_frame line]).

(** The loop: the frames yielded, and the state at its end or the
    exception that stopped it. *)
Fixpoint stream_lines (lines : list string) (st : loop_state)
  : list string * result loop_state :=
  match lines with
  | [] => ([], Ok st)
  | line :: rest =>
      match handle_line line st with
      | Ok (st', out) =>
          let (frames, r) := stream_lines rest st' in (out ++ frames, r)
      | Raise e => ([], Raise e)
      end
  end.

(** The streaming branch: all the frames the generator yields when it is
    iterated to its end.  An exception in the loop is caught at line
    1519 and ends the generator without a final frame. *)
Definition streaming_branch (lines : list string) (request_id : option string)
  : list string :=
  let (frames, r) := stream_lines lines {| chunk_count := 0; full_content := EmptyString |} in
  match r with
  | Ok st =>
      match final_sse (full_content st) request_id with
      | Some f => frames ++ [f]
      | None => frames
      end
  | Raise _ => frames
  end.

(** The text a content line contributes to [full_content], when the loop
    goes on after it. *)
Definition decoded_payload (payload : string) : option string :=
  match json_loads payload with
  | Some (PStr t) => Some t
  | Some _ => None
  | None => Some payload
  end.

End Stream.

(** The sentinel marker of a final frame. *)
Definition is_final_frame (frame : string) : bool :=
  startswith frame "data: [FINAL]".

End Sse.


(** ** The artifact store client ([s3_code_storage_service.py]) *)

Module S3Store.
Import PyStr.

(** An object of the bucket.  The body is kept as text: it is written as
    [code_content.encode('utf-8')] and read back with [decode('utf-8')]. *)
Record s3_object : Type := {
  Body : string;
  ContentType : string;
  Metadata : list (string * string);
  LastModified : nat
}.

(** The S3 client as the service sees it: the objects of the bucket by
    key, a clock for the modification times, and the exception every call
    raises while the backend is out of order (a [ClientError] with its
    error code, a connection error, ...). *)
Record s3_client : Type := {
  objects : gmap string s3_object;
  clock : nat;
  fault : option exn
}.

Record S3CodeStorageService : Type := {
  s3_client_ : s3_client;
  bucket_name : string
}.

Definition put_object (c : s3_client) (key body content_type : string)
    (metadata : list (string * string)) : result s3_client :=
  match fault c with
  | Some e => Raise e
  | None =>
      Ok {| objects :=
              <[ key := {| Body := body; ContentType := content_type;
                           Metadata := metadata; LastModified := clock c |} ]>
                (objects c);
            clock := S (clock c);
            fault := None |}
  end.

Definition get_object (c : s3_client) (key : string) : result s3_object :=
  match fault c with
  | Some e => Raise e
  | None =>
      match objects c !! key with
      | Some o => Ok o
      | None => Raise (ClientError "NoSuchKey")
      end
  end.

(** The dictionaries returned by [store_code_file]. *)
Inductive store_response : Type :=
| StoreSuccess (s3_uri bucket key code_type session_id : string)
    (content_length : nat)
| StoreError (error : string).

(** The dictionaries returned by [get_code_file]. *)
Inductive get_response : Type :=
| GetSuccess (code_content s3_uri code_type session_id : string)
    (last_modified : nat) (content_length : nat)
| GetNotFound (error : string)
| GetError (error : string).

Definition store_status (r : store_response) : string :=
  match r with
  | StoreSuccess _ _ _ _ _ _ => "success"
  | StoreError _ => "error"
  end.

Definition get_status (r : get_response) : string :=
  match r with
  | GetSuccess _ _ _ _ _ _ => "success"
  | GetNotFound _ => "not_found"
  | GetError _ => "error"
  end.

Definition code_types : list string :=
  [ "pure_strands"; "agentcore_ready"; "requirements" ].

(** [code_type in ['pure_strands', 'agentcore_ready', 'requirements']]. *)
Definition recognized (code_type : string) : bool :=
  existsb (String.eqb code_type) code_types.

(** [c.isalnum() or c in '-_']. *)
Definition allowed_char (c : ascii) : bool :=
  isalnum c || Ascii.eqb c "-"%char || Ascii.eqb c "_"%char.

(** [''.join(c for c in session_id if c.isalnum() or c in '-_')]. *)
Definition sanitize (session_id : string) : string :=
  filter_chars allowed_char session_id.

(** [f"temp-code/{safe_session_id}/{code_type}{file_extension}"]. *)
Definition s3_key_of (safe_session_id code_type file_extension : string) : string :=
  "temp-code/" +:+ safe_session_id +:+ "/" +:+ code_type +:+ file_extension.

Definition s3_uri_of (bucket key : string) : string :=
  "s3://" +:+ bucket +:+ "/" +:+ key.

Definition invalid_code_type (code_type : string) : exn :=
  ValueError ("Invalid code_type: " +:+ code_type
              +:+ ". Must be 'pure_strands', 'agentcore_ready', or 'requirements'").

(** [not s or not s.strip()]. *)
Definition blank (s : string) : bool := is_empty s || is_empty (strip s).

(** The parameter [file_extension: str = '.py']: [None] stands for an
    omitted argument. *)
Definition extension_argument (file_extension : option string) : string :=
  match file_extension with
  | Some e => e
  | None => ".py"
  end.

(** The [try] block of [store_code_file] (lines 71-120). *)
Definition store_code_file_try (self : S3CodeStorageService)
    (session_id code_content code_type : string) (file_extension : option string)
  : result (store_response * S3CodeStorageService) :=
  let file_extension := extension_argument file_extension in
  if negb (recognized code_type) then Raise (invalid_code_type code_type)
  else if blank session_id then Raise (ValueError "session_id cannot be empty")
  else if blank code_content then Raise (ValueError "code_content cannot be empty")
  else
    let safe_session_id := sanitize session_id in
    if is_empty safe_session_id
    then Raise (ValueError "session_id contains no valid characters for S3 key")
    else
      let s3_key := s3_key_of safe_session_id code_type file_extension in
      let content_type :=
        if String.eqb file_extension ".txt" then "text/plain" else "text/x-python" in
      let! client :=
        put_object (s3_client_ self) s3_key code_content content_type
          [ ("session-id", session_id);
            ("code-type", code_type);
            ("content-length", Response.str_of_Z (Z.of_nat (String.length code_content)));
            ("file-extension", file_extension) ] in
      Ok (StoreSuccess (s3_uri_of (bucket_name self) s3_key) (bucket_name self)
            s3_key code_type session_id (String.length code_content),
          {| s3_client_ := client; bucket_name := bucket_name self |}).

(** [store_code_file], with its three [except] clauses.  The answer is a
    [result] so that an exception leaving the method would show. *)
Definition store_code_file (self : S3CodeStorageService)
    (session_id code_content code_type : string) (file_extension : option string)
  : result (store_response * S3CodeStorageService) :=
  match store_code_file_try self session_id code_content code_type file_extension with
  | Ok r => Ok r
  | Raise (ValueError _) => Ok (StoreError "Validation error", self)
  | Raise (ClientError _) => Ok (StoreError "AWS S3 error", self)
  | Raise _ => Ok (StoreError "Unexpected error", self)
  end.

(** The extension [get_code_file] probes for a slot (line 164). *)
Definition extension_of (code_type : string) : string :=
  if String.eqb code_type "requirements" then ".txt" else ".py".

(** The [try] block of [get_code_file] (lines 154-186). *)
Definition get_code_file_try (self : S3CodeStorageService)
    (session_id code_type : string) : result get_response :=
  if negb (recognized code_type) then Raise (invalid_code_type code_type)
  else
    let safe_session_id := sanitize session_id in
    if is_empty safe_session_id
    then Raise (ValueError "session_id contains no valid characters for S3 key")
    else
      let file_extension := extension_of code_type in
      let s3_key := s3_key_of safe_session_id code_type file_extension in
      let! response := get_object (s3_client_ self) s3_key in
      let code_content := Body response in
      Ok (GetSuccess code_content (s3_uri_of (bucket_name self) s3_key)
            code_type session_id (LastModified response)
            (String.length code_content)).

(** [get_code_file], with its two [except] clauses. *)
Definition get_code_file (self : S3CodeStorageService)
    (session_id code_type : string) : result get_response :=
  match get_code_file_try self session_id code_type with
  | Ok r => Ok r
  | Raise (ClientError error_code) =>
      if String.eqb error_code "NoSuchKey"
      then Ok (GetNotFound "Code file not found")
      else Ok (GetError "AWS S3 error")
  | Raise _ => Ok (GetError "Unexpected error")
  end.

(** The key [get_code_file] reads for a session id and a slot. *)
Definition probed_key (session_id code_type : string) : string :=
  s3_key_of (sanitize session_id) code_type (extension_of code_type).

(** A service on an empty bucket with a working backend. *)
Definition empty_service (bucket : string) : S3CodeStorageService :=
  {| s3_client_ := {| objects := ∅; clock := 0; fault := None |};
     bucket_name := bucket |}.

End S3Store.

(** ** Regional prefixes of model identifiers *)

(** [model_utils.py] (the same text is in [backend/utils/model_utils.py]). *)
Module ModelUtils.
Import PyStr.

(** The table of lines 39-52, for a region name that is not empty. *)
Definition prefix_of_region (region : string) : string :=
  if startswith region "us-" then "us."
  else if startswith region "eu-" then "eu."
  else if startswith region "ap-" then "apac."
  else if startswith region "ca-" then "us."
  else if startswith region "sa-" then "us."
  else "us.".

(** [model_id.startswith(('us.', 'eu.', 'apac.'))]. *)
Definition has_regional_prefix (model_id : string) : bool :=
  startswith model_id "us." || startswith model_id "eu."
  || startswith model_id "apac.".

Definition regional_prefixes : list string := [ "us."; "eu."; "apac." ].

Section Session.

(** [boto3.Session().region_name]: a region name, [None], or an
    exception. *)
Variable session_region : result (option string).

Definition get_regional_prefix (region : option string) : string :=
  let region :=
    match region with
    | Some r => Some r
    | None =>
        match session_region with
        | Ok r => r
        | Raise _ => Some "us-east-1"
        end
    end in
  match region with
  | None => "us."
  | Some r => if is_empty r then "us." else prefix_of_region r
  end.

Definition format_model_for_cris (model_id : string) (region : option string)
  : string :=
  if is_empty model_id then model_id
  else if has_regional_prefix model_id then model_id
  else get_regional_prefix region +:+ model_id.

End Session.

End ModelUtils.

(** [backend/services/model_id_service.py]: the same formatting as a method
    of a service that caches the region it detects. *)
Module ModelIDService.
Import PyStr.

Record ModelIDService : Type := {
  _region_cache : option string;
  _default_model_cache : option string
}.

Section Collaborators.

(** [config_service.get_all_config().get('REGION')] and
    [boto3.Session().region_name]. *)
Variable config_region : result (option string).
Variable session_region : result (option string).

Definition truthy (s : option string) : bool :=
  match s with
  | Some r => negb (is_empty r)
  | None => false
  end.

(** Lines 43-61: the region used when the caller gives none, and the
    cache after the call. *)
Definition detect_region (self : ModelIDService)
  : option string * ModelIDService :=
  if truthy (_region_cache self) then (_region_cache self, self)
  else
    let detected :=
      let! region := config_region in
      if truthy region then Ok region else session_region in
    let region :=
      match detected with
      | Ok r => r
      | Raise _ => Some "us-east-1"
      end in
    (region,
     {| _region_cache := region;
        _default_model_cache := _default_model_cache self |}).

Definition get_regional_prefix (self : ModelIDService) (region : option string)
  : string * ModelIDService :=
  let (region, self) :=
    match region with
    | Some r => (Some r, self)
    | None => detect_region self
    end in
  (match region with
   | None => "us."
   | Some r => if is_empty r then "us." else ModelUtils.prefix_of_region r
   end, self).

Definition format_model_for_cris (self : ModelIDService) (model_id : string)
    (region : option string) : string * ModelIDService :=
  if is_empty model_id then (model_id, self)
  else if ModelUtils.has_regional_prefix model_id then (model_id, self)
  else
    let (regional_prefix, self) := get_regional_prefix self region in
    (regional_prefix +:+ model_id, self).

End Collaborators.

End ModelIDService.


(** ** The remote attempt and the orchestrator
    ([agent_service.py], lines 544-632 and 1191-1523) *)

Module Orchestrator.
Import PyStr Response Json Sse.

Record GenerationResult : Type := {
  configuration_analysis : string;
  generated_code : string;
  testing_verification : string;
  final_working_code : string;
  reasoning_process : option string;
  metadata : list (string * pyval)
}.

(** An item of a buffered response: bytes (given by their UTF-8 text) or
    an already decoded value. *)
Inductive event : Type :=
| EventBytes (text : string)
| EventValue (v : pyval).

(** What [invoke_agent_runtime] answers: the content type, the lines
    that [response["response"].iter_lines()] yields, and the items that
    iterating [response.get("response", [])] yields. *)
Record agentcore_response : Type := {
  contentType : string;
  iter_lines : list string;
  events : list event
}.

(** [_process_agentcore_response] has [yield] statements in its body, so it
    is a generator function: calling it runs nothing and returns a generator
    object.  A generator is described by what its body does once it is
    iterated to the end: the frames it yields, and the value of its
    [return] statement ([None] for a plain [return], for [return None], and
    for an exception caught at line 1519). *)
Record generator : Type := {
  yielded : list string;
  returned : option GenerationResult
}.

(** [s.lower()]. *)
Definition lower_char (c : ascii) : ascii :=
  let n := nat_of_ascii c in
  if ((65 <=? n) && (n <=? 90))
     || ((192 <=? n) && (n <=? 222) && negb (n =? 215))
  then ascii_of_nat (n + 32) else c.

Fixpoint str_lower (s : string) : string :=
  match s with
  | EmptyString => EmptyString
  | String c s' => String (lower_char c) (str_lower s')
  end.

(** [_should_use_agentcore_runtime]; the argument is the value of the
    environment variable [USE_AGENTCORE_RUNTIME], if it is set. *)
Definition _should_use_agentcore_runtime (env_value : option string) : bool :=
  let use_agentcore :=
    str_lower (match env_value with Some v => v | None => "true" end) in
  negb (String.eqb use_agentcore "false").

(** [_get_expert_agent_arn]; the argument is the outcome of the two AWS
    calls (caller identity, then the SSM parameter). *)
Definition _get_expert_agent_arn (ssm_value : result string) : option string :=
  match ssm_value with
  | Ok agent_arn =>
      if negb (is_empty agent_arn) && negb (String.eqb agent_arn "None")
      then Some agent_arn else None
  | Raise _ => None
  end.

(** The collaborators of one request. *)
Record remote_runtime : Type := {
  USE_AGENTCORE_RUNTIME : option string;
  ssm_runtime_arn : result string;
  (** lines 1253-1311: payload, session id, client and the invocation *)
  invoke_agent_runtime : result agentcore_response
}.

(** The value [generate_code_freeform] returns. *)
Inductive generation_outcome : Type :=
| RemoteObject (g : generator)            (* line 560 *)
| LocalResult (r : GenerationResult).     (* line 621 *)

Section Pipeline.

Variable json_loads : string -> option pyval.

(** Lines 1450-1517, taken as a parameter: the value the body returns
    for the decoded payload ([None] for [return None] and for an
    exception). *)
Variable reconstruct_result : pyval -> option string -> option GenerationResult.

(** Lines 562-628, taken as a parameter: the local generation, which
    returns a result or raises. *)
Variable local_generation : result GenerationResult.

(** Lines 1414-1417 and 1439-1442. *)
Definition parse_result (result_text : string) : pyval :=
  match json_loads result_text with
  | Some v => v
  | None => PDict [("result", PStr result_text)]
  end.

(** Lines 1404-1411. *)
Definition collect_lines (lines : list string) : string :=
  join NL
    (flat_map
       (fun line =>
          if is_empty line then []
          else [if startswith line "data: " then drop 6 line else line])
       lines).

(** Lines 1428-1437: the text of the first event. *)
Definition event_text (e : event) : option string :=
  match e with
  | EventBytes text => Some text
  | EventValue (PStr s) => Some s
  | EventValue (PDict items) => json_dumps (PDict items)
  | EventValue _ => None
  end.

(** The body of [_process_agentcore_response], run to its end. *)
Definition process_body (response : agentcore_response)
    (request_id : option string) (stream : bool) : generator :=
  if contains "text/event-stream" (contentType response) then
    if stream then
      {| yielded := streaming_branch json_loads (iter_lines response) request_id;
         returned := None |}
    else
      {| yielded := [];
         returned :=
           reconstruct_result (parse_result (collect_lines (iter_lines response)))
             request_id |}
  else
    match events response with
    | [] => {| yielded := []; returned := None |}
    | e :: _ =>
        match event_text e with
        | Some result_text =>
            {| yielded := [];
               returned := reconstruct_result (parse_result result_text) request_id |}
        | None => {| yielded := []; returned := None |}
        end
    end.

(** The call [self._process_agentcore_response(response, request_id,
    stream)]: it returns the generator object and cannot raise. *)
Definition _process_agentcore_response (response : agentcore_response)
    (request_id : option string) (stream : bool) : result generator :=
  Ok (process_body response request_id stream).

(** [_try_agentcore_expert_agent]: [None], or the object returned at line
    1314. *)
Definition _try_agentcore_expert_agent (rt : remote_runtime)
    (request_id : option string) (stream : bool) : option generator :=
  let attempt : result (option generator) :=
    if negb (_should_use_agentcore_runtime (USE_AGENTCORE_RUNTIME rt)) then Ok None
    else
      match _get_expert_agent_arn (ssm_runtime_arn rt) with
      | None => Ok None
      | Some expert_agent_arn =>
          let! response := invoke_agent_runtime rt in
          let! g := _process_agentcore_response response request_id stream in
          Ok (Some g)
      end in
  match attempt with
  | Ok r => r
  | Raise _ => None
  end.

(** [generate_code_freeform]: the test of line 558 is the truth value of
    the object, and a generator object is true. *)
Definition generate_code_freeform (rt : remote_runtime)
    (request_id : option string) (stream : bool) : result generation_outcome :=
  match _try_agentcore_expert_agent rt request_id stream with
  | Some agentcore_result => Ok (RemoteObject agentcore_result)
  | None =>
      let! r := local_generation in
      Ok (LocalResult r)
  end.

(** The remote attempt is unavailable, or fails before the response is
    handed to [_process_agentcore_response]. *)
Definition remote_unavailable (rt : remote_runtime) : bool :=
  negb (_should_use_agentcore_runtime (USE_AGENTCORE_RUNTIME rt))
  || match _get_expert_agent_arn (ssm_runtime_arn rt) with
     | None => true
     | Some _ => match invoke_agent_runtime rt with Ok _ => false | Raise _ => true end
     end.

End Pipeline.

End Orchestrator.


(** ** Vocabulary of the statements, and sample inputs *)

Module Spec.
Import PyStr Regex Extraction Response Json Sse Cleanup Orchestrator.

(** [runs_ok n s]: every run of line feeds of [s] has at most two of them,
    the first run being counted with [n] line feeds read before [s]. *)
Fixpoint runs_ok (n : nat) (s : string) : bool :=
  match s with
  | EmptyString => n <=? 2
  | String c s' =>
      if Ascii.eqb c LF then runs_ok (S n) s'
      else (n <=? 2) && runs_ok 0 s'
  end.

(** [ws_edit s t]: [t] is [s] where some white space characters have been
replaced by white space (possibly none), and white space added at the end;
no white space comes between two characters that were next to each other. *)
Inductive ws_edit : string -> string -> Prop :=
| ws_end (w : string) :
    all_chars isspace w = true -> ws_edit EmptyString w
| ws_keep (c : ascii) (s t : string) :
    ws_edit s t -> ws_edit (String c s) (String c t)
| ws_swap (c : ascii) (w s t : string) :
    isspace c = true -> all_chars isspace w = true ->
    ws_edit s t -> ws_edit (String c s) (w +:+ t).

(** A text without any white space character. *)
Definition solid (p : string) : bool :=
  all_chars (fun c => negb (isspace c)) p.

(** A response with a fenced block that holds a literal backslash-n: the
    text is a sentence, a line feed, and the block

    [```python]
    [from strands import Agent]
    [agent = Agent(tools=[])]
    [print('a\nb')  # done, long enough now]
    [```] *)
Definition escaped_code : string :=
  "from strands import Agent" +:+ NL +:+ "agent = Agent(tools=[])" +:+ NL
  +:+ "print('a\nb')  # done, long enough now".

Definition escaped_response : string :=
  "Here is the code:" +:+ NL +:+ fence +:+ "python" +:+ NL
  +:+ escaped_code +:+ NL +:+ fence +:+ NL.

(** The frame yielded for a content line with the given payload. *)
Definition content_frame (json_loads : string -> option pyval) (payload : string)
  : string :=
  match json_loads payload with
  | Some (PStr t) => data_frame (escape_newlines t)
  | _ => data_frame payload
  end.

(** A stream of content lines and empty lines: [Some p] stands for the
    content line with payload [p], [None] for an empty line. *)
Definition sse_lines (items : list (option string)) : list string :=
  map (fun i => match i with
                | Some p => "data: " +:+ p
                | None => EmptyString
                end) items.

Definition payloads_of (items : list (option string)) : list string :=
  flat_map (fun i => match i with Some p => [p] | None => [] end) items.

(** Two content lines with string payloads around an empty line. *)
Definition quoted (s : string) : string := String DQ (s +:+ String DQ EmptyString).

Definition two_frames_one_empty_line : list string :=
  [ "data: " +:+ quoted "ab"; EmptyString; "data: " +:+ quoted "cd" ].

(** Formatting again and again, each time with its own [region]
    argument: the function of [model_utils.py] ... *)
Definition format_repeatedly (session_region : result (option string))
    (model_id : string) (regions : list (option string)) : string :=
  fold_left (ModelUtils.format_model_for_cris session_region) regions model_id.

(** ... and the method of the service, which hands its cache from one call
    to the next. *)
Fixpoint service_format_repeatedly (config_region session_region : result (option string))
    (self : ModelIDService.ModelIDService) (model_id : string)
    (regions : list (option string)) : string * ModelIDService.ModelIDService :=
  match regions with
  | [] => (model_id, self)
  | region :: rest =>
      let (formatted, self') :=
        ModelIDService.format_model_for_cris config_region session_region
          self model_id region in
      service_format_repeatedly config_region session_region self' formatted rest
  end.

(** A model id is settled when formatting leaves it alone: it is empty
    or already prefixed. *)
Definition settled (model_id : string) : bool :=
  is_empty model_id || ModelUtils.has_regional_prefix model_id.

(** A runtime that is enabled and deployed, and answers a buffered response
    without any event. *)
Definition empty_answer_runtime : remote_runtime :=
  {| USE_AGENTCORE_RUNTIME := None;
     ssm_runtime_arn :=
       Ok "arn:aws:bedrock-agentcore:us-east-1:123456789012:runtime/expert";
     invoke_agent_runtime :=
       Ok {| contentType := "application/json"; iter_lines := []; events := [] |} |}.

(** A runtime that answers an event stream whose only content line holds
    the JSON number 5. *)
Definition number_frame_runtime : remote_runtime :=
  {| USE_AGENTCORE_RUNTIME := Some "true";
     ssm_runtime_arn :=
       Ok "arn:aws:bedrock-agentcore:us-east-1:123456789012:runtime/expert";
     invoke_agent_runtime :=
       Ok {| contentType := "text/event-stream";
             iter_lines := ["data: 5"];
             events := [] |} |}.

End Spec.

(** ** Patterns with character classes
    (the [re] fragment of the validation scans and of the storage URIs) *)

Module Rx.
Import PyStr.

Inductive rx : Type :=
| RxEps
| RxOne (p : ascii -> bool)      (* one character of a class *)
| RxCat (r1 r2 : rx)
| RxStar (p : ascii -> bool)     (* greedy [p*] *)
| RxPlus (p : ascii -> bool).    (* greedy [p+] *)

(** A literal character, as written and under [re.IGNORECASE]. *)
Definition chr (x : ascii) : rx := RxOne (Ascii.eqb x).
Definition chr_i (x : ascii) : rx := RxOne (fun c => Ascii.eqb (lower x) (lower c)).

(** A literal text, as written and under [re.IGNORECASE]. *)
Fixpoint lit (s : string) : rx :=
  match s with
  | EmptyString => RxEps
  | String c s' => RxCat (chr c) (lit s')
  end.

Fixpoint lit_i (s : string) : rx :=
  match s with
  | EmptyString => RxEps
  | String c s' => RxCat (chr_i c) (lit_i s')
  end.

(** Greedy repetition with backtracking. *)
Fixpoint star {X : Type} (p : ascii -> bool) (s : string) (k : string -> option X)
  : option X :=
  match s with
  | String c s' =>
      if p c
      then match star p s' k with
           | Some x => Some x
           | None => k s
           end
      else k s
  | EmptyString => k s
  end.

Fixpoint run {X : Type} (r : rx) (s : string) (k : string -> option X) : option X :=
  match r with
  | RxEps => k s
  | RxOne p =>
      match s with
      | String c s' => if p c then k s' else None
      | EmptyString => None
      end
  | RxCat r1 r2 => run r1 s (fun s1 => run r2 s1 k)
  | RxStar p => star p s k
  | RxPlus p =>
      match s with
      | String c s' => if p c then star p s' k else None
      | EmptyString => None
      end
  end.

(** A match at the start of [s]: the text after it. *)
Definition match_end (r : rx) (s : string) : option string := run r s Some.

(** [re.search(r, s)] is not [None]. *)
Fixpoint search (r : rx) (s : string) : bool :=
  match match_end r s with
  | Some _ => true
  | None =>
      match s with
      | EmptyString => false
      | String _ s' => search r s'
      end
  end.

(** [re.findall(r, s)] for a pattern without group: the texts matched,
    from left to right, each search starting where the previous match
    ended.  [skip] counts the characters of the last match still to be
    passed over. *)
Fixpoint findall_from (r : rx) (skip : nat) (s : string) : list string :=
  match skip with
  | S n =>
      match s with
      | EmptyString => []
      | String _ s' => findall_from r n s'
      end
  | O =>
      match match_end r s with
      | Some rest =>
          take (String.length s - String.length rest) s
          :: match s with
             | EmptyString => []
             | String _ s' =>
                 findall_from r (String.length s - String.length rest - 1) s'
             end
      | None =>
          match s with
          | EmptyString => []
          | String _ s' => findall_from r 0 s'
          end
      end
  end.

Definition findall (r : rx) (s : string) : list string := findall_from r 0 s.

(** The characters a match of [r] can hold. *)
Fixpoint alphabet (r : rx) (c : ascii) : bool :=
  match r with
  | RxEps => false
  | RxOne p | RxStar p | RxPlus p => p c
  | RxCat r1 r2 => alphabet r1 c || alphabet r2 c
  end.

End Rx.

(** ** The pattern scans of the validation gate
    ([agent_service.py], lines 1136-1189) *)

Module Validation.
Import PyStr Rx.

(** [\s*\(] *)
Definition spaces_paren : rx := RxCat (RxStar isspace) (chr "("%char).

(** [injection_patterns] of lines 1147-1156, each with its source text; they
    are searched under [re.IGNORECASE]. *)
Definition injection_patterns : list (string * rx) :=
  [ ("__import__\s*\(", RxCat (lit_i "__import__") spaces_paren);
    ("exec\s*\(", RxCat (lit_i "exec") spaces_paren);
    ("eval\s*\(", RxCat (lit_i "eval") spaces_paren);
    ("subprocess\.", lit_i "subprocess.");
    ("os\.system", lit_i "os.system");
    ("<script", lit_i "<script");
    ("javascript:", lit_i "javascript:");
    ("data:text/html", lit_i "data:text/html") ].

Record configuration_validation : Type := {
  config_is_safe : bool;
  warnings : list string;
  sanitized_config : string
}.

(** [_validate_configuration_input(config_str)]. *)
Definition _validate_configuration_input (config_str : string)
  : configuration_validation :=
  fold_left
    (fun validation_results pr =>
       if search (snd pr) config_str
       then {| config_is_safe := false;
               warnings :=
                 warnings validation_results
                 ++ ["Potential injection pattern detected: " +:+ fst pr];
               sanitized_config := sanitized_config validation_results |}
       else validation_results)
    injection_patterns
    {| config_is_safe := true; warnings := []; sanitized_config := config_str |}.

Definition is_quote (c : ascii) : bool := Ascii.eqb c DQ || Ascii.eqb c SQ.

(** The end of the first two patterns: [\s*=\s*], a quote character (single
    or double), one or more characters that are not quote characters, and a
    quote character. *)
Definition quoted_assignment : rx :=
  RxCat (RxStar isspace)
    (RxCat (chr "="%char)
       (RxCat (RxStar isspace)
          (RxCat (RxOne is_quote)
             (RxCat (RxPlus (fun c => negb (is_quote c))) (RxOne is_quote))))).

(** [security_checks] of lines 1176-1182, searched under [re.IGNORECASE]. *)
Definition security_checks : list (rx * string) :=
  [ (RxCat (lit_i "api_key") quoted_assignment, "Hardcoded API key detected");
    (RxCat (lit_i "password") quoted_assignment, "Hardcoded password detected");
    (RxCat (lit_i "exec") spaces_paren, "Dynamic code execution detected");
    (RxCat (lit_i "eval") spaces_paren, "Dynamic evaluation detected");
    (RxCat (lit_i "input") spaces_paren,
      "Interactive input detected (causes automation issues)") ].

Record security_validation : Type := {
  is_safe : bool;
  security_issues : list string;
  recommendations : list string
}.

(** [_validate_generated_code_security(code)]. *)
Definition _validate_generated_code_security (code : string) : security_validation :=
  fold_left
    (fun validation_results pm =>
       if search (fst pm) code
       then {| is_safe := false;
               security_issues := security_issues validation_results ++ [snd pm];
               recommendations := recommendations validation_results |}
       else validation_results)
    security_checks
    {| is_safe := true; security_issues := []; recommendations := [] |}.

End Validation.

(** ** Storage references in a response
    ([agent_service.py], [_extract_s3_uris_from_response]) *)

Module S3Uris.
Import PyStr Rx.

Definition ascii_alnum (c : ascii) : bool :=
  let n := nat_of_ascii c in
  ((48 <=? n) && (n <=? 57)) || ((65 <=? n) && (n <=? 90))
  || ((97 <=? n) && (n <=? 122)).

(** [[a-zA-Z0-9\-\.]] and [[a-zA-Z0-9\-\./]] *)
Definition bucket_char (c : ascii) : bool :=
  ascii_alnum c || Ascii.eqb c "-"%char || Ascii.eqb c "."%char.

Definition key_char (c : ascii) : bool :=
  bucket_char c || Ascii.eqb c "/"%char.

(** [r's3://[a-zA-Z0-9\-\.]+/[a-zA-Z0-9\-\./]+'] *)
Definition s3_pattern : rx :=
  RxCat (lit "s3://")
    (RxCat (RxPlus bucket_char) (RxCat (chr "/"%char) (RxPlus key_char))).

(** The body of the loop of lines 673-679. *)
Definition classify (s3_uris : gmap string string) (uri : string)
  : gmap string string :=
  if contains "pure_strands.py" uri then <[ "pure_strands" := uri ]> s3_uris
  else if contains "agentcore_ready.py" uri then <[ "agentcore_ready" := uri ]> s3_uris
  else if contains "requirements.txt" uri then <[ "requirements" := uri ]> s3_uris
  else s3_uris.

Definition _extract_s3_uris_from_response (response_text : string)
  : gmap string string :=
  fold_left classify (findall s3_pattern response_text) ∅.

End S3Uris.

(** ** Listing and deleting the artifacts of a session
    ([s3_code_storage_service.py], lines 209-324) *)

Module S3Listing.
Import PyStr S3Store.

(** The number of bytes of [s.encode('utf-8')]: one for an ASCII character,
    two for the others of U+0080..U+00FF. *)
Fixpoint utf8_length (s : string) : nat :=
  match s with
  | EmptyString => 0
  | String c s' => (if nat_of_ascii c <? 128 then 1 else 2) + utf8_length s'
  end.

(** The order in which S3 lists keys: that of their bytes. *)
Definition key_le (a b : string * s3_object) : Prop :=
  String.leb (fst a) (fst b) = true.

#[global] Instance key_le_dec : RelDecision key_le.
Proof. intros a b. unfold key_le. apply _. Defined.

(** The most keys one [list_objects_v2] call returns. *)
Definition MaxKeys : nat := 1000.

(** The objects of the bucket whose key starts with [prefix], in the
    order of their keys. *)
Definition objects_under (c : s3_client) (prefix : string)
  : list (string * s3_object) :=
  merge_sort key_le
    (List.filter (fun kv => startswith (fst kv) prefix) (map_to_list (objects c))).

(** [list_objects_v2(Bucket=..., Prefix=prefix)]: the entries of
    [Contents]. *)
Definition list_objects_v2 (c : s3_client) (prefix : string)
  : result (list (string * s3_object)) :=
  match fault c with
  | Some e => Raise e
  | None => Ok (List.firstn MaxKeys (objects_under c prefix))
  end.

(** What [delete_objects] answers: the keys of the entries of [Deleted]
    and those of the entries of [Errors]. *)
Record delete_objects_output : Type := {
  Deleted : list string;
  Errors : list string
}.

(** [delete_objects(Bucket=..., Delete={'Objects': keys, 'Quiet': False})]:
    the client after the call and the answer.  The call as a whole fails
    when the backend is out of order; otherwise each key is handled on its
    own: a key S3 refuses to delete ([refused]: access denied, a retention
    lock, ...) keeps its object and is reported under [Errors], every other
    key is removed and reported under [Deleted], whether or not it held an
    object. *)
Definition delete_objects (refused : string -> bool) (c : s3_client)
    (keys : list string) : result (s3_client * delete_objects_output) :=
  match fault c with
  | Some e => Raise e
  | None =>
      let deleted := List.filter (fun k => negb (refused k)) keys in
      Ok ({| objects := foldr delete (objects c) deleted;
             clock := clock c;
             fault := None |},
          {| Deleted := deleted; Errors := List.filter refused keys |})
  end.

Record file_info : Type := {
  key : string;
  code_type : string;
  size : nat;
  last_modified : nat;
  s3_uri : string
}.

(** The dictionaries returned by [list_session_files]. *)
Inductive list_response : Type :=
| ListSuccess (session_id : string) (files : list file_info) (count : nat)
| ListError (error : string).

(** The dictionaries returned by [delete_session_files]: the one of line
    284, which has neither [session_id] nor [total_files]; the one of lines
    306-317, where [errors] is the entry of that name, given by the keys of
    its items, and is empty when the dictionary has no such entry (line
    313); and the error ones. *)
Inductive delete_response : Type :=
| DeleteNothing (message : string)
| DeleteSuccess (session_id : string) (deleted_count total_files : nat)
    (errors : list string)
| DeleteError (error : string).

(** [result.get('errors', [])] *)
Definition delete_errors (r : delete_response) : list string :=
  match r with
  | DeleteSuccess _ _ _ errors => errors
  | _ => []
  end.

(** [key.split('/')[-1]] *)
Fixpoint after_last_slash (s : string) : string :=
  match s with
  | EmptyString => EmptyString
  | String c s' =>
      if has_char "/"%char s' then after_last_slash s'
      else if Ascii.eqb c "/"%char then s' else s
  end.

(** Line 239. *)
Definition code_type_of_filename (filename : string) : string :=
  if endswith filename ".py" then replace ".py" EmptyString filename else filename.

Definition session_prefix (safe_session_id : string) : string :=
  "temp-code/" +:+ safe_session_id +:+ "/".

Definition file_info_of (bucket : string) (kv : string * s3_object) : file_info :=
  {| key := fst kv;
     code_type := code_type_of_filename (after_last_slash (fst kv));
     size := utf8_length (Body (snd kv));
     last_modified := LastModified (snd kv);
     s3_uri := s3_uri_of bucket (fst kv) |}.

(** The [try] block of [list_session_files]. *)
Definition list_session_files_try (self : S3CodeStorageService) (session_id : string)
  : result list_response :=
  let safe_session_id := sanitize session_id in
  if is_empty safe_session_id
  then Raise (ValueError "session_id contains no valid characters for S3 key")
  else
    let prefix := session_prefix safe_session_id in
    let! contents := list_objects_v2 (s3_client_ self) prefix in
    let files := map (file_info_of (bucket_name self)) contents in
    Ok (ListSuccess session_id files (length files)).

Definition list_session_files (self : S3CodeStorageService) (session_id : string)
  : result list_response :=
  match list_session_files_try self session_id with
  | Ok r => Ok r
  | Raise _ => Ok (ListError "Error listing files")
  end.

Section Backend.

(** The keys S3 refuses to delete. *)
Variable refused : string -> bool.

(** The [try] block of [delete_session_files]. *)
Definition delete_session_files_try (self : S3CodeStorageService) (session_id : string)
  : result (delete_response * S3CodeStorageService) :=
  let! list_result := list_session_files self session_id in
  match list_result with
  | ListError error => Ok (DeleteError error, self)
  | ListSuccess _ files _ =>
      match files with
      | [] =>
          Ok (DeleteNothing ("No files found for session " +:+ session_id), self)
      | _ :: _ =>
          let objects_to_delete := map key files in
          let! answer := delete_objects refused (s3_client_ self) objects_to_delete in
          let (client, response) := answer in
          let deleted_count := length (Deleted response) in
          let errors := Errors response in
          Ok (DeleteSuccess session_id deleted_count (length files) errors,
              {| s3_client_ := client; bucket_name := bucket_name self |})
      end
  end.

Definition delete_session_files (self : S3CodeStorageService) (session_id : string)
  : result (delete_response * S3CodeStorageService) :=
  match delete_session_files_try self session_id with
  | Ok r => Ok r
  | Raise _ => Ok (DeleteError "Error deleting files", self)
  end.

End Backend.

End S3Listing.

(** ** The artifact routes ([routers/s3_code.py]) *)

Module S3Router.
Import PyStr S3Store S3Listing.

(** What a route answers: a body with status 200, or an [HTTPException]. *)
Inductive http (A : Type) : Type :=
| Http200 (body : A)
| HTTPException (status_code : nat) (detail : string).
Arguments Http200 {A} body.
Arguments HTTPException {A} status_code detail.

Record code_file_body : Type := {
  body_code_content : string;
  body_session_id : string;
  body_code_type : string;
  body_s3_uri : string;
  body_last_modified : nat;
  body_content_length : nat
}.

(** The route [GET /api/s3-code/{session_id}/{code_type}]. *)
Definition get_code_file (s3_service : S3CodeStorageService)
    (session_id code_type : string) : http code_file_body :=
  if negb (recognized code_type)
  then HTTPException 400
         ("Invalid code_type: " +:+ code_type
          +:+ ". Must be 'pure_strands', 'agentcore_ready', or 'requirements'")
  else
    match S3Store.get_code_file s3_service session_id code_type with
    | Ok (GetNotFound error) => HTTPException 404 error
    | Ok (GetError error) => HTTPException 500 error
    | Ok (GetSuccess code_content uri ct sid lm len) =>
        Http200 {| body_code_content := code_content;
                   body_session_id := sid;
                   body_code_type := ct;
                   body_s3_uri := uri;
                   body_last_modified := lm;
                   body_content_length := len |}
    | Raise _ => HTTPException 500 "Internal server error"
    end.

Record file_list_body : Type := {
  list_session_id : string;
  list_files : list file_info;
  list_count : nat
}.

(** The route [GET /api/s3-code/{session_id}]. *)
Definition list_session_files (s3_service : S3CodeStorageService)
    (session_id : string) : http file_list_body :=
  match S3Listing.list_session_files s3_service session_id with
  | Ok (ListError error) => HTTPException 500 error
  | Ok (ListSuccess sid files count) =>
      Http200 {| list_session_id := sid; list_files := files; list_count := count |}
  | Raise _ => HTTPException 500 "Internal server error"
  end.

Record deletion_body : Type := {
  deletion_session_id : string;
  deletion_deleted_count : nat;
  deletion_total_files : nat;
  deletion_errors : list string
}.

(** The route [DELETE /api/s3-code/{session_id}]: the answer and the
    service after the call, [refused] being the keys S3 refuses to delete.  A result without the key [session_id] makes line
    112 raise [KeyError], which the last [except] turns into status 500. *)
Definition delete_session_files (refused : string -> bool)
    (s3_service : S3CodeStorageService) (session_id : string)
  : http deletion_body * S3CodeStorageService :=
  match S3Listing.delete_session_files refused s3_service session_id with
  | Ok (DeleteError error, service) => (HTTPException 500 error, service)
  | Ok (DeleteNothing _, service) =>
      (HTTPException 500 "Internal server error", service)
  | Ok (DeleteSuccess sid deleted_count total_files errors, service) =>
      (Http200 {| deletion_session_id := sid;
                  deletion_deleted_count := deleted_count;
                  deletion_total_files := total_files;
                  deletion_errors := errors |}, service)
  | Raise _ => (HTTPException 500 "Internal server error", s3_service)
  end.

End S3Router.

(** ** Recovering the code from the artifact store
    ([agent_service.py], lines 585-605 and 684-733) *)

Module Recovery.
Import PyStr S3Store Extraction S3Uris.

(** The dictionaries returned by [_fetch_code_from_s3]. *)
Inductive code_fetch : Type :=
| FetchSuccess (code : string)
| FetchFailure (error : string).

(** [not request_id] fails: the id is a string and is not empty. *)
Definition given_id (request_id : option string) : option string :=
  match request_id with
  | Some r => if is_empty r then None else Some r
  | None => None
  end.

Section WithStore.

(** The outcome of the constructor call [S3CodeStorageService()]. *)
Variable s3_service : result S3CodeStorageService.

Definition _fetch_code_from_s3 (request_id code_type : string) : code_fetch :=
  match (let! service := s3_service in get_code_file service request_id code_type) with
  | Ok (GetSuccess code_content _ _ _ _ _) => FetchSuccess code_content
  | Ok (GetNotFound error) => FetchFailure error
  | Ok (GetError error) => FetchFailure error
  | Raise e => FetchFailure (exn_str e)
  end.

Definition _try_fetch_all_files (request_id : string) : gmap string string :=
  match s3_service with
  | Raise _ => ∅
  | Ok service =>
      fold_left
        (fun s3_uris code_type =>
           match get_code_file service request_id code_type with
           | Ok (GetSuccess _ s3_uri _ _ _ _) => <[ code_type := s3_uri ]> s3_uris
           | _ => s3_uris
           end)
        code_types ∅
  end.

(** Lines 599, 602 and 604-605: the extraction from the text, and the
    exception when it fails. *)
Definition regex_extraction (response_text : string) : result string :=
  match fst (_extract_code_with_fallbacks response_text) with
  | ExtractionSuccess code _ _ => Ok code
  | ExtractionFailure error _ => Raise (ValueError ("Code extraction failed: " +:+ error))
  end.

(** Lines 585-605 of [generate_code_freeform]: the code recovered for the
    response text, with the storage references found, or the exception
    raised. *)
Definition code_extraction_stage (response_text : string) (request_id : option string)
  : result (string * gmap string string) :=
  let s3_uris := _extract_s3_uris_from_response response_text in
  let s3_uris :=
    match given_id request_id with
    | Some r => if bool_decide (s3_uris = ∅) then _try_fetch_all_files r else s3_uris
    | None => s3_uris
    end in
  let! code :=
    match given_id request_id with
    | Some r =>
        if bool_decide (s3_uris = ∅) then regex_extraction response_text
        else
          match _fetch_code_from_s3 r "pure_strands" with
          | FetchSuccess code => Ok code
          | FetchFailure _ => regex_extraction response_text
          end
    | None => regex_extraction response_text
    end in
  Ok (code, s3_uris).

End WithStore.

End Recovery.

(** ** The effective model identifier *)

(** [model_utils.py], lines 105-173. *)
Module EffectiveModel.
Import PyStr.

Definition given (s : option string) : option string :=
  match s with
  | Some v => if is_empty v then None else Some v
  | None => None
  end.

Definition ultimate_fallback : string := "anthropic.claude-3-5-sonnet-20241022-v2:0".

Definition get_effective_model_id (session_region : result (option string))
    (request_model_id user_model_id default_model_id region : option string)
  : string :=
  let effective_model_id :=
    match given request_model_id with
    | Some m => m
    | None =>
        match given user_model_id with
        | Some m => m
        | None =>
            match given default_model_id with
            | Some m => m
            | None => ultimate_fallback
            end
        end
    end in
  ModelUtils.format_model_for_cris session_region effective_model_id region.

Definition invalid_chars : list string :=
  [ " "; NL; String "009"%char EmptyString; CRs ].

(** [validate_model_id(model_id)] for a string; the same text is the method
    of the model id service. *)
Definition validate_model_id (model_id : string) : bool :=
  if is_empty model_id then false
  else if String.length model_id <? 5 then false
  else if existsb (fun char => contains char model_id) invalid_chars then false
  else true.

End EffectiveModel.

(** [backend/services/model_id_service.py], lines 132-277. *)
Module ModelIDDefaults.
Import PyStr ModelIDService.

Definition default_base_model : string := "anthropic.claude-3-7-sonnet-20250219-v1:0".

Section Collaborators.

(** [config_service.get_all_config()], [boto3.Session().region_name], and
    the entry [expertAgentModel] of the settings of a user ([None] without
    settings or without the entry; the settings service may raise). *)
Variable all_config : result (gmap string string).
Variable session_region : result (option string).
Variable expert_agent_model : string -> result (option string).

Definition config_region : result (option string) :=
  match all_config with
  | Ok config => Ok (config !! "REGION")
  | Raise e => Raise e
  end.

Definition format (self : ModelIDService) (model_id : string) (region : option string)
  : string * ModelIDService :=
  format_model_for_cris config_region session_region self model_id region.

Definition with_default_cache (self : ModelIDService) (model_id : string)
  : ModelIDService :=
  {| _region_cache := _region_cache self; _default_model_cache := Some model_id |}.

Definition get_system_default_model_id (self : ModelIDService)
  : string * ModelIDService :=
  match EffectiveModel.given (_default_model_cache self) with
  | Some cached => (cached, self)
  | None =>
      match all_config with
      | Ok config =>
          let base_model_id := default default_base_model (config !! "BEDROCK_MODEL_ID") in
          let aws_region := default "us-east-1" (config !! "REGION") in
          let (formatted_model_id, self) := format self base_model_id (Some aws_region) in
          (formatted_model_id, with_default_cache self formatted_model_id)
      | Raise _ =>
          let (fallback_model_id, self) :=
            format self default_base_model (Some "us-east-1") in
          (fallback_model_id, with_default_cache self fallback_model_id)
      end
  end.

Definition get_user_model_preference (self : ModelIDService) (user_id : string)
  : option string * ModelIDService :=
  match expert_agent_model user_id with
  | Ok user_model_id =>
      match EffectiveModel.given user_model_id with
      | Some m =>
          let (formatted_model_id, self) := format self m None in
          (Some formatted_model_id, self)
      | None => (None, self)
      end
  | Raise _ => (None, self)
  end.

Definition get_effective_model_id (self : ModelIDService)
    (user_id region : option string) : string * ModelIDService :=
  let (effective_model_id, self) :=
    match EffectiveModel.given user_id with
    | Some u =>
        let (user_model_id, self) := get_user_model_preference self u in
        (EffectiveModel.given user_model_id, self)
    | None => (None, self)
    end in
  let (effective_model_id, self) :=
    match effective_model_id with
    | Some m => (m, self)
    | None => get_system_default_model_id self
    end in
  format self effective_model_id region.

Definition clear_cache (self : ModelIDService) : ModelIDService :=
  {| _region_cache := None; _default_model_cache := None |}.

End Collaborators.

End ModelIDDefaults.

(** ** Capabilities of a model ([routers/models.py], lines 14-41) *)

Module ModelsRouter.
Import PyStr.

Definition reasoning_patterns : list string :=
  [ "claude-3-7-sonnet"; "claude-3-5-sonnet-20241022-v2" ].

Definition _supports_reasoning (model_id : string) : bool :=
  existsb (fun pattern => contains pattern model_id) reasoning_patterns.

Definition caching_patterns : list string :=
  [ "claude-3-7-sonnet"; "claude-3-5-sonnet"; "claude-3-5-haiku" ].

Definition _supports_prompt_caching (model_id : string) : bool :=
  existsb (fun pattern => contains pattern model_id) caching_patterns.

End ModelsRouter.

(** ** The end of a local generation
    ([agent_service.py], lines 585-628) *)

Module LocalGeneration.
Import PyStr Extraction Validation Cleanup Recovery.

(** The entries of the dictionary of lines 621-628 that do not come from
    [_extract_metadata_from_freeform]: [final_code] is the value of both
    [generated_code] and [final_working_code], and the two others are stored
    under [metadata]. *)
Record freeform_fields : Type := {
  final_code : option string;
  metadata_s3_uris : gmap string string;
  metadata_security_validation : security_validation
}.

Definition finish_generation (s3_service : result S3Store.S3CodeStorageService)
    (response_text : string) (request_id : option string) : result freeform_fields :=
  let! extraction := code_extraction_stage s3_service response_text request_id in
  let (code, s3_uris) := extraction in
  let security_validation := _validate_generated_code_security code in
  let final_code := fst (_cleanup_code_formatting (Some code)) in
  Ok {| final_code := final_code;
        metadata_s3_uris := s3_uris;
        metadata_security_validation := security_validation |}.

End LocalGeneration.

(** ** Vocabulary of the statements about patterns *)

Module Terms.
Import PyStr Rx.

(** [s] with its ASCII capitals in lower case. *)
Fixpoint lower_text (s : string) : string :=
  match s with
  | EmptyString => EmptyString
  | String c s' => String (lower c) (lower_text s')
  end.

(** Every match of [r] holds the character [c]. *)
Fixpoint needs (r : rx) (c : ascii) : Prop :=
  match r with
  | RxEps => False
  | RxOne p | RxPlus p => forall x, p x = true -> x = c
  | RxCat r1 r2 => needs r1 c \/ needs r2 c
  | RxStar _ => False
  end.

(** [t] is empty or starts with a character outside the class [p]. *)
Definition stops (p : ascii -> bool) (t : string) : bool :=
  match t with
  | EmptyString => true
  | String c _ => negb (p c)
  end.

End Terms.

(** * Properties *)

(** ** Facts about the string primitives *)

Module PyStrFacts.
Import PyStr.

Lemma append_empty_r (s : string) : s +:+ EmptyString = s.
Proof. induction s as [|c s IH]; simpl; [reflexivity | now rewrite IH]. Qed.

Lemma append_assoc (a b c : string) : (a +:+ b) +:+ c = a +:+ (b +:+ c).
Proof. induction a as [|x a IH]; simpl; [reflexivity | now rewrite IH]. Qed.

Lemma append_nonempty (t : string) (c : ascii) :
  exists d r, t +:+ String c EmptyString = String d r.
Proof. destruct t as [|d t]; simpl; eauto. Qed.

Lemma length_append (a b : string) :
  String.length (a +:+ b) = String.length a + String.length b.
Proof. induction a as [|x a IH]; simpl; [reflexivity | now rewrite IH]. Qed.

Lemma has_char_append (c : ascii) (a b : string) :
  has_char c (a +:+ b) = has_char c a || has_char c b.
Proof.
  induction a as [|x a IH]; simpl; [reflexivity|].
  now rewrite IH, orb_assoc.
Qed.

Lemma has_char_newlines (c : ascii) (k : nat) :
  Ascii.eqb LF c = false -> has_char c (newlines k) = false.
Proof.
  intros H. induction k as [|k IH]; cbn [newlines has_char];
    [reflexivity | now rewrite H, IH].
Qed.

(** *** [take] *)

Lemma take_length_le (n : nat) (s : string) : String.length (take n s) <= n.
Proof.
  revert s. induction n as [|n IH]; intros [|c s]; simpl; try lia.
  specialize (IH s). lia.
Qed.

Lemma take_length (n : nat) (s : string) :
  String.length (take n s) = Nat.min n (String.length s).
Proof.
  revert s. induction n as [|n IH]; intros [|c s]; simpl; try reflexivity.
  now rewrite IH.
Qed.

Lemma take_all (n : nat) (s : string) : String.length s <= n -> take n s = s.
Proof.
  revert s. induction n as [|n IH]; intros [|c s]; simpl; intros H;
    try reflexivity; try lia.
  rewrite IH; [reflexivity | lia].
Qed.

Lemma take_prefix (n : nat) (s : string) : take n s +:+ drop n s = s.
Proof.
  revert s. induction n as [|n IH]; intros [|c s]; simpl; try reflexivity.
  now rewrite IH.
Qed.

Lemma take_nonempty (n : nat) (s : string) :
  0 < n -> is_empty s = false -> is_empty (take n s) = false.
Proof. destruct n, s; simpl; intros; (lia || congruence). Qed.

Lemma startswith_append (p s : string) : startswith (p +:+ s) p = true.
Proof.
  induction p as [|c p IH]; simpl; [reflexivity|].
  now rewrite Ascii.eqb_refl, IH.
Qed.

Lemma drop_append (p s : string) : drop (String.length p) (p +:+ s) = s.
Proof. induction p as [|c p IH]; simpl; [now destruct s | exact IH]. Qed.

(** *** [rstrip] *)

Lemma rstrip_append_newline (a : string) : rstrip (a +:+ NL) = rstrip a.
Proof.
  induction a as [|c a IH]; simpl; [reflexivity|].
  now rewrite IH.
Qed.

Lemma rstrip_idempotent (s : string) : rstrip (rstrip s) = rstrip s.
Proof.
  induction s as [|c s IH]; simpl; [reflexivity|].
  destruct (is_empty (rstrip s) && isspace c) eqn:E; simpl; [reflexivity|].
  now rewrite IH, E.
Qed.

Lemma rstrip_has_char (c : ascii) (s : string) :
  has_char c s = false -> has_char c (rstrip s) = false.
Proof.
  induction s as [|a s IH]; simpl; [reflexivity|].
  intros H. apply orb_false_iff in H as [Ha Hs].
  destruct (is_empty (rstrip s) && isspace a); simpl; [reflexivity|].
  now rewrite Ha, IH.
Qed.

(** What [rstrip] leaves does not end with a white space character. *)
Lemma rstrip_last_not_space (s : string) (c : ascii) :
  endswith (rstrip s) (String c EmptyString) = true -> isspace c = false.
Proof.
  induction s as [|a s IH]; simpl; [discriminate|].
  destruct (is_empty (rstrip s) && isspace a) eqn:E; simpl; [discriminate|].
  intros H. apply orb_true_iff in H as [H|H]; [|now apply IH].
  destruct (Ascii.eqb a c) eqn:Eac; [|discriminate].
  apply Ascii.eqb_eq in Eac. subst a.
  destruct (rstrip s); [|discriminate].
  simpl in E. exact E.
Qed.

(** A text that starts with a character that is not white space does not
    strip to the empty string. *)
Lemma strip_starts_nonspace (c : ascii) (rest : string) :
  isspace c = false -> is_empty (strip (String c rest)) = false.
Proof.
  intros H. unfold strip. cbn [lstrip]. rewrite H. cbn [rstrip].
  rewrite H, andb_false_r. reflexivity.
Qed.

(** *** [replace] *)

Lemma startswith_absent (c : ascii) (p s : string) :
  has_char c s = false -> startswith s (String c p) = false.
Proof.
  destruct s as [|a s]; simpl; [reflexivity|].
  intros H. apply orb_false_iff in H as [Ha _].
  rewrite Ascii.eqb_sym, Ha. reflexivity.
Qed.

(** Replacing a text that starts with an absent character changes nothing. *)
Lemma replace_absent (c : ascii) (p new s : string) :
  has_char c s = false -> replace (String c p) new s = s.
Proof.
  unfold replace. induction s as [|a s IH]; [reflexivity|].
  intros H. cbn [replace_from]. rewrite (startswith_absent c p _ H).
  simpl in H. apply orb_false_iff in H as [_ Hs].
  now rewrite IH.
Qed.

(** After [replace('\r', '\n')] no carriage return is left. *)
Lemma replace_cr_gone (s : string) : has_char CR (replace CRs NL s) = false.
Proof.
  unfold replace. induction s as [|a s IH]; [reflexivity|].
  cbn [replace_from]. unfold CRs at 1. cbn [startswith].
  destruct (Ascii.eqb CR a) eqn:E.
  - simpl. exact IH.
  - simpl. rewrite Ascii.eqb_sym, E. exact IH.
Qed.

End PyStrFacts.


(** ** The formatting cleanup *)

Module CleanupFacts.
Import PyStr PyStrFacts Cleanup Spec.

Lemma newlines_shift (n : nat) (s : string) :
  newlines n +:+ String LF s = String LF (newlines n +:+ s).
Proof.
  induction n as [|n IH]; cbn [newlines String.append]; [reflexivity|].
  now rewrite IH.
Qed.

Lemma flush_run_small (n : nat) : n <= 2 -> flush_run n = newlines n.
Proof.
  intros H. unfold flush_run.
  destruct (3 <=? n) eqn:E; [apply Nat.leb_le in E; lia | reflexivity].
Qed.

(** A text without a run of three line feeds is left as it is. *)
Lemma sub_newline_runs_id (s : string) (n : nat) :
  runs_ok n s = true -> sub_newline_runs n s = newlines n +:+ s.
Proof.
  revert n. induction s as [|c s IH]; intros n H; cbn [runs_ok sub_newline_runs] in *.
  - apply Nat.leb_le in H. rewrite flush_run_small by exact H.
    now rewrite append_empty_r.
  - destruct (Ascii.eqb c LF) eqn:E.
    + apply Ascii.eqb_eq in E. subst c.
      rewrite (IH _ H). cbn [newlines String.append].
      now rewrite newlines_shift.
    + apply andb_true_iff in H as [Hn Hs]. apply Nat.leb_le in Hn.
      rewrite flush_run_small by exact Hn.
      now rewrite (IH _ Hs).
Qed.

Lemma runs_ok_after_flush (n : nat) (c : ascii) (t : string) :
  Ascii.eqb c LF = false ->
  runs_ok 0 t = true -> runs_ok 0 (flush_run n +:+ String c t) = true.
Proof.
  intros E H. unfold flush_run.
  destruct n as [|[|[|n]]]; cbn [Nat.leb newlines String.append runs_ok];
    rewrite ?Ascii.eqb_refl, E; exact H.
Qed.

(** What the substitution writes has no run of three line feeds. *)
Lemma sub_newline_runs_ok (s : string) (n : nat) :
  runs_ok 0 (sub_newline_runs n s) = true.
Proof.
  revert n. induction s as [|c s IH]; intros n; cbn [sub_newline_runs].
  - unfold flush_run. now destruct n as [|[|[|n]]].
  - destruct (Ascii.eqb c LF) eqn:E; [apply IH|].
    apply runs_ok_after_flush; [exact E | apply IH].
Qed.

Lemma sub_newline_runs_has_char (c : ascii) (s : string) (n : nat) :
  Ascii.eqb LF c = false ->
  has_char c s = false -> has_char c (sub_newline_runs n s) = false.
Proof.
  intros Hc. revert n.
  assert (Hflush : forall k, has_char c (flush_run k) = false).
  { intros k. unfold flush_run. destruct (3 <=? k); now apply has_char_newlines. }
  induction s as [|a s IH]; intros n H; cbn [sub_newline_runs].
  - apply Hflush.
  - cbn [has_char] in H. apply orb_false_iff in H as [Ha Hs].
    destruct (Ascii.eqb a LF); [now apply IH|].
    rewrite has_char_append, Hflush. cbn [has_char orb].
    now rewrite Ha, IH.
Qed.

(** Stripping the end and adding one line feed keeps the runs short. *)
Lemma rstrip_runs_ok (s : string) (n : nat) :
  runs_ok n s = true ->
  is_empty (rstrip s) = true \/ runs_ok n (rstrip s +:+ NL) = true.
Proof.
  revert n. induction s as [|c s IH]; intros n H; [now left|].
  cbn [runs_ok] in H. cbn [rstrip].
  destruct (Ascii.eqb c LF) eqn:E.
  - apply Ascii.eqb_eq in E. subst c.
    destruct (is_empty (rstrip s)) eqn:He; [now left|].
    right. destruct (IH _ H) as [He'|Hr]; [congruence|].
    cbn [andb String.append runs_ok]. rewrite Ascii.eqb_refl. exact Hr.
  - apply andb_true_iff in H as [Hn Hs].
    destruct (is_empty (rstrip s)) eqn:He.
    + cbn [andb]. destruct (isspace c); [now left|].
      right. destruct (rstrip s); [|discriminate].
      cbn [String.append runs_ok NL]. rewrite E, Hn. reflexivity.
    + right. destruct (IH _ Hs) as [He'|Hr]; [congruence|].
      cbn [andb String.append runs_ok]. rewrite E, Hn. exact Hr.
Qed.

(** The output of the three steps is a fixed point of each of them. *)
Lemma format_steps_fixed (code : string) :
  format_steps (format_steps code) = format_steps code.
Proof.
  unfold format_steps at 2.
  set (u := replace CRs NL (replace (String CR NL) NL code)).
  set (t := rstrip (sub_newline_runs 0 u)).
  assert (Hcr : has_char CR (t +:+ NL) = false).
  { rewrite has_char_append. cbn [NL has_char orb].
    rewrite orb_false_r.
    apply rstrip_has_char, sub_newline_runs_has_char; [reflexivity|].
    apply replace_cr_gone. }
  assert (Hok : runs_ok 0 (t +:+ NL) = true).
  { destruct (rstrip_runs_ok (sub_newline_runs 0 u) 0 (sub_newline_runs_ok u 0))
      as [He|Hr]; [|exact Hr].
    fold t in He. destruct t; [reflexivity | discriminate]. }
  unfold format_steps.
  rewrite (replace_absent CR NL NL _ Hcr).
  unfold CRs. rewrite (replace_absent CR EmptyString NL _ Hcr).
  rewrite (sub_newline_runs_id _ 0 Hok). cbn [newlines String.append].
  rewrite rstrip_append_newline. unfold t. now rewrite rstrip_idempotent.
Qed.

Lemma cleaned_nonempty (c : ascii) (s : string) :
  cleaned (Some (String c s)) = Some (format_steps (String c s)).
Proof. reflexivity. Qed.

Lemma format_steps_nonempty (code : string) :
  exists d r, format_steps code = String d r.
Proof. unfold format_steps. apply append_nonempty. Qed.

End CleanupFacts.

(** ** The cleanup touches white space only *)

Module WhiteSpaceEdits.
Import PyStr PyStrFacts Cleanup Spec.

Lemma all_chars_append (f : ascii -> bool) (a b : string) :
  all_chars f (a +:+ b) = all_chars f a && all_chars f b.
Proof.
  induction a as [|c a IH]; cbn [String.append all_chars]; [reflexivity|].
  now rewrite IH, andb_assoc.
Qed.

Lemma startswith_empty (p : string) : startswith EmptyString p = true -> p = EmptyString.
Proof. destruct p; [reflexivity | discriminate]. Qed.

Lemma startswith_take (p s : string) :
  startswith s p = true -> take (String.length p) s = p.
Proof.
  revert s. induction p as [|a p IH]; intros s H; [now destruct s|].
  destruct s as [|b s]; [discriminate|]. cbn [startswith] in H.
  apply andb_true_iff in H as [Hab Hs]. apply Ascii.eqb_eq in Hab. subst b.
  cbn [String.length take]. now rewrite IH.
Qed.

Lemma contains_empty (s : string) : contains EmptyString s = true.
Proof. now destruct s. Qed.

Lemma contains_cons (p : string) (c : ascii) (s : string) :
  contains p s = true -> contains p (String c s) = true.
Proof. intros H. cbn [contains]. rewrite H. apply orb_true_r. Qed.

Lemma contains_append_l (p w t : string) :
  contains p t = true -> contains p (w +:+ t) = true.
Proof.
  intros H. induction w as [|c w IH]; [exact H|].
  cbn [String.append]. now apply contains_cons.
Qed.

Lemma ws_edit_startswith (s t : string) :
  ws_edit s t ->
  forall p, solid p = true -> startswith s p = true -> startswith t p = true.
Proof.
  induction 1 as [w Hw|c s t Hst IH|c w s t Hc Hw Hst IH]; intros p Hp H.
  - apply startswith_empty in H. now subst p.
  - destruct p as [|a p]; [reflexivity|]. cbn [startswith] in *.
    apply andb_true_iff in H as [Hac Hs].
    cbn [solid all_chars] in Hp. apply andb_true_iff in Hp as [_ Hp].
    rewrite Hac. now apply IH.
  - destruct p as [|a p]; [reflexivity|]. exfalso. cbn [startswith] in H.
    apply andb_true_iff in H as [Hac _]. apply Ascii.eqb_eq in Hac. subst a.
    cbn [solid all_chars] in Hp. rewrite Hc in Hp. discriminate.
Qed.

(** A text without white space that occurs before the edit occurs after it. *)
Lemma ws_edit_contains (s t : string) :
  ws_edit s t ->
  forall p, solid p = true -> contains p s = true -> contains p t = true.
Proof.
  induction 1 as [w Hw|c s t Hst IH|c w s t Hc Hw Hst IH]; intros p Hp H.
  - cbn [contains] in H. rewrite orb_false_r in H.
    apply startswith_empty in H. subst p. apply contains_empty.
  - cbn [contains] in H. apply orb_true_iff in H as [H|H].
    + cbn [contains].
      rewrite (ws_edit_startswith _ _ (ws_keep c s t Hst) p Hp H). reflexivity.
    + apply contains_cons. now apply IH.
  - cbn [contains] in H. apply orb_true_iff in H as [H|H].
    + destruct p as [|a p]; [apply contains_empty|]. exfalso.
      cbn [startswith] in H. apply andb_true_iff in H as [Hac _].
      apply Ascii.eqb_eq in Hac. subst a.
      cbn [solid all_chars] in Hp. rewrite Hc in Hp. discriminate.
    + apply contains_append_l. now apply IH.
Qed.

Lemma ws_drop (c : ascii) (s t : string) :
  isspace c = true -> ws_edit s t -> ws_edit (String c s) t.
Proof. intros Hc H. exact (ws_swap c EmptyString s t Hc eq_refl H). Qed.

Lemma ws_edit_drop_prefix (u x y : string) :
  all_chars isspace u = true -> ws_edit x y -> ws_edit (u +:+ x) y.
Proof.
  intros Hu H. induction u as [|c u IH]; [exact H|].
  cbn [all_chars] in Hu. apply andb_true_iff in Hu as [Hc Hu].
  cbn [String.append]. apply ws_drop; [exact Hc | now apply IH].
Qed.

Lemma ws_edit_prefix (u w x y : string) :
  all_chars isspace u = true -> all_chars isspace w = true ->
  (u = EmptyString -> w = EmptyString) ->
  ws_edit x y -> ws_edit (u +:+ x) (w +:+ y).
Proof.
  intros Hu Hw Hempty H. destruct u as [|c u].
  - now rewrite (Hempty eq_refl).
  - cbn [all_chars] in Hu. apply andb_true_iff in Hu as [Hc Hu].
    cbn [String.append]. apply ws_swap; [exact Hc | exact Hw|].
    now apply ws_edit_drop_prefix.
Qed.

Lemma ws_edit_append (s t w : string) :
  all_chars isspace w = true -> ws_edit s t -> ws_edit s (t +:+ w).
Proof.
  intros Hw. induction 1 as [v Hv|c s t Hst IH|c v s t Hc Hv Hst IH].
  - apply ws_end. now rewrite all_chars_append, Hv, Hw.
  - cbn [String.append]. now apply ws_keep.
  - rewrite append_assoc. now apply ws_swap.
Qed.

(** [replace] of a white space text by a white space text. *)
Lemma replace_from_ws_edit (a : ascii) (old' new : string) :
  all_chars isspace (String a old') = true -> all_chars isspace new = true ->
  forall s k,
    all_chars isspace (take k s) = true ->
    ws_edit s (replace_from (String a old') new k s).
Proof.
  intros Hold Hnew. induction s as [|c s IH]; intros k Hk.
  - apply ws_end. reflexivity.
  - destruct k as [|k].
    + cbn [replace_from].
      destruct (startswith (String c s) (String a old')) eqn:Es.
      * pose proof (startswith_take _ _ Es) as Ht.
        cbn [startswith] in Es. apply andb_true_iff in Es as [Hac Hs].
        apply Ascii.eqb_eq in Hac. subst c.
        cbn [all_chars] in Hold. apply andb_true_iff in Hold as [Ha Hold'].
        apply ws_swap; [exact Ha | exact Hnew|].
        apply IH.
        replace (String.length (String a old') - 1) with (String.length old')
          by (cbn [String.length]; lia).
        now rewrite (startswith_take _ _ Hs).
      * apply ws_keep. now apply IH.
    + cbn [take all_chars] in Hk. apply andb_true_iff in Hk as [Hc Hk].
      cbn [replace_from]. apply ws_drop; [exact Hc | now apply IH].
Qed.

Lemma all_space_newlines (k : nat) : all_chars isspace (newlines k) = true.
Proof. induction k as [|k IH]; [reflexivity | exact IH]. Qed.

Lemma all_space_flush_run (k : nat) : all_chars isspace (flush_run k) = true.
Proof. unfold flush_run. destruct (3 <=? k); apply all_space_newlines. Qed.

(** The substitution of the runs of line feeds. *)
Lemma sub_newline_runs_ws_edit (s : string) (n : nat) :
  ws_edit (newlines n +:+ s) (sub_newline_runs n s).
Proof.
  revert n. induction s as [|c s IH]; intros n; cbn [sub_newline_runs].
  - rewrite <- (append_empty_r (flush_run n)).
    apply ws_edit_prefix;
      [apply all_space_newlines | apply all_space_flush_run | | now apply ws_end].
    destruct n; [reflexivity | discriminate].
  - destruct (Ascii.eqb c LF) eqn:E.
    + apply Ascii.eqb_eq in E. subst c.
      rewrite CleanupFacts.newlines_shift. apply (IH (S n)).
    + apply ws_edit_prefix;
        [apply all_space_newlines | apply all_space_flush_run | |].
      * destruct n; [reflexivity | discriminate].
      * apply ws_keep. apply (IH 0).
Qed.

Lemma rstrip_ws_edit (s : string) : ws_edit s (rstrip s).
Proof.
  induction s as [|c s IH]; [now apply ws_end|].
  cbn [rstrip]. destruct (is_empty (rstrip s) && isspace c) eqn:E.
  - apply andb_true_iff in E as [He Hc].
    destruct (rstrip s); [|discriminate].
    now apply ws_drop.
  - now apply ws_keep.
Qed.

(** The three formatting steps keep every text without white space that
the code holds: nothing of it is replaced. *)
Lemma format_steps_keeps (p code : string) :
  solid p = true -> contains p code = true -> contains p (format_steps code) = true.
Proof.
  intros Hp H. unfold format_steps.
  apply (ws_edit_contains _ _
           (ws_edit_append _ _ NL eq_refl (rstrip_ws_edit _)) p Hp).
  apply (ws_edit_contains _ _ (sub_newline_runs_ws_edit _ 0) p Hp).
  cbn [newlines String.append].
  apply (ws_edit_contains _ _
           (replace_from_ws_edit CR EmptyString NL eq_refl eq_refl _ 0 eq_refl) p Hp).
  apply (ws_edit_contains _ _
           (replace_from_ws_edit CR NL NL eq_refl eq_refl _ 0 eq_refl) p Hp).
  exact H.
Qed.

End WhiteSpaceEdits.

(** C7. The cleanup step is idempotent: for every input, [None] included,
    cleaning the cleaned code gives the cleaned code again. *)
Theorem C7_cleanup_idempotent (code : option string) :
  Cleanup.cleaned (Cleanup.cleaned code) = Cleanup.cleaned code.
Proof.
  destruct code as [[|c s]|]; try reflexivity.
  rewrite CleanupFacts.cleaned_nonempty.
  destruct (CleanupFacts.format_steps_nonempty (String c s)) as (d & r & E).
  rewrite E, CleanupFacts.cleaned_nonempty, <- E.
  now rewrite CleanupFacts.format_steps_fixed.
Qed.

(** C10. For a non-empty input the cleaned code is some text that does not
    end with a line feed, followed by exactly one line feed; the empty string
    and [None] are returned unchanged, with no line feed added. *)
Theorem C10_trailing_newline_only_for_nonempty :
  (forall (c : ascii) (s : string),
      exists body,
        Cleanup.cleaned (Some (String c s)) = Some (body +:+ PyStr.NL)
        /\ PyStr.endswith body PyStr.NL = false)
  /\ Cleanup.cleaned (Some EmptyString) = Some EmptyString
  /\ Cleanup.cleaned None = None.
Proof.
  split; [|split; reflexivity].
  intros c s. rewrite CleanupFacts.cleaned_nonempty. unfold Cleanup.format_steps.
  eexists. split; [reflexivity|].
  match goal with |- PyStr.endswith ?b _ = false => destruct (PyStr.endswith b PyStr.NL) eqn:E end;
    [|reflexivity].
  apply PyStrFacts.rstrip_last_not_space in E. discriminate.
Qed.


(** ** The layered extraction *)

Module ExtractionFacts.
Import PyStr PyStrFacts Extraction Spec.

(** A successful run of the loop returns, untouched, the text that the
    method named in the result produced; the confidence is computed from
    that text; and a literal backslash-n in it leaves an [ERROR] record in
    the log. *)
Lemma try_methods_success methods response :
  forall logs code name conf logs',
    try_methods methods response logs = (ExtractionSuccess code name conf, logs') ->
    (exists method,
        In (name, method) methods /\ method response = Ok code /\ viable code = true)
    /\ conf = _calculate_confidence code
    /\ (contains "\n" code = true -> In (ERROR, critical_message name) logs').
Proof.
  induction methods as [|[n m] rest IH]; intros logs code name conf logs' H;
    cbn [try_methods] in H; [discriminate|].
  destruct (m response) as [c|e] eqn:Em.
  - destruct (viable c) eqn:Ev.
    + injection H as <- <- <- <-.
      split; [exists m; repeat split; [now left | exact Em | exact Ev]|].
      split; [reflexivity|].
      intros Hc. rewrite Hc. apply in_or_app. right. now left.
    + destruct (IH _ _ _ _ _ H) as ((method & Hin & Hm & Hv) & Hconf & Hlog).
      split; [exists method; repeat split; [now right | exact Hm | exact Hv]|].
      split; assumption.
  - destruct (IH _ _ _ _ _ H) as ((method & Hin & Hm & Hv) & Hconf & Hlog).
    split; [exists method; repeat split; [now right | exact Hm | exact Hv]|].
    split; assumption.
Qed.

(** When every method fails, the loop ends with the failure record. *)
Lemma try_methods_all_fail methods response :
  forall logs,
    forallb (fun nm => method_fails (snd nm) response) methods = true ->
    fst (try_methods methods response logs)
    = ExtractionFailure "All code extraction methods failed" (take 500 response).
Proof.
  induction methods as [|[n m] rest IH]; intros logs H; cbn [try_methods];
    [reflexivity|].
  cbn [forallb snd] in H. apply andb_true_iff in H as [Hm Hrest].
  unfold method_fails in Hm.
  destruct (m response) as [c|e].
  - apply negb_true_iff in Hm. rewrite Hm. now apply IH.
  - now apply IH.
Qed.

(** A failure record is returned only when every method has failed. *)
Lemma try_methods_failure methods response :
  forall logs,
    success (fst (try_methods methods response logs)) = false ->
    forallb (fun nm => method_fails (snd nm) response) methods = true.
Proof.
  induction methods as [|[n m] rest IH]; intros logs H; [reflexivity|].
  cbn [try_methods] in H. cbn [forallb snd]. unfold method_fails.
  destruct (m response) as [c|e].
  - destruct (viable c); [discriminate|]. cbn [negb andb]. now apply (IH logs).
  - cbn [andb]. now apply (IH _ H).
Qed.

End ExtractionFacts.

(** C2, as the code has it.  When the code of a successful extraction holds
a literal backslash-n, the result is returned with [success = True] all the
same: it carries, unchanged, the text the winning method produced, and the
final cleanup keeps the backslash-n as well (nothing is repaired); the defect
shows only as [ERROR] records in the logs of the extraction and of the
cleanup. *)
Theorem C2_escape_artifact_logged_not_repaired
    (response code name : string) (conf : nat) (logs : list log_record) :
  Extraction._extract_code_with_fallbacks response
  = (Extraction.ExtractionSuccess code name conf, logs) ->
  PyStr.contains "\n" code = true ->
  Extraction.success (fst (Extraction._extract_code_with_fallbacks response)) = true
  /\ (exists method,
         In (name, method) Extraction.extraction_methods
         /\ method response = Ok code)
  /\ In (ERROR, Extraction.critical_message name) logs
  /\ (exists cleaned_code,
         fst (Cleanup._cleanup_code_formatting (Some code)) = Some cleaned_code
         /\ PyStr.contains "\n" cleaned_code = true)
  /\ In (ERROR, Cleanup.critical_message)
        (snd (Cleanup._cleanup_code_formatting (Some code))).
Proof.
  intros H Hc. split; [now rewrite H|].
  destruct (ExtractionFacts.try_methods_success _ _ _ _ _ _ _ H)
    as ((method & Hin & Hm & _) & _ & Hlog).
  split; [exists method; split; assumption|].
  split; [now apply Hlog|].
  destruct code as [|c s]; [discriminate Hc|].
  split.
  - exists (Cleanup.format_steps (String c s)). split; [reflexivity|].
    now apply WhiteSpaceEdits.format_steps_keeps.
  - cbn [Cleanup._cleanup_code_formatting snd].
    unfold Cleanup.has_escape_sequences. rewrite Hc. now left.
Qed.

Lemma C2_escape_artifact_witness :
  exists code name conf logs,
    Extraction._extract_code_with_fallbacks Spec.escaped_response
    = (Extraction.ExtractionSuccess code name conf, logs)
    /\ PyStr.contains "\n" code = true
    /\ In (ERROR, Extraction.critical_message name) logs
    /\ In (ERROR, Cleanup.critical_message)
         (snd (Cleanup._cleanup_code_formatting (Some code))).
Proof.
  exists Spec.escaped_code, "python_blocks", 8,
    [(ERROR, Extraction.critical_message "python_blocks")].
  assert (H : Extraction._extract_code_with_fallbacks Spec.escaped_response
              = (Extraction.ExtractionSuccess Spec.escaped_code
                   "python_blocks" 8,
                 [(ERROR, Extraction.critical_message "python_blocks")]))
    by (vm_compute; reflexivity).
  assert (Hc : PyStr.contains "\n" Spec.escaped_code = true)
    by (vm_compute; reflexivity).
  split; [exact H|]. split; [exact Hc|].
  pose proof (C2_escape_artifact_logged_not_repaired _ _ _ _ _ H Hc)
    as (_ & _ & Hlog & _ & Hclean).
  split; assumption.
Defined.

(** C2 as stated fails: this extraction is returned with [success = True]
    and its code holds a literal backslash-n. *)
Lemma C2_success_with_escape_sequence :
  exists code name conf,
    fst (Extraction._extract_code_with_fallbacks Spec.escaped_response)
    = Extraction.ExtractionSuccess code name conf
    /\ Extraction.success (Extraction.ExtractionSuccess code name conf) = true
    /\ PyStr.contains "\n" code = true.
Proof.
  exists Spec.escaped_code, "python_blocks", 8.
  repeat split; vm_compute; reflexivity.
Qed.

(** C4, as the code has it.  When the four methods all fail, the result has
    [success = False], the fixed error text, and as preview the first 500
    characters of the response: a prefix of it, of length
    [min 500 (len response)], which is empty exactly when the response is
    empty.  No code is made up: the record carries none. *)
Theorem C4_all_methods_fail (response : string) :
  Extraction.all_methods_fail response = true ->
  let r := fst (Extraction._extract_code_with_fallbacks response) in
  Extraction.success r = false
  /\ r = Extraction.ExtractionFailure "All code extraction methods failed"
           (PyStr.take 500 response)
  /\ PyStr.take 500 response +:+ PyStr.drop 500 response = response
  /\ String.length (PyStr.take 500 response) = Nat.min 500 (String.length response)
  /\ PyStr.is_empty (PyStr.take 500 response) = PyStr.is_empty response.
Proof.
  intros H r.
  assert (Hr : r = Extraction.ExtractionFailure "All code extraction methods failed"
                     (PyStr.take 500 response))
    by (apply ExtractionFacts.try_methods_all_fail; exact H).
  split; [now rewrite Hr|]. split; [exact Hr|].
  split; [apply PyStrFacts.take_prefix|].
  split; [apply PyStrFacts.take_length|].
  now destruct response.
Qed.

Lemma C4_all_methods_fail_witness :
  Extraction.all_methods_fail "hello world" = true
  /\ fst (Extraction._extract_code_with_fallbacks "hello world")
     = Extraction.ExtractionFailure "All code extraction methods failed" "hello world".
Proof.
  assert (H : Extraction.all_methods_fail "hello world" = true)
    by (vm_compute; reflexivity).
  split; [exact H|].
  exact (proj1 (proj2 (C4_all_methods_fail "hello world" H))).
Defined.

(** C4 as stated fails on the empty response: the four methods fail on it
    and the preview is the empty string. *)
Lemma C4_empty_response_empty_preview :
  Extraction.all_methods_fail EmptyString = true
  /\ fst (Extraction._extract_code_with_fallbacks EmptyString)
     = Extraction.ExtractionFailure "All code extraction methods failed" EmptyString.
Proof. split; vm_compute; reflexivity. Qed.


(** ** Response-text normalisation *)

Module ResponseFacts.
Import PyStr Response.

Lemma dict_text_parts_blocks (texts : list string) :
  dict_text_parts (map text_block texts) = map PStr texts.
Proof. induction texts as [|t ts IH]; cbn; [reflexivity | now rewrite IH]. Qed.

Lemma strings_of_strs (texts : list string) :
  strings_of (map PStr texts) = Some texts.
Proof. induction texts as [|t ts IH]; cbn; [reflexivity | now rewrite IH]. Qed.

(** The content-list shape is understood when it is the [message]
    attribute of the value given: the texts are joined with line feeds. *)
Lemma message_content_joined (t : string) (ts : list string) (shown : string) :
  _extract_response_text_properly (with_message (content_response (t :: ts)) shown)
  = Ok (PStr (join NL (t :: ts))).
Proof.
  unfold _extract_response_text_properly, with_message, content_response.
  cbn [getattr assoc String.eqb Ascii.eqb Bool.eqb map].
  change (text_block t :: map text_block ts) with (map text_block (t :: ts)).
  rewrite dict_text_parts_blocks. cbn [map]. unfold join_parts.
  change (PStr t :: map PStr ts) with (map PStr (t :: ts)).
  now rewrite strings_of_strs.
Qed.

(** A plain string is returned unchanged, given directly or as the
    [message] attribute. *)
Lemma plain_string_unchanged (s shown : string) :
  _extract_response_text_properly (PStr s) = Ok (PStr s)
  /\ _extract_response_text_properly (with_message (PStr s) shown) = Ok (PStr s).
Proof. split; reflexivity. Qed.

(** A dictionary given directly has no [message] attribute: it is turned
    into text by [str()]. *)
Lemma dict_stringified (items : list (string * pyval)) :
  _extract_response_text_properly (PDict items) = Ok (PStr (repr (PDict items))).
Proof. reflexivity. Qed.

End ResponseFacts.

(** C3 at the dictionary [{'content': [{'text': 'X'}]}] given as the
    response itself, as line 1479 gives it: the function does not return
    [X]; it returns the text of the whole dictionary as [str()] prints it,
    in which a line feed of the text becomes a backslash and an [n].  The
    same holds for any number of text blocks: they are not joined. *)
Theorem C3_raw_dict_is_stringified :
  Response._extract_response_text_properly (Response.content_response ["X"])
  = Ok (Response.PStr "{'content': [{'text': 'X'}]}")
  /\ Response._extract_response_text_properly
       (Response.content_response ["a" +:+ PyStr.NL +:+ "b"])
     = Ok (Response.PStr "{'content': [{'text': 'a\nb'}]}")
  /\ Response._extract_response_text_properly (Response.content_response ["X"; "Y"])
     = Ok (Response.PStr "{'content': [{'text': 'X'}, {'text': 'Y'}]}")
  /\ (forall x : string,
         Response._extract_response_text_properly (Response.content_response [x])
         = Ok (Response.PStr
                 ("{'content': [{'text': " +:+ Response.repr_str x +:+ "}]}")))
  /\ (forall texts : list string,
         Response._extract_response_text_properly (Response.content_response texts)
         = Ok (Response.PStr (Response.str (Response.content_response texts)))).
Proof.
  split; [reflexivity|]. split; [reflexivity|]. split; [reflexivity|].
  split; [|reflexivity].
  intros x. unfold Response.content_response.
  rewrite ResponseFacts.dict_stringified. do 2 f_equal.
  assert (Hc : Response.repr_str "content" = "'content'") by (vm_compute; reflexivity).
  assert (Ht : Response.repr_str "text" = "'text'") by (vm_compute; reflexivity).
  cbn [Response.repr map fst snd PyStr.join Response.text_block].
  rewrite Hc, Ht. generalize (Response.repr_str x). intros r.
  cbn [String.append]. now rewrite !PyStrFacts.append_assoc.
Qed.

(** ** Streamed remote responses *)

Module SseFacts.
Import PyStr PyStrFacts Response Json Sse Spec.

(** The final frame is always built: its dictionary holds only strings,
    booleans and [None]. *)
Lemma final_sse_some (full_content : string) (request_id : option string) :
  exists t,
    json_dumps (final_response full_content request_id) = Some t
    /\ final_sse full_content request_id = Some ("data: [FINAL]" +:+ t +:+ NL +:+ NL).
Proof.
  unfold final_sse. destruct request_id as [r|]; cbn; eexists; split; reflexivity.
Qed.

Lemma final_sse_is_final (full_content : string) (request_id : option string) (f : string) :
  final_sse full_content request_id = Some f -> is_final_frame f = true.
Proof.
  destruct (final_sse_some full_content request_id) as (t & _ & E).
  rewrite E. intros [= <-]. reflexivity.
Qed.

Section WithDecoder.
Variable json_loads : string -> option pyval.

Lemma handle_data_line (payload text : string) (st : loop_state) :
  decoded_payload json_loads payload = Some text ->
  handle_line json_loads ("data: " +:+ payload) st
  = Ok ({| chunk_count := S (chunk_count st);
           full_content := full_content st +:+ text |},
        [content_frame json_loads payload]).
Proof.
  unfold decoded_payload, handle_line, content_frame.
  change (is_empty ("data: " +:+ payload)) with false.
  rewrite startswith_append.
  change 6 with (String.length "data: "). rewrite drop_append.
  cbn [String.length].
  destruct (json_loads payload) as [[| | |t| | |]|]; intros H;
    congruence.
Qed.

(** An empty line is skipped by the test of line 1337. *)
Lemma handle_empty_line (st : loop_state) :
  handle_line json_loads EmptyString st = Ok (st, []).
Proof. reflexivity. Qed.

(** A line of white space only, not empty, is forwarded with a line
    feed. *)
Lemma handle_blank_line (c : ascii) (rest : string) (st : loop_state) :
  is_empty (strip (String c rest)) = true ->
  handle_line json_loads (String c rest) st
  = Ok ({| chunk_count := S (chunk_count st); full_content := full_content st |},
        [String c rest +:+ NL]).
Proof.
  intros Hb. unfold handle_line. cbn [is_empty].
  destruct (startswith (String c rest) "data: ") eqn:Es; [|now rewrite Hb].
  (* a line that starts with [d] is not white space only *)
  exfalso. cbn [startswith] in Es.
  apply andb_true_iff in Es as [Ec _]. apply Ascii.eqb_eq in Ec. subst c.
  rewrite strip_starts_nonspace in Hb by reflexivity. discriminate.
Qed.

(** Content lines and empty lines only: the frames yielded are the content
    frames, in order, and the text gathered is the concatenation of the
    decoded payloads. *)
Lemma stream_lines_data (items : list (option string)) :
  forall (st : loop_state) (texts : list string),
    Forall2 (fun p t => decoded_payload json_loads p = Some t)
      (payloads_of items) texts ->
    stream_lines json_loads (sse_lines items) st
    = (map (content_frame json_loads) (payloads_of items),
       Ok {| chunk_count := chunk_count st + length texts;
             full_content := full_content st +:+ concat texts |}).
Proof.
  induction items as [|[p|] items IH]; intros st texts H; cbn [sse_lines map payloads_of flat_map app] in *.
  - inversion H; subst. cbn [stream_lines length concat fold_right].
    rewrite Nat.add_0_r, append_empty_r. now destruct st.
  - inversion H as [|p' t ps ts Hp Hrest]; subst.
    cbn [stream_lines]. rewrite (handle_data_line p t st Hp).
    fold (sse_lines items). fold (payloads_of items) in Hrest |- *.
    rewrite (IH _ ts Hrest). cbn [chunk_count full_content length concat fold_right app map].
    rewrite append_assoc. do 3 f_equal. lia.
  - cbn [stream_lines]. rewrite handle_empty_line.
    fold (sse_lines items). fold (payloads_of items) in H |- *.
    now rewrite (IH st texts H).
Qed.

Lemma streaming_branch_data (items : list (option string)) (texts : list string)
    (request_id : option string) :
  Forall2 (fun p t => decoded_payload json_loads p = Some t)
    (payloads_of items) texts ->
  exists final,
    streaming_branch json_loads (sse_lines items) request_id
    = map (content_frame json_loads) (payloads_of items) ++ [final]
    /\ final_sse (concat texts) request_id = Some final.
Proof.
  intros H. destruct (final_sse_some (concat texts) request_id) as (t & _ & Ef).
  eexists. split; [|exact Ef].
  unfold streaming_branch. rewrite (stream_lines_data items _ texts H).
  cbn [full_content String.append]. now rewrite Ef.
Qed.

(** A line of white space between two content lines is forwarded, with a
    line feed after it. *)
Lemma white_line_forwarded (p1 p2 t1 t2 : string) (c : ascii) (rest : string)
    (request_id : option string) :
  decoded_payload json_loads p1 = Some t1 ->
  decoded_payload json_loads p2 = Some t2 ->
  is_empty (strip (String c rest)) = true ->
  exists final,
    streaming_branch json_loads
      [ "data: " +:+ p1; String c rest; "data: " +:+ p2 ] request_id
    = [ content_frame json_loads p1; String c rest +:+ NL;
        content_frame json_loads p2; final ]
    /\ final_sse (t1 +:+ t2) request_id = Some final.
Proof.
  intros H1 H2 Hb.
  destruct (final_sse_some (t1 +:+ t2) request_id) as (t & _ & Ef).
  eexists. split; [|exact Ef].
  unfold streaming_branch. cbn [stream_lines].
  rewrite (handle_data_line p1 t1 _ H1).
  rewrite (handle_blank_line c rest _ Hb).
  rewrite (handle_data_line p2 t2 _ H2).
  cbn [full_content chunk_count app String.append]. now rewrite Ef.
Qed.

(** A content line whose payload is JSON but not a string ends the stream:
    adding the value to the text gathered raises [TypeError], and no
    sentinel frame follows. *)
Lemma non_string_payload_ends_stream (payload : string) (v : pyval)
    (rest : list string) (request_id : option string) :
  json_loads payload = Some v ->
  (forall t, v <> PStr t) ->
  streaming_branch json_loads (("data: " +:+ payload) :: rest) request_id = [].
Proof.
  intros Hv Hns. unfold streaming_branch. cbn [stream_lines].
  unfold handle_line. change (is_empty ("data: " +:+ payload)) with false.
  rewrite startswith_append.
  change 6 with (String.length "data: "). rewrite drop_append, Hv.
  destruct v; try reflexivity. now destruct (Hns s).
Qed.

End WithDecoder.

End SseFacts.

(** C1 on two content lines with an empty line between them, which is how
    the frames of an event stream are separated.  The generator yields three
    frames: the two content frames and the sentinel frame.  The empty line
    is not forwarded: the input has three lines and the output has two frames
    before the sentinel.  The sentinel does carry the concatenation of the
    two decoded payloads. *)
Theorem C1_empty_line_not_forwarded
    (json_loads : string -> option Response.pyval)
    (p1 p2 t1 t2 : string) (request_id : option string) :
  Sse.decoded_payload json_loads p1 = Some t1 ->
  Sse.decoded_payload json_loads p2 = Some t2 ->
  exists final,
    Sse.streaming_branch json_loads
      [ "data: " +:+ p1; EmptyString; "data: " +:+ p2 ] request_id
    = [ Spec.content_frame json_loads p1;
        Spec.content_frame json_loads p2;
        final ]
    /\ Sse.final_sse (t1 +:+ t2) request_id = Some final
    /\ Sse.is_final_frame final = true.
Proof.
  intros H1 H2.
  destruct (SseFacts.final_sse_some (t1 +:+ t2) request_id) as (t & _ & Ef).
  eexists. split; [|split; [exact Ef | now apply (SseFacts.final_sse_is_final _ _ _ Ef)]].
  unfold Sse.streaming_branch. cbn [Sse.stream_lines].
  rewrite (SseFacts.handle_data_line json_loads p1 t1 _ H1).
  rewrite SseFacts.handle_empty_line.
  rewrite (SseFacts.handle_data_line json_loads p2 t2 _ H2).
  cbn [Sse.full_content Sse.chunk_count app String.append].
  now rewrite Ef.
Qed.

Lemma C1_empty_line_witness :
  Sse.streaming_branch Json.json_loads_fragment Spec.two_frames_one_empty_line
    (Some "req-1")
  = [ "data: ab" +:+ PyStr.NL +:+ PyStr.NL;
      "data: cd" +:+ PyStr.NL +:+ PyStr.NL;
      "data: [FINAL]"
      +:+ match Json.json_dumps (Sse.final_response "abcd" (Some "req-1")) with
          | Some t => t
          | None => EmptyString
          end
      +:+ PyStr.NL +:+ PyStr.NL ].
Proof.
  destruct (C1_empty_line_not_forwarded Json.json_loads_fragment
              (Spec.quoted "ab") (Spec.quoted "cd") "ab" "cd" (Some "req-1")
              eq_refl eq_refl) as (final & Hs & Hf & _).
  unfold Spec.two_frames_one_empty_line. rewrite Hs.
  vm_compute in Hf. injection Hf as <-. vm_compute. reflexivity.
Defined.


(** ** The artifact store *)

Module S3StoreFacts.
Import PyStr S3Store.

(** The sanitised session id holds allowed characters only. *)
Lemma sanitize_allowed (session_id : string) :
  all_chars allowed_char (sanitize session_id) = true.
Proof.
  unfold sanitize. induction session_id as [|c s IH]; cbn [filter_chars all_chars];
    [reflexivity|].
  destruct (allowed_char c) eqn:E; [|exact IH].
  cbn [all_chars]. now rewrite E, IH.
Qed.

(** No exception leaves [get_code_file]. *)
Lemma get_code_file_returns (self : S3CodeStorageService) (session_id code_type : string) :
  exists r, get_code_file self session_id code_type = Ok r.
Proof.
  unfold get_code_file.
  destruct (get_code_file_try self session_id code_type) as [r|e]; [eauto|].
  destruct e; eauto.
  destruct (String.eqb code "NoSuchKey"); eauto.
Qed.

(** No exception leaves [store_code_file]. *)
Lemma store_code_file_returns (self : S3CodeStorageService)
    (session_id code_content code_type : string) (file_extension : option string) :
  exists r, store_code_file self session_id code_content code_type file_extension = Ok r.
Proof.
  unfold store_code_file.
  destruct (store_code_file_try self session_id code_content code_type file_extension)
    as [r|e]; [eauto|].
  destruct e; eauto.
Qed.

(** An unrecognised slot gives the error outcome. *)
Lemma get_code_file_unrecognized (self : S3CodeStorageService) (session_id code_type : string) :
  recognized code_type = false ->
  get_code_file self session_id code_type = Ok (GetError "Unexpected error").
Proof.
  intros H. unfold get_code_file, get_code_file_try. now rewrite H.
Qed.

(** A missing key, on a backend that answers, gives the not-found
    outcome. *)
Lemma get_code_file_missing (self : S3CodeStorageService) (session_id code_type : string) :
  recognized code_type = true ->
  is_empty (sanitize session_id) = false ->
  fault (s3_client_ self) = None ->
  objects (s3_client_ self) !! probed_key session_id code_type = None ->
  get_code_file self session_id code_type = Ok (GetNotFound "Code file not found").
Proof.
  intros Hr Hs Hf Hm.
  unfold get_code_file, get_code_file_try, get_object.
  rewrite Hr, Hs, Hf. cbn [negb]. unfold probed_key in Hm. now rewrite Hm.
Qed.

(** A stored key, on a backend that answers, gives the object back. *)
Lemma get_code_file_present (self : S3CodeStorageService) (session_id code_type : string)
    (o : s3_object) :
  recognized code_type = true ->
  is_empty (sanitize session_id) = false ->
  fault (s3_client_ self) = None ->
  objects (s3_client_ self) !! probed_key session_id code_type = Some o ->
  get_code_file self session_id code_type
  = Ok (GetSuccess (Body o)
          (s3_uri_of (bucket_name self) (probed_key session_id code_type))
          code_type session_id (LastModified o) (String.length (Body o))).
Proof.
  intros Hr Hs Hf Hm.
  unfold get_code_file, get_code_file_try, get_object.
  rewrite Hr, Hs, Hf. cbn [negb]. unfold probed_key in Hm. now rewrite Hm.
Qed.

(** What a successful answer of [get_code_file] tells. *)
Lemma get_code_file_success (self : S3CodeStorageService) (session_id code_type : string)
    (r : get_response) :
  get_code_file self session_id code_type = Ok r ->
  get_status r = "success" ->
  recognized code_type = true
  /\ exists o,
      objects (s3_client_ self) !! probed_key session_id code_type = Some o
      /\ r = GetSuccess (Body o)
               (s3_uri_of (bucket_name self) (probed_key session_id code_type))
               code_type session_id (LastModified o) (String.length (Body o)).
Proof.
  unfold get_code_file, get_code_file_try, get_object, probed_key.
  destruct (recognized code_type); cbn [negb].
  2:{ intros [= <-]; discriminate. }
  destruct (is_empty (sanitize session_id)).
  { intros [= <-]; discriminate. }
  destruct (fault (s3_client_ self)) as [e|].
  { cbn [bind]. destruct e; try (intros [= <-]; discriminate).
    destruct (String.eqb code "NoSuchKey"); intros [= <-]; discriminate. }
  destruct (objects (s3_client_ self) !! _) as [o|] eqn:Eo; cbn [bind].
  - intros [= <-] _. split; [reflexivity|]. exists o. split; reflexivity.
  - cbn. intros [= <-]; discriminate.
Qed.

(** A session id without any allowed character gives the error outcome,
    whatever the slot and the state of the store. *)
Lemma get_code_file_no_allowed_character (self : S3CodeStorageService)
    (session_id code_type : string) :
  is_empty (sanitize session_id) = true ->
  get_code_file self session_id code_type = Ok (GetError "Unexpected error").
Proof.
  intros H. unfold get_code_file, get_code_file_try.
  destruct (recognized code_type); cbn [negb]; [|reflexivity].
  now rewrite H.
Qed.

(** A store that is refused leaves the service as it was. *)
Lemma store_code_file_rejects (self : S3CodeStorageService)
    (session_id code_content code_type : string) (file_extension : option string) :
  blank session_id || blank code_content || negb (recognized code_type)
  || is_empty (sanitize session_id) = true ->
  store_code_file self session_id code_content code_type file_extension
  = Ok (StoreError "Validation error", self).
Proof.
  intros H. unfold store_code_file, store_code_file_try.
  destruct (recognized code_type); cbn [negb]; [|reflexivity].
  destruct (blank session_id); [reflexivity|].
  destruct (blank code_content); [reflexivity|].
  destruct (is_empty (sanitize session_id)); [reflexivity|].
  discriminate H.
Qed.

(** What a successful answer of [store_code_file] tells. *)
Lemma store_code_file_success (self self' : S3CodeStorageService)
    (session_id code_content code_type : string) (file_extension : option string)
    (r : store_response) :
  store_code_file self session_id code_content code_type file_extension = Ok (r, self') ->
  store_status r = "success" ->
  let key :=
    s3_key_of (sanitize session_id) code_type (extension_argument file_extension) in
  recognized code_type = true
  /\ blank session_id = false
  /\ blank code_content = false
  /\ is_empty (sanitize session_id) = false
  /\ r = StoreSuccess (s3_uri_of (bucket_name self) key) (bucket_name self) key
           code_type session_id (String.length code_content)
  /\ bucket_name self' = bucket_name self
  /\ fault (s3_client_ self') = None
  /\ exists o,
      objects (s3_client_ self') = <[ key := o ]> (objects (s3_client_ self))
      /\ Body o = code_content.
Proof.
  unfold store_code_file, store_code_file_try, put_object.
  destruct (recognized code_type); cbn [negb].
  2:{ intros [= <- _]; discriminate. }
  destruct (blank session_id).
  { intros [= <- _]; discriminate. }
  destruct (blank code_content).
  { intros [= <- _]; discriminate. }
  destruct (is_empty (sanitize session_id)).
  { intros [= <- _]; discriminate. }
  destruct (fault (s3_client_ self)) as [e|]; cbn [bind].
  { destruct e; intros [= <- _]; discriminate. }
  intros [= <- <-] _. cbn.
  repeat (split; [reflexivity|]).
  eexists. split; reflexivity.
Qed.

End S3StoreFacts.

(** C8, as the code has it.  For a recognised slot and a session id with at
    least one allowed character, [get_code_file] on a key with no stored
    artifact, the store answering, returns the outcome with status
    [not_found]; that status is not the status [error]; every session id
    without any allowed character gives the outcome with status [error],
    whatever the slot and the state of the store; and for every service
    state, session id and slot name the call returns an outcome: no
    exception reaches the caller. *)
Theorem C8_missing_key_is_not_found
    (self : S3Store.S3CodeStorageService) (session_id code_type : string) :
  S3Store.recognized code_type = true ->
  PyStr.is_empty (S3Store.sanitize session_id) = false ->
  S3Store.fault (S3Store.s3_client_ self) = None ->
  S3Store.objects (S3Store.s3_client_ self) !! S3Store.probed_key session_id code_type
  = None ->
  S3Store.get_code_file self session_id code_type
  = Ok (S3Store.GetNotFound "Code file not found")
  /\ S3Store.get_status (S3Store.GetNotFound "Code file not found") = "not_found"
  /\ (forall error,
         S3Store.get_status (S3Store.GetNotFound "Code file not found")
         <> S3Store.get_status (S3Store.GetError error))
  /\ (forall self' session_id' code_type',
         PyStr.is_empty (S3Store.sanitize session_id') = true ->
         exists error,
           S3Store.get_code_file self' session_id' code_type'
           = Ok (S3Store.GetError error)
           /\ S3Store.get_status (S3Store.GetError error) = "error")
  /\ (forall self' session_id' code_type',
         exists r, S3Store.get_code_file self' session_id' code_type' = Ok r).
Proof.
  intros Hr Hs Hf Hm.
  split; [now apply S3StoreFacts.get_code_file_missing|].
  split; [reflexivity|].
  split; [intros error; discriminate|].
  split.
  - intros self' session_id' code_type' He.
    exists "Unexpected error". split; [|reflexivity].
    now apply S3StoreFacts.get_code_file_no_allowed_character.
  - intros. apply S3StoreFacts.get_code_file_returns.
Qed.

Lemma C8_missing_key_witness :
  S3Store.get_code_file (S3Store.empty_service "bucket") "sess-1" "pure_strands"
  = Ok (S3Store.GetNotFound "Code file not found").
Proof.
  refine (proj1 (C8_missing_key_is_not_found (S3Store.empty_service "bucket")
                   "sess-1" "pure_strands" _ _ _ _)).
  - vm_compute; reflexivity.
  - vm_compute; reflexivity.
  - reflexivity.
  - reflexivity.
Defined.

(** C8 as stated fails for a session id without any allowed character: the
    slot is recognised, nothing is stored, and the outcome has status
    [error], not [not_found]. *)
Lemma C8_no_allowed_character_is_error :
  S3Store.recognized "pure_strands" = true
  /\ S3Store.objects (S3Store.s3_client_ (S3Store.empty_service "bucket")) = ∅
  /\ S3Store.get_code_file (S3Store.empty_service "bucket") "!!!" "pure_strands"
     = Ok (S3Store.GetError "Unexpected error")
  /\ S3Store.get_status (S3Store.GetError "Unexpected error") = "error".
Proof. repeat split. Qed.


(** C9, as the code has it.  A successful store writes the object under
    [temp-code/{sanitized_session_id}/{slot}{extension}], where the slot is
    one of the three recognised values, the session id and the content are
    not blank, and the extension is the [file_extension] argument of the call
    (['.py'] when it is omitted), whatever the slot; the sanitised session
    id holds only alphanumerics, hyphens and underscores; a store with a
    blank session id, a blank content, an unrecognised slot or a session id
    without any allowed character is refused with an error and stores
    nothing; [get_code_file] reads the key with ['.py']
    for the two code slots and ['.txt'] for the manifest slot; hence a get
    after a successful store of a slot returns the stored content when the
    store was made with that extension. *)
Theorem C9_storage_layout :
  (forall (self self' : S3Store.S3CodeStorageService)
          (session_id code_content code_type : string)
          (file_extension : option string) (r : S3Store.store_response),
      S3Store.store_code_file self session_id code_content code_type file_extension
      = Ok (r, self') ->
      S3Store.store_status r = "success" ->
      let extension := S3Store.extension_argument file_extension in
      let key := S3Store.s3_key_of (S3Store.sanitize session_id) code_type extension in
      S3Store.recognized code_type = true
      /\ S3Store.blank session_id = false
      /\ S3Store.blank code_content = false
      /\ r = S3Store.StoreSuccess (S3Store.s3_uri_of (S3Store.bucket_name self) key)
               (S3Store.bucket_name self) key code_type session_id
               (String.length code_content)
      /\ (exists o,
             S3Store.objects (S3Store.s3_client_ self') !! key = Some o
             /\ S3Store.Body o = code_content)
      /\ (extension = S3Store.extension_of code_type ->
          exists s3_uri last_modified,
            S3Store.get_code_file self' session_id code_type
            = Ok (S3Store.GetSuccess code_content s3_uri code_type session_id
                    last_modified (String.length code_content))))
  /\ (forall session_id : string,
         PyStr.all_chars S3Store.allowed_char (S3Store.sanitize session_id) = true)
  /\ (forall (self : S3Store.S3CodeStorageService)
             (session_id code_content code_type : string)
             (file_extension : option string),
         S3Store.blank session_id || S3Store.blank code_content
         || negb (S3Store.recognized code_type)
         || PyStr.is_empty (S3Store.sanitize session_id) = true ->
         S3Store.store_code_file self session_id code_content code_type file_extension
         = Ok (S3Store.StoreError "Validation error", self))
  /\ (forall (self : S3Store.S3CodeStorageService) (session_id code_type : string)
             (r : S3Store.get_response),
         S3Store.get_code_file self session_id code_type = Ok r ->
         S3Store.get_status r = "success" ->
         S3Store.recognized code_type = true
         /\ exists o,
             S3Store.objects (S3Store.s3_client_ self)
               !! S3Store.s3_key_of (S3Store.sanitize session_id) code_type
                    (S3Store.extension_of code_type)
             = Some o
             /\ r = S3Store.GetSuccess (S3Store.Body o)
                      (S3Store.s3_uri_of (S3Store.bucket_name self)
                         (S3Store.probed_key session_id code_type))
                      code_type session_id (S3Store.LastModified o)
                      (String.length (S3Store.Body o)))
  /\ S3Store.extension_of "pure_strands" = ".py"
  /\ S3Store.extension_of "agentcore_ready" = ".py"
  /\ S3Store.extension_of "requirements" = ".txt".
Proof.
  split.
  { intros self self' session_id code_content code_type file_extension r H Hs
           extension key.
    destruct (S3StoreFacts.store_code_file_success _ _ _ _ _ _ _ H Hs)
      as (Hr & Hbs & Hbc & Hne & Hres & Hbucket & Hfault & o & Hobj & Hbody).
    fold extension in Hres, Hobj. fold key in Hres, Hobj.
    repeat (split; [assumption|]).
    split.
    - exists o. split; [|exact Hbody]. rewrite Hobj. apply lookup_insert_eq.
    - intros Hext.
      assert (Hk : S3Store.probed_key session_id code_type = key)
        by (unfold S3Store.probed_key, key; now rewrite <- Hext).
      assert (Hl : S3Store.objects (S3Store.s3_client_ self')
                   !! S3Store.probed_key session_id code_type = Some o)
        by (rewrite Hk, Hobj; apply lookup_insert_eq).
      rewrite (S3StoreFacts.get_code_file_present _ _ _ o Hr Hne Hfault Hl), Hbody.
      eauto. }
  split; [exact S3StoreFacts.sanitize_allowed|].
  split; [exact S3StoreFacts.store_code_file_rejects|].
  split; [exact S3StoreFacts.get_code_file_success|].
  repeat split.
Qed.

Lemma C9_storage_layout_witness :
  exists self',
    S3Store.store_code_file (S3Store.empty_service "bucket") "user/1_a"
      "print(1)" "pure_strands" None
    = Ok (S3Store.StoreSuccess "s3://bucket/temp-code/user1_a/pure_strands.py"
            "bucket" "temp-code/user1_a/pure_strands.py" "pure_strands" "user/1_a" 8,
          self')
    /\ exists s3_uri last_modified,
        S3Store.get_code_file self' "user/1_a" "pure_strands"
        = Ok (S3Store.GetSuccess "print(1)" s3_uri "pure_strands" "user/1_a"
                last_modified 8).
Proof.
  eexists. split; [vm_compute; reflexivity|].
  refine (proj2 (proj2 (proj2 (proj2 (proj2
    (proj1 C9_storage_layout (S3Store.empty_service "bucket") _ "user/1_a"
       "print(1)" "pure_strands" None _ _ _))))) _).
  - vm_compute; reflexivity.
  - reflexivity.
  - reflexivity.
Defined.

(** C9 as stated fails for the manifest slot stored with the default
    extension: the store succeeds under a key that ends in [.py], and the
    get that follows reads the key that ends in [.txt] and finds nothing. *)
Lemma C9_manifest_stored_with_default_extension :
  exists self',
    S3Store.store_code_file (S3Store.empty_service "bucket") "sess1"
      "boto3>=1.34.0" "requirements" None
    = Ok (S3Store.StoreSuccess "s3://bucket/temp-code/sess1/requirements.py"
            "bucket" "temp-code/sess1/requirements.py" "requirements" "sess1" 13,
          self')
    /\ S3Store.get_code_file self' "sess1" "requirements"
       = Ok (S3Store.GetNotFound "Code file not found").
Proof.
  eexists. split; [vm_compute; reflexivity|].
  apply S3StoreFacts.get_code_file_missing; reflexivity.
Qed.


(** ** Regional prefixes *)

Module ModelIdFacts.
Import PyStr PyStrFacts Spec.

Lemma prefix_of_region_known (region : string) :
  In (ModelUtils.prefix_of_region region) ModelUtils.regional_prefixes.
Proof.
  unfold ModelUtils.prefix_of_region, ModelUtils.regional_prefixes.
  repeat match goal with |- context [if ?b then _ else _] => destruct b end;
    cbn; tauto.
Qed.

Lemma get_regional_prefix_known session_region region :
  In (ModelUtils.get_regional_prefix session_region region)
    ModelUtils.regional_prefixes.
Proof.
  unfold ModelUtils.get_regional_prefix.
  match goal with |- In (match ?x with _ => _ end) _ => destruct x as [r|] end;
    [|cbn; tauto].
  destruct (is_empty r); [cbn; tauto | apply prefix_of_region_known].
Qed.

Lemma service_prefix_known config_region session_region self region :
  In (fst (ModelIDService.get_regional_prefix config_region session_region self region))
    ModelUtils.regional_prefixes.
Proof.
  unfold ModelIDService.get_regional_prefix.
  destruct (match region with
            | Some r => (Some r, self)
            | None => ModelIDService.detect_region config_region session_region self
            end) as [[r|] self']; cbn [fst]; [|cbn; tauto].
  destruct (is_empty r); [cbn; tauto | apply prefix_of_region_known].
Qed.

Lemma prefixed_has_prefix (p model_id : string) :
  In p ModelUtils.regional_prefixes ->
  ModelUtils.has_regional_prefix (p +:+ model_id) = true.
Proof.
  unfold ModelUtils.regional_prefixes, ModelUtils.has_regional_prefix.
  intros [<-|[<-|[<-|[]]]]; rewrite startswith_append;
    rewrite ?orb_true_r; reflexivity.
Qed.

Lemma format_settled session_region model_id region :
  settled model_id = true ->
  ModelUtils.format_model_for_cris session_region model_id region = model_id.
Proof.
  unfold settled, ModelUtils.format_model_for_cris. intros H.
  destruct (is_empty model_id); [reflexivity|]. cbn in H. now rewrite H.
Qed.

Lemma format_gives_settled session_region model_id region :
  settled (ModelUtils.format_model_for_cris session_region model_id region) = true.
Proof.
  unfold ModelUtils.format_model_for_cris.
  destruct (is_empty model_id) eqn:Ee; [unfold settled; now rewrite Ee|].
  destruct (ModelUtils.has_regional_prefix model_id) eqn:Ep;
    [unfold settled; now rewrite Ep, orb_true_r|].
  unfold settled.
  rewrite (prefixed_has_prefix _ _ (get_regional_prefix_known session_region region)).
  apply orb_true_r.
Qed.

Lemma service_format_settled config_region session_region self model_id region :
  settled model_id = true ->
  ModelIDService.format_model_for_cris config_region session_region self model_id region
  = (model_id, self).
Proof.
  unfold settled, ModelIDService.format_model_for_cris. intros H.
  destruct (is_empty model_id); [reflexivity|]. cbn in H. now rewrite H.
Qed.

Lemma service_format_gives_settled config_region session_region self model_id region :
  settled (fst (ModelIDService.format_model_for_cris config_region session_region
                  self model_id region)) = true.
Proof.
  unfold ModelIDService.format_model_for_cris.
  destruct (is_empty model_id) eqn:Ee; [unfold settled; cbn [fst]; now rewrite Ee|].
  destruct (ModelUtils.has_regional_prefix model_id) eqn:Ep;
    [unfold settled; cbn [fst]; now rewrite Ep, orb_true_r|].
  pose proof (service_prefix_known config_region session_region self region) as Hk.
  destruct (ModelIDService.get_regional_prefix config_region session_region self region)
    as [p self'].
  cbn [fst] in *. unfold settled. rewrite (prefixed_has_prefix _ _ Hk).
  apply orb_true_r.
Qed.

Lemma format_repeatedly_settled session_region model_id regions :
  settled model_id = true ->
  format_repeatedly session_region model_id regions = model_id.
Proof.
  unfold format_repeatedly. induction regions as [|r rs IH]; intros H;
    cbn [fold_left]; [reflexivity|].
  rewrite (format_settled _ _ _ H). now apply IH.
Qed.

Lemma service_format_repeatedly_settled config_region session_region self model_id regions :
  settled model_id = true ->
  service_format_repeatedly config_region session_region self model_id regions
  = (model_id, self).
Proof.
  induction regions as [|r rs IH]; intros H; cbn [service_format_repeatedly];
    [reflexivity|].
  rewrite (service_format_settled _ _ _ _ _ H). now apply IH.
Qed.

End ModelIdFacts.

(** C6.  Both [format_model_for_cris] (the function of [model_utils.py] and
    the method of the model id service) return a model id that already starts
    with [us.], [eu.] or [apac.] as it is; before any other non-empty model
    id they put exactly one of these three prefixes; and formatting any
    number of further times, whatever the regions given or detected, changes
    nothing: the result is that of the first call. *)
Theorem C6_format_model_for_cris_idempotent
    (config_region session_region : result (option string))
    (self : ModelIDService.ModelIDService)
    (model_id : string) (region : option string) (regions : list (option string)) :
  (ModelUtils.has_regional_prefix model_id = true ->
   ModelUtils.format_model_for_cris session_region model_id region = model_id
   /\ fst (ModelIDService.format_model_for_cris config_region session_region
             self model_id region) = model_id)
  /\ (PyStr.is_empty model_id = false ->
      ModelUtils.has_regional_prefix model_id = false ->
      exists p p',
        In p ModelUtils.regional_prefixes /\ In p' ModelUtils.regional_prefixes
        /\ ModelUtils.format_model_for_cris session_region model_id region
           = p +:+ model_id
        /\ fst (ModelIDService.format_model_for_cris config_region session_region
                  self model_id region) = p' +:+ model_id)
  /\ Spec.format_repeatedly session_region model_id (region :: regions)
     = ModelUtils.format_model_for_cris session_region model_id region
  /\ fst (Spec.service_format_repeatedly config_region session_region
            self model_id (region :: regions))
     = fst (ModelIDService.format_model_for_cris config_region session_region
              self model_id region).
Proof.
  split; [|split; [|split]].
  - intros Hp. split.
    + apply ModelIdFacts.format_settled. unfold Spec.settled.
      now rewrite Hp, orb_true_r.
    + rewrite ModelIdFacts.service_format_settled; [reflexivity|].
      unfold Spec.settled. now rewrite Hp, orb_true_r.
  - intros He Hp.
    exists (ModelUtils.get_regional_prefix session_region region),
      (fst (ModelIDService.get_regional_prefix config_region session_region self region)).
    split; [apply ModelIdFacts.get_regional_prefix_known|].
    split; [apply ModelIdFacts.service_prefix_known|].
    unfold ModelUtils.format_model_for_cris, ModelIDService.format_model_for_cris.
    rewrite He, Hp. split; [reflexivity|].
    now destruct (ModelIDService.get_regional_prefix config_region session_region
                    self region).
  - unfold Spec.format_repeatedly. cbn [fold_left].
    apply ModelIdFacts.format_repeatedly_settled, ModelIdFacts.format_gives_settled.
  - cbn [Spec.service_format_repeatedly].
    pose proof (ModelIdFacts.service_format_gives_settled config_region session_region
                  self model_id region) as Hs.
    destruct (ModelIDService.format_model_for_cris config_region session_region
                self model_id region) as [formatted self'].
    cbn [fst] in *. now rewrite ModelIdFacts.service_format_repeatedly_settled.
Qed.

Lemma C6_format_model_for_cris_witness :
  ModelUtils.format_model_for_cris (Ok (Some "eu-west-1")) "us.anthropic.claude-v2" None
  = "us.anthropic.claude-v2"
  /\ (exists p,
         In p ModelUtils.regional_prefixes
         /\ ModelUtils.format_model_for_cris (Ok (Some "eu-west-1"))
              "anthropic.claude-v2" None
            = p +:+ "anthropic.claude-v2").
Proof.
  split.
  - exact (proj1 (proj1 (C6_format_model_for_cris_idempotent
                           (Ok None) (Ok (Some "eu-west-1"))
                           {| ModelIDService._region_cache := None;
                              ModelIDService._default_model_cache := None |}
                           "us.anthropic.claude-v2" None []) eq_refl)).
  - destruct (proj1 (proj2 (C6_format_model_for_cris_idempotent
                              (Ok None) (Ok (Some "eu-west-1"))
                              {| ModelIDService._region_cache := None;
                                 ModelIDService._default_model_cache := None |}
                              "anthropic.claude-v2" None [])) eq_refl eq_refl)
      as (p & _ & Hp & _ & Hf & _).
    exists p. split; assumption.
Defined.

(** ** The orchestrator *)

Module OrchestratorFacts.
Import PyStr Response Json Sse Orchestrator Spec.

Section Pipeline.
Variable json_loads : string -> option pyval.
Variable reconstruct_result : pyval -> option string -> option GenerationResult.
Variable local_generation : result GenerationResult.

(** With the flag off, without a deployed agent, or when the invocation
    raises, the answer is that of the local generation: its result, or
    the exception it raises; nothing of the remote attempt shows. *)
Lemma unavailable_falls_back (rt : remote_runtime) (request_id : option string)
    (stream : bool) :
  remote_unavailable rt = true ->
  _try_agentcore_expert_agent json_loads reconstruct_result rt request_id stream
  = None
  /\ generate_code_freeform json_loads reconstruct_result local_generation
       rt request_id stream
     = match local_generation with
       | Ok r => Ok (LocalResult r)
       | Raise e => Raise e
       end.
Proof.
  unfold remote_unavailable, generate_code_freeform, _try_agentcore_expert_agent.
  destruct (_should_use_agentcore_runtime (USE_AGENTCORE_RUNTIME rt));
    cbn [negb orb]; [|intros _; split; reflexivity].
  destruct (_get_expert_agent_arn (ssm_runtime_arn rt));
    [|intros _; split; reflexivity].
  destruct (invoke_agent_runtime rt); [discriminate|].
  intros _; split; reflexivity.
Qed.

(** Once the invocation has answered, the generator object is returned,
    whatever its body does when it runs, and the local generation is not
    consulted. *)
Lemma answered_returns_generator (rt : remote_runtime) (request_id : option string)
    (stream : bool) :
  remote_unavailable rt = false ->
  exists response,
    invoke_agent_runtime rt = Ok response
    /\ generate_code_freeform json_loads reconstruct_result local_generation
         rt request_id stream
       = Ok (RemoteObject
               (process_body json_loads reconstruct_result response request_id stream)).
Proof.
  unfold remote_unavailable, generate_code_freeform, _try_agentcore_expert_agent.
  destruct (_should_use_agentcore_runtime (USE_AGENTCORE_RUNTIME rt));
    cbn [negb orb]; [|discriminate].
  destruct (_get_expert_agent_arn (ssm_runtime_arn rt)); [|discriminate].
  destruct (invoke_agent_runtime rt) as [response|]; [|discriminate].
  intros _. exists response. split; reflexivity.
Qed.

End Pipeline.

End OrchestratorFacts.

(** C5 at two remote attempts that fail after the invocation has answered.
    In the first the answer holds no event: the body of
    [_process_agentcore_response] logs it and returns [None].  In the second
    the streamed answer holds the JSON number 5, and adding it to the text
    raises [TypeError], caught at line 1519.  In both, [generate_code_freeform]
    returns the generator object of the remote attempt, which yields no
    frame and returns no result; the local generation, whatever it would
    give, is not used. *)
Theorem C5_failed_remote_attempt_is_returned
    (json_loads : string -> option Response.pyval)
    (reconstruct_result :
       Response.pyval -> option string -> option Orchestrator.GenerationResult)
    (local_generation : result Orchestrator.GenerationResult)
    (request_id : option string) (stream : bool) :
  Orchestrator.generate_code_freeform json_loads reconstruct_result local_generation
    Spec.empty_answer_runtime request_id stream
  = Ok (Orchestrator.RemoteObject
          {| Orchestrator.yielded := []; Orchestrator.returned := None |})
  /\ Orchestrator.generate_code_freeform Json.json_loads_fragment reconstruct_result
       local_generation Spec.number_frame_runtime request_id true
     = Ok (Orchestrator.RemoteObject
             {| Orchestrator.yielded := []; Orchestrator.returned := None |}).
Proof. split; reflexivity. Qed.

(** ** Patterns with character classes *)

Module RxFacts.
Import PyStr PyStrFacts WhiteSpaceEdits Rx Terms.

Lemma all_chars_weaken (p q : ascii -> bool) (s : string) :
  (forall c, p c = true -> q c = true) ->
  all_chars p s = true -> all_chars q s = true.
Proof.
  intros Hpq. induction s as [|c s IH]; cbn [all_chars]; [reflexivity|].
  intros H. apply andb_true_iff in H as [Hc Hs].
  now rewrite (Hpq _ Hc), IH.
Qed.

Lemma all_chars_has_char (p : ascii -> bool) (c : ascii) (s : string) :
  all_chars p s = true -> p c = false -> has_char c s = false.
Proof.
  intros Hs Hc. induction s as [|a s IH]; cbn [has_char]; [reflexivity|].
  cbn [all_chars] in Hs. apply andb_true_iff in Hs as [Ha Hs].
  rewrite (IH Hs), orb_false_r.
  destruct (Ascii.eqb a c) eqn:E; [|reflexivity].
  apply Ascii.eqb_eq in E. congruence.
Qed.

Lemma startswith_has_char (c : ascii) (p s : string) :
  startswith s p = true -> has_char c p = true -> has_char c s = true.
Proof.
  revert s. induction p as [|a p IH]; intros s Hs Hp; [discriminate|].
  destruct s as [|b s]; [discriminate|].
  cbn [startswith] in Hs. apply andb_true_iff in Hs as [Hab Hs].
  apply Ascii.eqb_eq in Hab. subst b.
  cbn [has_char] in *. apply orb_true_iff in Hp as [Hp|Hp].
  - now rewrite Hp.
  - rewrite (IH _ Hs Hp). apply orb_true_r.
Qed.

Lemma contains_has_char (c : ascii) (p s : string) :
  contains p s = true -> has_char c p = true -> has_char c s = true.
Proof.
  intros Hs Hp. induction s as [|a s IH].
  - cbn [contains] in Hs. rewrite orb_false_r in Hs.
    exact (startswith_has_char c p _ Hs Hp).
  - cbn [contains] in Hs. apply orb_true_iff in Hs as [Hs|Hs].
    + exact (startswith_has_char c p _ Hs Hp).
    + cbn [has_char]. rewrite (IH Hs). apply orb_true_r.
Qed.

Lemma take_append (m t : string) : take (String.length m) (m +:+ t) = m.
Proof.
  induction m as [|c m IH]; cbn [String.length String.append take].
  - now destruct t.
  - now rewrite IH.
Qed.

(** *** What a match consumes *)

Lemma star_consumed {X : Type} (p : ascii -> bool) (s : string)
    (k : string -> option X) (x : X) :
  star p s k = Some x ->
  exists m t, s = m +:+ t /\ all_chars p m = true /\ k t = Some x.
Proof.
  induction s as [|c s IH]; cbn [star]; intros H.
  - exists EmptyString, EmptyString. auto.
  - destruct (p c) eqn:Ec.
    + destruct (star p s k) as [y|] eqn:Es.
      * injection H as ->.
        destruct (IH eq_refl) as (m & t & -> & Hm & Hk).
        exists (String c m), t. cbn [String.append all_chars].
        rewrite Ec, Hm. auto.
      * exists EmptyString, (String c s). auto.
    + exists EmptyString, (String c s). auto.
Qed.

Lemma run_consumed {X : Type} (r : rx) :
  forall (s : string) (k : string -> option X) (x : X),
    run r s k = Some x ->
    exists m t, s = m +:+ t /\ all_chars (alphabet r) m = true /\ k t = Some x.
Proof.
  induction r as [|p|r1 IH1 r2 IH2|p|p]; intros s k x H; cbn [run] in H.
  - exists EmptyString, s. auto.
  - destruct s as [|c s]; [discriminate|].
    destruct (p c) eqn:Ec; [|discriminate].
    exists (String c EmptyString), s.
    change (alphabet (RxOne p)) with p. cbn [all_chars String.append].
    rewrite Ec. auto.
  - destruct (IH1 _ _ _ H) as (m1 & t1 & -> & Hm1 & H1).
    destruct (IH2 _ _ _ H1) as (m2 & t2 & -> & Hm2 & H2).
    exists (m1 +:+ m2), t2. rewrite append_assoc, all_chars_append.
    split; [reflexivity|]. split; [|exact H2].
    apply andb_true_iff. split.
    + apply (all_chars_weaken (alphabet r1)); [|exact Hm1].
      intros c Hc. cbn [alphabet]. now rewrite Hc.
    + apply (all_chars_weaken (alphabet r2)); [|exact Hm2].
      intros c Hc. cbn [alphabet]. rewrite Hc. apply orb_true_r.
  - exact (star_consumed _ _ _ _ H).
  - destruct s as [|c s]; [discriminate|].
    destruct (p c) eqn:Ec; [|discriminate].
    destruct (star_consumed _ _ _ _ H) as (m & t & -> & Hm & Hk).
    exists (String c m), t.
    change (alphabet (RxPlus p)) with p. cbn [all_chars String.append].
    rewrite Ec, Hm. auto.
Qed.

(** A match holds every character the pattern needs. *)
Lemma run_needs {X : Type} (r : rx) (c : ascii) :
  forall (s : string) (k : string -> option X) (x : X),
    needs r c -> run r s k = Some x -> has_char c s = true.
Proof.
  induction r as [|p|r1 IH1 r2 IH2|p|p]; intros s k x Hn H;
    cbn [run needs] in *; try contradiction.
  - destruct s as [|a s]; [discriminate|].
    destruct (p a) eqn:Ea; [|discriminate].
    rewrite (Hn _ Ea). cbn [has_char]. now rewrite Ascii.eqb_refl.
  - destruct Hn as [Hn|Hn].
    + exact (IH1 _ _ _ Hn H).
    + destruct (run_consumed _ _ _ _ H) as (m1 & t1 & -> & _ & H1).
      rewrite has_char_append, (IH2 _ _ _ Hn H1). apply orb_true_r.
  - destruct s as [|a s]; [discriminate|].
    destruct (p a) eqn:Ea; [|discriminate].
    rewrite (Hn _ Ea). cbn [has_char]. now rewrite Ascii.eqb_refl.
Qed.

Lemma search_needs (r : rx) (c : ascii) (s : string) :
  needs r c -> has_char c s = false -> search r s = false.
Proof.
  intros Hn. induction s as [|a s IH]; intros Hs.
  - cbn [search]. unfold match_end.
    destruct (run r EmptyString Some) as [x|] eqn:E; [|reflexivity].
    now rewrite (run_needs _ _ _ _ _ Hn E) in Hs.
  - cbn [search]. unfold match_end.
    destruct (run r (String a s) Some) as [x|] eqn:E.
    + now rewrite (run_needs _ _ _ _ _ Hn E) in Hs.
    + apply IH. cbn [has_char] in Hs. now apply orb_false_iff in Hs as [_ Hs].
Qed.

(** *** How a match is found *)

(** A greedy repetition over a run of the class that ends where the class
    ends hands the rest to the continuation first. *)
Lemma star_stops {X : Type} (p : ascii -> bool) (m t : string)
    (k : string -> option X) (x : X) :
  all_chars p m = true -> stops p t = true -> k t = Some x ->
  star p (m +:+ t) k = Some x.
Proof.
  intros Hm Ht Hk. induction m as [|c m IH]; cbn [String.append].
  - destruct t as [|c t]; cbn [star]; [exact Hk|].
    cbn [stops] in Ht. apply negb_true_iff in Ht. now rewrite Ht.
  - cbn [all_chars] in Hm. apply andb_true_iff in Hm as [Hc Hm].
    cbn [star]. now rewrite Hc, (IH Hm).
Qed.

Lemma plus_stops {X : Type} (p : ascii -> bool) (m t : string)
    (k : string -> option X) (x : X) :
  is_empty m = false -> all_chars p m = true -> stops p t = true ->
  k t = Some x -> run (RxPlus p) (m +:+ t) k = Some x.
Proof.
  destruct m as [|c m]; [discriminate|]. intros _ Hm Ht Hk.
  cbn [all_chars] in Hm. apply andb_true_iff in Hm as [Hc Hm].
  cbn [String.append run]. rewrite Hc. now apply star_stops.
Qed.

Lemma run_lit (w t : string) {X : Type} (k : string -> option X) :
  run (lit w) (w +:+ t) k = k t.
Proof.
  induction w as [|c w IH]; cbn [lit run String.append]; [reflexivity|].
  unfold chr. cbn [run]. now rewrite Ascii.eqb_refl.
Qed.

(** A literal under [re.IGNORECASE] matches the same letters in any
    case. *)
Lemma run_lit_i (w : string) {X : Type} (k : string -> option X) :
  forall u t, lower_text u = lower_text w -> run (lit_i w) (u +:+ t) k = k t.
Proof.
  induction w as [|c w IH]; intros [|a u] t H; cbn [lower_text] in H;
    try discriminate; cbn [lit_i run String.append]; [reflexivity|].
  injection H as Ha Hu. unfold chr_i. cbn [run].
  rewrite Ha, Ascii.eqb_refl. now apply IH.
Qed.

Lemma search_found (r : rx) (pre t rest : string) :
  match_end r t = Some rest -> search r (pre +:+ t) = true.
Proof.
  intros H. induction pre as [|c pre IH]; cbn [String.append].
  - destruct t; cbn [search]; now rewrite H.
  - cbn [search]. rewrite IH. now destruct (match_end r (String c _)).
Qed.

(** *** [findall] *)

Lemma findall_from_alphabet (r : rx) (s : string) :
  forall skip u,
    In u (findall_from r skip s) -> all_chars (alphabet r) u = true.
Proof.
  induction s as [|c s IH]; intros [|n] u H; cbn [findall_from] in H.
  - destruct (match_end r EmptyString) as [rest|] eqn:E; [|contradiction].
    destruct H as [<-|[]]. unfold match_end in E.
    destruct (run_consumed _ _ _ _ E) as (m & t & Hs & Hm & [= ->]).
    now destruct m.
  - contradiction.
  - destruct (match_end r (String c s)) as [rest|] eqn:E.
    + destruct H as [<-|H]; [|exact (IH _ _ H)].
      unfold match_end in E.
      destruct (run_consumed _ _ _ _ E) as (m & t & Hs & Hm & [= ->]).
      rewrite Hs, length_append.
      replace (String.length m + String.length rest - String.length rest)
        with (String.length m) by lia.
      now rewrite take_append.
    + exact (IH _ _ H).
  - exact (IH _ _ H).
Qed.

Lemma findall_from_skip (r : rx) (m t : string) :
  findall_from r (String.length m) (m +:+ t) = findall_from r 0 t.
Proof.
  induction m as [|c m IH]; cbn [String.length String.append]; [reflexivity|].
  cbn [findall_from]. exact IH.
Qed.

(** A match at the start of the text is the first one reported, and the
    search goes on after it. *)
Lemma findall_from_match (r : rx) (m t : string) :
  is_empty m = false -> match_end r (m +:+ t) = Some t ->
  findall_from r 0 (m +:+ t) = m :: findall_from r 0 t.
Proof.
  destruct m as [|c m]; [discriminate|]. intros _ H.
  cbn [String.append] in *. cbn [findall_from]. rewrite H.
  cbn [String.length]. rewrite length_append.
  replace (S (String.length m + String.length t) - String.length t)
    with (S (String.length m)) by lia.
  cbn [take]. rewrite take_append.
  replace (S (String.length m) - 1) with (String.length m) by lia.
  now rewrite findall_from_skip.
Qed.

End RxFacts.
(** ** Storage references in a response *)

Module S3UrisFacts.
Import PyStr PyStrFacts WhiteSpaceEdits Rx Terms RxFacts S3Uris.

Lemma uri_no_underscore (response_text uri : string) :
  In uri (findall s3_pattern response_text) -> has_char "_"%char uri = false.
Proof.
  intros H. apply (all_chars_has_char (alphabet s3_pattern)); [|reflexivity].
  exact (findall_from_alphabet _ _ _ _ H).
Qed.

Lemma classify_plain (s3_uris : gmap string string) (uri : string) :
  has_char "_"%char uri = false ->
  classify s3_uris uri
  = if contains "requirements.txt" uri then <[ "requirements" := uri ]> s3_uris
    else s3_uris.
Proof.
  intros H. unfold classify.
  destruct (contains "pure_strands.py" uri) eqn:E1.
  { rewrite (contains_has_char "_"%char _ _ E1 eq_refl) in H. discriminate. }
  destruct (contains "agentcore_ready.py" uri) eqn:E2.
  { rewrite (contains_has_char "_"%char _ _ E2 eq_refl) in H. discriminate. }
  reflexivity.
Qed.

Lemma classified (uris : list string) :
  forall (s3_uris : gmap string string) (P : string -> string -> Prop),
    (forall uri, In uri uris -> has_char "_"%char uri = false) ->
    (forall uri, In uri uris -> contains "requirements.txt" uri = true ->
                 P "requirements" uri) ->
    (forall k uri, s3_uris !! k = Some uri -> P k uri) ->
    forall k uri, fold_left classify uris s3_uris !! k = Some uri -> P k uri.
Proof.
  induction uris as [|u uris IH]; intros s3_uris P Hu Hr Hm k uri;
    cbn [fold_left]; [apply Hm|].
  apply IH.
  - intros v Hv. apply Hu. now right.
  - intros v Hv. apply Hr. now right.
  - intros k' v. rewrite (classify_plain _ _ (Hu u (or_introl eq_refl))).
    destruct (contains "requirements.txt" u) eqn:E; [|apply Hm].
    destruct (decide (k' = "requirements")) as [->|Hne].
    + rewrite lookup_insert_eq. intros [= <-]. apply Hr; [now left | exact E].
    + rewrite lookup_insert_ne by congruence. apply Hm.
Qed.

(** No match of the pattern starts where the text does not start with
    [s3:]. *)
Lemma no_match (t : string) :
  startswith t "s3:" = false -> match_end s3_pattern t = None.
Proof.
  unfold match_end, s3_pattern.
  destruct t as [|a [|b [|c t]]]; cbn [startswith lit run chr]; try reflexivity.
  - now destruct (Ascii.eqb "s" a).
  - destruct (Ascii.eqb "s" a); [|reflexivity].
    now destruct (Ascii.eqb "3" b).
  - destruct (Ascii.eqb "s" a); [|reflexivity].
    destruct (Ascii.eqb "3" b); [|reflexivity].
    destruct (Ascii.eqb ":" c); [discriminate | reflexivity].
Qed.

Lemma findall_none (t : string) :
  contains "s3:" t = false -> findall_from s3_pattern 0 t = [].
Proof.
  induction t as [|c t IH]; intros H; cbn [contains] in H;
    apply orb_false_iff in H as [Hs Ht]; cbn [findall_from];
    rewrite (no_match _ Hs); [reflexivity | now apply IH].
Qed.

(** Before a text that starts with [s3://], a text without [s3:] holds the
    start of no match. *)
Lemma startswith_before (pre rest : string) (a : ascii) :
  contains "s3:" (String a pre) = false ->
  startswith (String a pre +:+ "s3://" +:+ rest) "s3:" = false.
Proof.
  intros H. cbn [contains] in H. apply orb_false_iff in H as [Hs _].
  destruct pre as [|b [|c pre]]; cbn [String.append startswith] in *.
  - destruct (Ascii.eqb "s" a); reflexivity.
  - destruct (Ascii.eqb "s" a); [|reflexivity].
    destruct (Ascii.eqb "3" b); reflexivity.
  - exact Hs.
Qed.

Lemma findall_before (pre rest : string) :
  contains "s3:" pre = false ->
  findall_from s3_pattern 0 (pre +:+ "s3://" +:+ rest)
  = findall_from s3_pattern 0 ("s3://" +:+ rest).
Proof.
  induction pre as [|a pre IH]; intros H; [reflexivity|].
  pose proof (startswith_before _ rest _ H) as Hs.
  cbn [String.append] in *. cbn [findall_from].
  rewrite (no_match _ Hs). apply IH.
  cbn [contains] in H. now apply orb_false_iff in H as [_ H].
Qed.

(** The pattern matches a well-formed reference up to where its key
    ends. *)
Lemma match_uri (bucket key post : string) :
  is_empty bucket = false -> all_chars bucket_char bucket = true ->
  is_empty key = false -> all_chars key_char key = true ->
  stops key_char post = true ->
  match_end s3_pattern (("s3://" +:+ bucket +:+ "/" +:+ key) +:+ post) = Some post.
Proof.
  intros Hb1 Hb2 Hk1 Hk2 Hp. unfold match_end, s3_pattern.
  rewrite !append_assoc. cbn [run]. rewrite run_lit.
  apply plus_stops; [assumption | assumption | reflexivity |].
  cbn [String.append run chr]. cbn [Ascii.eqb Bool.eqb].
  apply plus_stops; auto.
Qed.

End S3UrisFacts.

(** X1.  Whatever the response text, [_extract_s3_uris_from_response] files a
    reference only under [requirements]: the slots [pure_strands] and
    [agentcore_ready] are never found, because the pattern of line 668 has no
    underscore in its character classes, so that no match holds
    [pure_strands.py] or [agentcore_ready.py].  A reference that is found
    holds [requirements.txt] and no underscore. *)
Theorem X1_only_the_manifest_reference_is_found (response_text k uri : string) :
  S3Uris._extract_s3_uris_from_response response_text !! k = Some uri ->
  k = "requirements"
  /\ PyStr.contains "requirements.txt" uri = true
  /\ PyStr.has_char "_"%char uri = false.
Proof.
  unfold S3Uris._extract_s3_uris_from_response.
  apply (S3UrisFacts.classified _ ∅
           (fun k uri => k = "requirements"
                         /\ PyStr.contains "requirements.txt" uri = true
                         /\ PyStr.has_char "_"%char uri = false)).
  - apply S3UrisFacts.uri_no_underscore.
  - intros u Hu Hc. repeat split; [exact Hc|].
    exact (S3UrisFacts.uri_no_underscore _ _ Hu).
  - intros k' u. rewrite lookup_empty. discriminate.
Qed.

Lemma X1_only_the_manifest_reference_is_found_witness :
  "requirements" = "requirements"
  /\ PyStr.contains "requirements.txt" "s3://bucket/temp-code/r1/requirements.txt" = true
  /\ PyStr.has_char "_"%char "s3://bucket/temp-code/r1/requirements.txt" = false.
Proof.
  apply (X1_only_the_manifest_reference_is_found
           "Saved s3://bucket/temp-code/r1/pure_strands.py and s3://bucket/temp-code/r1/requirements.txt now"
           "requirements" "s3://bucket/temp-code/r1/requirements.txt").
  vm_compute. reflexivity.
Defined.

(** X2.  A response with one well-formed reference to a manifest (a bucket
    name and a key made of ASCII letters, digits, hyphens and dots, the key
    also of slashes), between two texts without [s3:], the second one not
    going on with a character of a key: the reference is found and filed
    under [requirements], and nothing else is. *)
Theorem X2_manifest_reference_is_found (pre bucket key post : string) :
  PyStr.contains "s3:" pre = false ->
  PyStr.is_empty bucket = false ->
  PyStr.all_chars S3Uris.bucket_char bucket = true ->
  PyStr.all_chars S3Uris.key_char key = true ->
  PyStr.contains "requirements.txt" key = true ->
  Terms.stops S3Uris.key_char post = true ->
  PyStr.contains "s3:" post = false ->
  S3Uris._extract_s3_uris_from_response
    (pre +:+ ("s3://" +:+ bucket +:+ "/" +:+ key) +:+ post)
  = {[ "requirements" := "s3://" +:+ bucket +:+ "/" +:+ key ]}.
Proof.
  intros Hpre Hb1 Hb2 Hk2 Hreq Hstop Hpost.
  assert (Hk1 : PyStr.is_empty key = false).
  { destruct key; [discriminate | reflexivity]. }
  unfold S3Uris._extract_s3_uris_from_response, Rx.findall.
  set (uri := "s3://" +:+ bucket +:+ "/" +:+ key).
  assert (E : uri +:+ post = "s3://" +:+ (bucket +:+ "/" +:+ key +:+ post)).
  { unfold uri. now rewrite !PyStrFacts.append_assoc. }
  assert (Hfind : Rx.findall_from S3Uris.s3_pattern 0 (pre +:+ uri +:+ post) = [uri]).
  { rewrite E, (S3UrisFacts.findall_before pre _ Hpre), <- E.
    rewrite RxFacts.findall_from_match.
    - now rewrite (S3UrisFacts.findall_none _ Hpost).
    - reflexivity.
    - now apply S3UrisFacts.match_uri. }
  rewrite Hfind. cbn [fold_left].
  rewrite S3UrisFacts.classify_plain.
  - assert (Hc : PyStr.contains "requirements.txt" uri = true).
    { unfold uri. now do 3 apply WhiteSpaceEdits.contains_append_l. }
    now rewrite Hc.
  - apply (S3UrisFacts.uri_no_underscore (pre +:+ uri +:+ post)).
    unfold Rx.findall. rewrite Hfind. now left.
Qed.

Lemma X2_manifest_reference_is_found_witness :
  S3Uris._extract_s3_uris_from_response
    ("Files: " +:+ ("s3://" +:+ "my-bucket" +:+ "/" +:+ "temp-code/r1/requirements.txt")
     +:+ " (done)")
  = {[ "requirements" := "s3://" +:+ "my-bucket" +:+ "/" +:+ "temp-code/r1/requirements.txt" ]}.
Proof.
  apply (X2_manifest_reference_is_found "Files: " "my-bucket"
           "temp-code/r1/requirements.txt" " (done)"); reflexivity.
Defined.
(** ** The pattern scans of the validation gate *)

Module ValidationFacts.
Import PyStr PyStrFacts WhiteSpaceEdits Rx Terms RxFacts Validation.

(** The loop of [_validate_configuration_input] over any list of patterns:
    the text is kept, the verdict can only turn to unsafe, and a warning is
    added for each pattern found, in the order of the list. *)
Lemma configuration_scan (config_str : string) (ps : list (string * rx)) :
  forall init,
    let r :=
      fold_left
        (fun validation_results pr =>
           if search (snd pr) config_str
           then {| config_is_safe := false;
                   warnings :=
                     warnings validation_results
                     ++ ["Potential injection pattern detected: " +:+ fst pr];
                   sanitized_config := sanitized_config validation_results |}
           else validation_results)
        ps init in
    sanitized_config r = sanitized_config init
    /\ warnings r
       = warnings init
         ++ map (fun pr => "Potential injection pattern detected: " +:+ fst pr)
              (List.filter (fun pr => search (snd pr) config_str) ps)
    /\ config_is_safe r
       = config_is_safe init
         && forallb (fun pr => negb (search (snd pr) config_str)) ps.
Proof.
  induction ps as [|p ps IH]; intros init; cbn [fold_left List.filter map forallb].
  - now rewrite app_nil_r, andb_true_r.
  - destruct (search (snd p) config_str) eqn:E; cbn [negb andb map].
    + destruct (IH {| config_is_safe := false;
                      warnings := warnings init
                                  ++ ["Potential injection pattern detected: " +:+ fst p];
                      sanitized_config := sanitized_config init |})
        as (H1 & H2 & H3).
      cbn [sanitized_config warnings config_is_safe] in *.
      rewrite H1, H2, H3, <- app_assoc, andb_false_r. auto.
    + destruct (IH init) as (H1 & H2 & H3). auto.
Qed.

(** The same for the loop of [_validate_generated_code_security]. *)
Lemma security_scan (code : string) (ps : list (rx * string)) :
  forall init,
    let r :=
      fold_left
        (fun validation_results pm =>
           if search (fst pm) code
           then {| is_safe := false;
                   security_issues := security_issues validation_results ++ [snd pm];
                   recommendations := recommendations validation_results |}
           else validation_results)
        ps init in
    recommendations r = recommendations init
    /\ security_issues r
       = security_issues init
         ++ map snd (List.filter (fun pm => search (fst pm) code) ps)
    /\ is_safe r
       = is_safe init && forallb (fun pm => negb (search (fst pm) code)) ps.
Proof.
  induction ps as [|p ps IH]; intros init; cbn [fold_left List.filter map forallb].
  - now rewrite app_nil_r, andb_true_r.
  - destruct (search (fst p) code) eqn:E; cbn [negb andb map].
    + destruct (IH {| is_safe := false;
                      security_issues := security_issues init ++ [snd p];
                      recommendations := recommendations init |})
        as (H1 & H2 & H3).
      cbn [recommendations security_issues is_safe] in *.
      rewrite H1, H2, H3, <- app_assoc, andb_false_r. auto.
    + destruct (IH init) as (H1 & H2 & H3). auto.
Qed.

Lemma forallb_filter_nil {A : Type} (f : A -> bool) (l : list A) :
  forallb (fun x => negb (f x)) l = true <-> List.filter f l = [].
Proof.
  induction l as [|a l IH]; cbn [forallb List.filter]; [tauto|].
  destruct (f a); cbn [negb andb]; [|exact IH].
  split; discriminate.
Qed.

(** A word in any letter case, white space, and an opening bracket. *)
Lemma call_matches (name word ws post : string) :
  lower_text word = lower_text name -> all_chars isspace ws = true ->
  match_end (RxCat (lit_i name) spaces_paren) (word +:+ ws +:+ "(" +:+ post)
  = Some post.
Proof.
  intros Hw Hws. unfold match_end. cbn [run].
  rewrite (run_lit_i name _ _ _ Hw). unfold spaces_paren. cbn [run].
  now apply star_stops.
Qed.

(** A name in any letter case, an equals sign with white space around it,
    and a value that is not empty between two quote characters. *)
Lemma assignment_matches (name word ws1 ws2 value post : string) (q1 q2 : ascii) :
  lower_text word = lower_text name ->
  all_chars isspace ws1 = true -> all_chars isspace ws2 = true ->
  is_quote q1 = true -> is_quote q2 = true ->
  is_empty value = false ->
  all_chars (fun c => negb (is_quote c)) value = true ->
  match_end (RxCat (lit_i name) quoted_assignment)
    (word +:+ ws1 +:+ "=" +:+ ws2 +:+ String q1 (value +:+ String q2 post))
  = Some post.
Proof.
  intros Hw H1 H2 Hq1 Hq2 Hv1 Hv2. unfold match_end. cbn [run].
  rewrite (run_lit_i name _ _ _ Hw). unfold quoted_assignment. cbn [run].
  apply star_stops; [exact H1 | reflexivity|].
  cbn [String.append chr]. cbn [Ascii.eqb Bool.eqb].
  apply star_stops; [exact H2 | |].
  - cbn [stops]. destruct q1 as [[] [] [] [] [] [] [] []]; try discriminate; reflexivity.
  - rewrite Hq1.
    change (run (RxPlus (fun c => negb (is_quote c)))
              (value +:+ String q2 post)
              (fun s1 => run (RxOne is_quote) s1 Some) = Some post).
    apply plus_stops; [exact Hv1 | exact Hv2 | |].
    + cbn [stops]. now rewrite Hq2.
    + cbn [run]. now rewrite Hq2.
Qed.

(** Under [re.IGNORECASE] the characters that are not letters match
    themselves only. *)
Lemma dot_exact (x : ascii) :
  Ascii.eqb (lower "."%char) (lower x) = true -> x = "."%char.
Proof.
  destruct x as [[] [] [] [] [] [] [] []]; vm_compute; intros H;
    (reflexivity || discriminate).
Qed.

Lemma less_exact (x : ascii) :
  Ascii.eqb (lower "<"%char) (lower x) = true -> x = "<"%char.
Proof.
  destruct x as [[] [] [] [] [] [] [] []]; vm_compute; intros H;
    (reflexivity || discriminate).
Qed.

Lemma colon_exact (x : ascii) :
  Ascii.eqb (lower ":"%char) (lower x) = true -> x = ":"%char.
Proof.
  destruct x as [[] [] [] [] [] [] [] []]; vm_compute; intros H;
    (reflexivity || discriminate).
Qed.

Lemma chr_exact (c x : ascii) : Ascii.eqb c x = true -> x = c.
Proof. intros H. apply Ascii.eqb_eq in H. congruence. Qed.

Ltac needed :=
  cbn [needs lit_i lit spaces_paren quoted_assignment chr chr_i];
  solve [ repeat first
            [ exact (chr_exact _) | exact dot_exact | exact less_exact
            | exact colon_exact
            | left; solve [ exact (chr_exact _) | exact dot_exact
                          | exact less_exact | exact colon_exact ]
            | right ] ].

(** Each pattern of the configuration scan needs one of four
    characters. *)
Lemma injection_pattern_needs (name : string) (pattern : rx) :
  In (name, pattern) injection_patterns ->
  needs pattern "("%char \/ needs pattern "."%char
  \/ needs pattern "<"%char \/ needs pattern ":"%char.
Proof.
  unfold injection_patterns. cbn [In].
  intros [H|[H|[H|[H|[H|[H|[H|[H|[]]]]]]]]]; injection H as _ <-.
  - left. needed.
  - left. needed.
  - left. needed.
  - right. left. needed.
  - right. left. needed.
  - right. right. left. needed.
  - right. right. right. needed.
  - right. right. right. needed.
Qed.

(** Each pattern of the code scan needs an opening bracket or an equals
    sign. *)
Lemma security_check_needs (pattern : rx) (message : string) :
  In (pattern, message) security_checks ->
  needs pattern "("%char \/ needs pattern "="%char.
Proof.
  unfold security_checks. cbn [In].
  intros [H|[H|[H|[H|[H|[]]]]]]; injection H as <- _.
  - right. needed.
  - right. needed.
  - left. needed.
  - left. needed.
  - left. needed.
Qed.

End ValidationFacts.

(** X3.  The scan of the configuration text never alters the text it is
    given (the entry [sanitized_config] is the input); it reports the text as
    unsafe exactly when one of the eight patterns is found in it, and exactly
    when it has a warning; and each pattern found has its warning. *)
Theorem X3_configuration_scan_reports_what_it_finds (config_str : string) :
  let r := Validation._validate_configuration_input config_str in
  Validation.sanitized_config r = config_str
  /\ (Validation.config_is_safe r = false
      <-> exists name pattern,
            In (name, pattern) Validation.injection_patterns
            /\ Rx.search pattern config_str = true)
  /\ (Validation.config_is_safe r = true <-> Validation.warnings r = [])
  /\ (forall name pattern,
        In (name, pattern) Validation.injection_patterns ->
        Rx.search pattern config_str = true ->
        In ("Potential injection pattern detected: " +:+ name) (Validation.warnings r)).
Proof.
  destruct (ValidationFacts.configuration_scan config_str Validation.injection_patterns
              {| Validation.config_is_safe := true; Validation.warnings := [];
                 Validation.sanitized_config := config_str |})
    as (H1 & H2 & H3).
  cbn zeta. fold (Validation._validate_configuration_input config_str) in H1, H2, H3.
  cbn [Validation.sanitized_config Validation.warnings Validation.config_is_safe
       app andb] in H1, H2, H3.
  split; [exact H1|]. split; [|split].
  - rewrite H3. split.
    + intros H. apply not_true_iff_false in H.
      rewrite forallb_forall in H.
      destruct (List.Exists_dec
                  (fun pr : string * Rx.rx => Rx.search (snd pr) config_str = true)
                  Validation.injection_patterns) as [He|He].
      { intros pr. destruct (Rx.search (snd pr) config_str); [now left | now right]. }
      * apply List.Exists_exists in He as ([name pattern] & Hin & Hs).
        now exists name, pattern.
      * exfalso. apply H. intros pr Hin.
        destruct (Rx.search (snd pr) config_str) eqn:E; [|reflexivity].
        exfalso. apply He. apply List.Exists_exists. now exists pr.
    + intros (name & pattern & Hin & Hs). apply not_true_iff_false.
      rewrite forallb_forall. intros H. specialize (H _ Hin).
      cbn [snd] in H. now rewrite Hs in H.
  - rewrite H3, H2, ValidationFacts.forallb_filter_nil. split.
    + now intros ->.
    + intros H. now apply map_eq_nil in H.
  - intros name pattern Hin Hs. rewrite H2.
    apply (in_map (fun pr : string * Rx.rx =>
                     "Potential injection pattern detected: " +:+ fst pr)
             _ (name, pattern)).
    apply filter_In. now split.
Qed.

(** X4.  The configuration scan flags a call of [__import__], [exec] or
    [eval] wherever it stands in the text, with the name in any letter case
    and any white space, line feeds included, before the bracket. *)
Theorem X4_call_in_any_letter_case_is_flagged (pre word ws post : string) :
  In (Terms.lower_text word) ["__import__"; "exec"; "eval"] ->
  PyStr.all_chars PyStr.isspace ws = true ->
  Validation.config_is_safe
    (Validation._validate_configuration_input
       (pre +:+ word +:+ ws +:+ "(" +:+ post)) = false.
Proof.
  intros Hw Hws.
  destruct (ValidationFacts.configuration_scan
              (pre +:+ word +:+ ws +:+ "(" +:+ post) Validation.injection_patterns
              {| Validation.config_is_safe := true; Validation.warnings := [];
                 Validation.sanitized_config := pre +:+ word +:+ ws +:+ "(" +:+ post |})
    as (_ & _ & H3).
  cbn zeta in H3.
  fold (Validation._validate_configuration_input
          (pre +:+ word +:+ ws +:+ "(" +:+ post)) in H3.
  rewrite H3. cbn [Validation.config_is_safe andb].
  apply not_true_iff_false. rewrite forallb_forall. intros H.
  assert (Hfound : forall name text,
             Terms.lower_text word = Terms.lower_text name ->
             In (text, Rx.RxCat (Rx.lit_i name) Validation.spaces_paren)
               Validation.injection_patterns -> False).
  { intros name text Hn Hin. specialize (H _ Hin). cbn [snd] in H.
    rewrite (RxFacts.search_found _ pre _ post
               (ValidationFacts.call_matches name word ws post Hn Hws)) in H.
    discriminate. }
  destruct Hw as [Hw|[Hw|[Hw|[]]]].
  - apply (Hfound "__import__" "__import__\s*\("); [now rewrite <- Hw|].
    unfold Validation.injection_patterns. cbn [In]. tauto.
  - apply (Hfound "exec" "exec\s*\("); [now rewrite <- Hw|].
    unfold Validation.injection_patterns. cbn [In]. tauto.
  - apply (Hfound "eval" "eval\s*\("); [now rewrite <- Hw|].
    unfold Validation.injection_patterns. cbn [In]. tauto.
Qed.

Lemma X4_call_in_any_letter_case_is_flagged_witness :
  Validation.config_is_safe
    (Validation._validate_configuration_input
       ("{name: x, prompt: " +:+ "EvAl" +:+ (" " +:+ PyStr.NL) +:+ "(" +:+ "1)}")) = false.
Proof.
  apply (X4_call_in_any_letter_case_is_flagged "{name: x, prompt: " "EvAl"
           (" " +:+ PyStr.NL) "1)}").
  - vm_compute. tauto.
  - reflexivity.
Defined.

(** X5.  The scan of the generated code never fills [recommendations]; it
    reports the code as unsafe exactly when one of the five patterns is found
    in it, and exactly when it lists an issue; and each pattern found has its
    message listed. *)
Theorem X5_code_scan_reports_what_it_finds (code : string) :
  let r := Validation._validate_generated_code_security code in
  Validation.recommendations r = []
  /\ (Validation.is_safe r = false
      <-> exists pattern message,
            In (pattern, message) Validation.security_checks
            /\ Rx.search pattern code = true)
  /\ (Validation.is_safe r = true <-> Validation.security_issues r = [])
  /\ (forall pattern message,
        In (pattern, message) Validation.security_checks ->
        Rx.search pattern code = true ->
        In message (Validation.security_issues r)).
Proof.
  destruct (ValidationFacts.security_scan code Validation.security_checks
              {| Validation.is_safe := true; Validation.security_issues := [];
                 Validation.recommendations := [] |})
    as (H1 & H2 & H3).
  cbn zeta. fold (Validation._validate_generated_code_security code) in H1, H2, H3.
  cbn [Validation.recommendations Validation.security_issues Validation.is_safe
       app andb] in H1, H2, H3.
  split; [exact H1|]. split; [|split].
  - rewrite H3. split.
    + intros H. apply not_true_iff_false in H.
      rewrite forallb_forall in H.
      destruct (List.Exists_dec
                  (fun pm : Rx.rx * string => Rx.search (fst pm) code = true)
                  Validation.security_checks) as [He|He].
      { intros pm. destruct (Rx.search (fst pm) code); [now left | now right]. }
      * apply List.Exists_exists in He as ([pattern message] & Hin & Hs).
        now exists pattern, message.
      * exfalso. apply H. intros pm Hin.
        destruct (Rx.search (fst pm) code) eqn:E; [|reflexivity].
        exfalso. apply He. apply List.Exists_exists. now exists pm.
    + intros (pattern & message & Hin & Hs). apply not_true_iff_false.
      rewrite forallb_forall. intros H. specialize (H _ Hin).
      cbn [fst] in H. now rewrite Hs in H.
  - rewrite H3, H2, ValidationFacts.forallb_filter_nil. split.
    + now intros ->.
    + intros H. now apply map_eq_nil in H.
  - intros pattern message Hin Hs. rewrite H2.
    apply (in_map snd _ (pattern, message)).
    apply filter_In. now split.
Qed.

(** X6.  The code scan flags a quoted value assigned to [api_key] or
    [password], the name in any letter case, with any white space around the
    equals sign; the value is any text without quote characters that is not
    empty, and the quote character that ends it need not be the one that
    starts it. *)
Theorem X6_quoted_secret_is_flagged
    (pre word ws1 ws2 value post : string) (q1 q2 : ascii) :
  In (Terms.lower_text word) ["api_key"; "password"] ->
  PyStr.all_chars PyStr.isspace ws1 = true ->
  PyStr.all_chars PyStr.isspace ws2 = true ->
  Validation.is_quote q1 = true -> Validation.is_quote q2 = true ->
  PyStr.is_empty value = false ->
  PyStr.all_chars (fun c => negb (Validation.is_quote c)) value = true ->
  let code :=
    pre +:+ word +:+ ws1 +:+ "=" +:+ ws2 +:+ String q1 (value +:+ String q2 post) in
  Validation.is_safe (Validation._validate_generated_code_security code) = false
  /\ In (if String.eqb (Terms.lower_text word) "api_key"
         then "Hardcoded API key detected" else "Hardcoded password detected")
       (Validation.security_issues (Validation._validate_generated_code_security code)).
Proof.
  intros Hw H1 H2 Hq1 Hq2 Hv1 Hv2 code.
  destruct (ValidationFacts.security_scan code Validation.security_checks
              {| Validation.is_safe := true; Validation.security_issues := [];
                 Validation.recommendations := [] |})
    as (_ & Hi & Hs).
  cbn zeta in Hi, Hs.
  fold (Validation._validate_generated_code_security code) in Hi, Hs.
  cbn [Validation.security_issues Validation.is_safe app andb] in Hi, Hs.
  assert (Hfound : forall name message,
             Terms.lower_text word = Terms.lower_text name ->
             In (Rx.RxCat (Rx.lit_i name) Validation.quoted_assignment, message)
               Validation.security_checks ->
             Validation.is_safe (Validation._validate_generated_code_security code)
             = false
             /\ In message
                  (Validation.security_issues
                     (Validation._validate_generated_code_security code))).
  { intros name message Hn Hin.
    pose proof (RxFacts.search_found _ pre _ post
                  (ValidationFacts.assignment_matches name word ws1 ws2 value post
                     q1 q2 Hn H1 H2 Hq1 Hq2 Hv1 Hv2)) as Hsearch.
    fold code in Hsearch. split.
    - rewrite Hs. apply not_true_iff_false. rewrite forallb_forall. intros H.
      specialize (H _ Hin). cbn [fst] in H. now rewrite Hsearch in H.
    - rewrite Hi.
      apply (in_map snd _ (Rx.RxCat (Rx.lit_i name) Validation.quoted_assignment,
                           message)).
      apply filter_In. now split. }
  destruct Hw as [Hw|[Hw|[]]]; rewrite <- Hw; cbn [String.eqb Ascii.eqb Bool.eqb].
  - apply (Hfound "api_key"); [now rewrite <- Hw|].
    unfold Validation.security_checks. cbn [In]. tauto.
  - apply (Hfound "password"); [now rewrite <- Hw|].
    unfold Validation.security_checks. cbn [In]. tauto.
Qed.

Lemma X6_quoted_secret_is_flagged_witness :
  let code :=
    "client = C()" +:+ "PassWord" +:+ " " +:+ "=" +:+ EmptyString
    +:+ String PyStr.SQ ("hunter2" +:+ String PyStr.DQ ")") in
  Validation.is_safe (Validation._validate_generated_code_security code) = false
  /\ In (if String.eqb (Terms.lower_text "PassWord") "api_key"
         then "Hardcoded API key detected" else "Hardcoded password detected")
       (Validation.security_issues (Validation._validate_generated_code_security code)).
Proof.
  apply (X6_quoted_secret_is_flagged "client = C()" "PassWord" " " EmptyString
           "hunter2" ")" PyStr.SQ PyStr.DQ); try reflexivity.
  vm_compute. tauto.
Defined.

(** X7.  The configuration scan never flags a text that has none of the four
    characters opening bracket, dot, less-than sign and colon: every pattern
    needs one of them. *)
Theorem X7_configuration_without_marks_is_safe (config_str : string) :
  PyStr.has_char "("%char config_str = false ->
  PyStr.has_char "."%char config_str = false ->
  PyStr.has_char "<"%char config_str = false ->
  PyStr.has_char ":"%char config_str = false ->
  Validation._validate_configuration_input config_str
  = {| Validation.config_is_safe := true; Validation.warnings := [];
       Validation.sanitized_config := config_str |}.
Proof.
  intros Hb Hd Hl Hc.
  destruct (ValidationFacts.configuration_scan config_str Validation.injection_patterns
              {| Validation.config_is_safe := true; Validation.warnings := [];
                 Validation.sanitized_config := config_str |})
    as (H1 & H2 & H3).
  cbn zeta in H1, H2, H3.
  fold (Validation._validate_configuration_input config_str) in H1, H2, H3.
  cbn [Validation.sanitized_config Validation.warnings Validation.config_is_safe
       app andb] in H1, H2, H3.
  assert (Hnone : forallb (fun pr : string * Rx.rx => negb (Rx.search (snd pr) config_str))
                    Validation.injection_patterns = true).
  { apply forallb_forall. intros [name pattern] Hin. cbn [snd].
    apply negb_true_iff.
    destruct (ValidationFacts.injection_pattern_needs _ _ Hin) as [H|[H|[H|H]]];
      eauto using RxFacts.search_needs. }
  rewrite Hnone in H3.
  apply ValidationFacts.forallb_filter_nil in Hnone. rewrite Hnone in H2.
  destruct (Validation._validate_configuration_input config_str).
  cbn in H1, H2, H3. now subst.
Qed.

Lemma X7_configuration_without_marks_is_safe_witness :
  Validation._validate_configuration_input "{agents=[a1], tools=[eval]}"
  = {| Validation.config_is_safe := true; Validation.warnings := [];
       Validation.sanitized_config := "{agents=[a1], tools=[eval]}" |}.
Proof.
  apply (X7_configuration_without_marks_is_safe "{agents=[a1], tools=[eval]}");
    reflexivity.
Defined.

(** X8.  The code scan never flags a code that has neither an opening bracket
    nor an equals sign. *)
Theorem X8_code_without_marks_is_safe (code : string) :
  PyStr.has_char "("%char code = false ->
  PyStr.has_char "="%char code = false ->
  Validation._validate_generated_code_security code
  = {| Validation.is_safe := true; Validation.security_issues := [];
       Validation.recommendations := [] |}.
Proof.
  intros Hb He.
  destruct (ValidationFacts.security_scan code Validation.security_checks
              {| Validation.is_safe := true; Validation.security_issues := [];
                 Validation.recommendations := [] |})
    as (H1 & H2 & H3).
  cbn zeta in H1, H2, H3.
  fold (Validation._validate_generated_code_security code) in H1, H2, H3.
  cbn [Validation.recommendations Validation.security_issues Validation.is_safe
       app andb] in H1, H2, H3.
  assert (Hnone : forallb (fun pm : Rx.rx * string => negb (Rx.search (fst pm) code))
                    Validation.security_checks = true).
  { apply forallb_forall. intros [pattern message] Hin. cbn [fst].
    apply negb_true_iff.
    destruct (ValidationFacts.security_check_needs _ _ Hin) as [H|H];
      eauto using RxFacts.search_needs. }
  rewrite Hnone in H3.
  apply ValidationFacts.forallb_filter_nil in Hnone. rewrite Hnone in H2.
  destruct (Validation._validate_generated_code_security code).
  cbn in H1, H2, H3. now subst.
Qed.

Lemma X8_code_without_marks_is_safe_witness :
  Validation._validate_generated_code_security "import os; password: 'x'"
  = {| Validation.is_safe := true; Validation.security_issues := [];
       Validation.recommendations := [] |}.
Proof.
  apply (X8_code_without_marks_is_safe "import os; password: 'x'"); reflexivity.
Defined.
(** ** Listing and deleting the artifacts of a session *)

Module S3ListingFacts.
Import PyStr PyStrFacts S3Store S3Listing S3StoreFacts.

Lemma objects_under_spec (c : s3_client) (prefix k : string) (o : s3_object) :
  In (k, o) (objects_under c prefix)
  <-> objects c !! k = Some o /\ startswith k prefix = true.
Proof.
  unfold objects_under.
  rewrite <- list_elem_of_In, merge_sort_Permutation, list_elem_of_In, filter_In.
  rewrite <- list_elem_of_In, elem_of_map_to_list. reflexivity.
Qed.

Lemma objects_under_length (c : s3_client) (prefix : string) :
  length (objects_under c prefix) <= base.size (objects c).
Proof.
  unfold objects_under.
  rewrite (Permutation_length (merge_sort_Permutation _ _)).
  rewrite <- length_map_to_list. apply filter_length_le.
Qed.

(** The keys of a listing are those of [Contents]. *)
Lemma keys_of_files (bucket : string) (contents : list (string * s3_object)) :
  map key (map (file_info_of bucket) contents) = map fst contents.
Proof. rewrite map_map. reflexivity. Qed.

Lemma list_session_files_ok (self : S3CodeStorageService) (session_id : string) :
  fault (s3_client_ self) = None ->
  is_empty (sanitize session_id) = false ->
  list_session_files self session_id
  = Ok (let files :=
          map (file_info_of (bucket_name self))
            (List.firstn MaxKeys
               (objects_under (s3_client_ self)
                  (session_prefix (sanitize session_id)))) in
        ListSuccess session_id files (length files)).
Proof.
  intros Hf Hs. unfold list_session_files, list_session_files_try, list_objects_v2.
  now rewrite Hs, Hf.
Qed.

(** [list_session_files] returns a dictionary, whatever happens. *)
Lemma list_session_files_returns (self : S3CodeStorageService) (session_id : string) :
  exists r, list_session_files self session_id = Ok r.
Proof.
  unfold list_session_files.
  destruct (list_session_files_try self session_id); eauto.
Qed.

Lemma delete_session_files_ok (refused : string -> bool)
    (self : S3CodeStorageService) (session_id : string) :
  fault (s3_client_ self) = None ->
  is_empty (sanitize session_id) = false ->
  delete_session_files refused self session_id
  = Ok (match List.firstn MaxKeys
                (objects_under (s3_client_ self)
                   (session_prefix (sanitize session_id))) with
        | [] => (DeleteNothing ("No files found for session " +:+ session_id), self)
        | kv :: contents =>
            (DeleteSuccess session_id
               (length (List.filter (fun k => negb (refused k))
                          (map fst (kv :: contents))))
               (S (length contents))
               (List.filter refused (map fst (kv :: contents))),
             {| s3_client_ :=
                  {| objects :=
                       foldr delete (objects (s3_client_ self))
                         (List.filter (fun k => negb (refused k))
                            (map fst (kv :: contents)));
                     clock := clock (s3_client_ self);
                     fault := None |};
                bucket_name := bucket_name self |})
        end).
Proof.
  intros Hf Hs. unfold delete_session_files, delete_session_files_try.
  rewrite (list_session_files_ok _ _ Hf Hs). cbn [bind].
  destruct (List.firstn MaxKeys _) as [|kv contents]; [reflexivity|].
  cbn [map]. unfold delete_objects. rewrite Hf. cbn [bind Deleted Errors].
  change (file_info_of (bucket_name self) kv
          :: map (file_info_of (bucket_name self)) contents)
    with (map (file_info_of (bucket_name self)) (kv :: contents)).
  rewrite keys_of_files, length_map. reflexivity.
Qed.

(** When the call fails, nothing is deleted. *)
Lemma delete_session_files_failed (refused : string -> bool)
    (self : S3CodeStorageService) (session_id : string) :
  fault (s3_client_ self) <> None \/ is_empty (sanitize session_id) = true ->
  exists r, delete_session_files refused self session_id = Ok (r, self).
Proof.
  intros H. unfold delete_session_files, delete_session_files_try,
    list_session_files, list_session_files_try, list_objects_v2.
  destruct (is_empty (sanitize session_id)); cbn [bind]; [eauto|].
  destruct H as [H|H]; [|discriminate].
  destruct (fault (s3_client_ self)); [|contradiction]. cbn [bind]. eauto.
Qed.

Lemma In_firstn {A : Type} (n : nat) (l : list A) (x : A) :
  In x (List.firstn n l) -> In x l.
Proof.
  revert l. induction n as [|n IH]; intros [|a l]; cbn [List.firstn In]; try tauto.
  intros [H|H]; [now left | right; now apply IH].
Qed.

(** The key of a slot lies under the prefix of its session. *)
Lemma s3_key_under_prefix (safe_session_id code_type file_extension : string) :
  s3_key_of safe_session_id code_type file_extension
  = session_prefix safe_session_id +:+ code_type +:+ file_extension.
Proof.
  unfold s3_key_of, session_prefix. now rewrite !append_assoc.
Qed.

Lemma probed_key_under_prefix (session_id code_type : string) :
  startswith (probed_key session_id code_type)
    (session_prefix (sanitize session_id)) = true.
Proof.
  unfold probed_key. rewrite s3_key_under_prefix. apply startswith_append.
Qed.

Lemma after_last_slash_append (a t : string) :
  has_char "/"%char t = false -> after_last_slash (a +:+ "/" +:+ t) = t.
Proof.
  intros Ht. induction a as [|c a IH]; cbn [String.append after_last_slash].
  - now rewrite Ht.
  - rewrite has_char_append. cbn [has_char Ascii.eqb Bool.eqb].
    now rewrite orb_true_r.
Qed.

End S3ListingFacts.
(** X9.  On a store that answers, for a session id with an allowed character,
    [list_session_files] succeeds with at most a thousand files; each file
    listed is an object of the bucket whose key starts with
    [temp-code/<sanitised id>/], with the size in bytes of its body, its
    modification time and its address; and when the bucket holds no more than
    a thousand objects, every object under that prefix is listed. *)
Theorem X9_listing_is_the_session_prefix
    (self : S3Store.S3CodeStorageService) (session_id : string) :
  S3Store.fault (S3Store.s3_client_ self) = None ->
  PyStr.is_empty (S3Store.sanitize session_id) = false ->
  let bucket := S3Store.objects (S3Store.s3_client_ self) in
  let prefix := S3Listing.session_prefix (S3Store.sanitize session_id) in
  exists files,
    S3Listing.list_session_files self session_id
    = Ok (S3Listing.ListSuccess session_id files (length files))
    /\ length files <= S3Listing.MaxKeys
    /\ (forall f, In f files ->
          exists o,
            bucket !! S3Listing.key f = Some o
            /\ PyStr.startswith (S3Listing.key f) prefix = true
            /\ S3Listing.size f = S3Listing.utf8_length (S3Store.Body o)
            /\ S3Listing.last_modified f = S3Store.LastModified o
            /\ S3Listing.s3_uri f
               = S3Store.s3_uri_of (S3Store.bucket_name self) (S3Listing.key f))
    /\ (size bucket <= S3Listing.MaxKeys ->
        forall k o,
          bucket !! k = Some o -> PyStr.startswith k prefix = true ->
          In k (map S3Listing.key files)).
Proof.
  intros Hf Hs bucket prefix.
  rewrite (S3ListingFacts.list_session_files_ok _ _ Hf Hs). cbn zeta.
  eexists. split; [reflexivity|]. fold prefix.
  split; [rewrite length_map; apply firstn_le_length|].
  split.
  - intros f Hin. apply in_map_iff in Hin as ([k o] & <- & Hin).
    apply S3ListingFacts.In_firstn, S3ListingFacts.objects_under_spec in Hin
      as [Hk Hp].
    exists o. cbn. auto.
  - intros Hsize k o Hk Hp. rewrite S3ListingFacts.keys_of_files.
    rewrite firstn_all2
      by (etransitivity; [apply S3ListingFacts.objects_under_length | exact Hsize]).
    apply (in_map fst _ (k, o)). now apply S3ListingFacts.objects_under_spec.
Qed.

Lemma X9_listing_is_the_session_prefix_witness :
  let o := {| S3Store.Body := "x = 1"; S3Store.ContentType := "text/x-python";
              S3Store.Metadata := []; S3Store.LastModified := 0 |} in
  let self :=
    {| S3Store.s3_client_ :=
         {| S3Store.objects :=
              {[ "temp-code/sess-1/pure_strands.py" := o;
                 "temp-code/sess-1/requirements.txt" := o;
                 "temp-code/sess-12/pure_strands.py" := o ]};
            S3Store.clock := 3; S3Store.fault := None |};
       S3Store.bucket_name := "bucket" |} in
  exists files,
    S3Listing.list_session_files self "sess-1"
    = Ok (S3Listing.ListSuccess "sess-1" files (length files))
    /\ length files <= S3Listing.MaxKeys
    /\ (forall f, In f files ->
          exists o',
            S3Store.objects (S3Store.s3_client_ self) !! S3Listing.key f = Some o'
            /\ S3Listing.size f = S3Listing.utf8_length (S3Store.Body o')
            /\ S3Listing.s3_uri f
               = S3Store.s3_uri_of (S3Store.bucket_name self) (S3Listing.key f))
    /\ In "temp-code/sess-1/pure_strands.py" (map S3Listing.key files)
    /\ In "temp-code/sess-1/requirements.txt" (map S3Listing.key files)
    /\ ~ In "temp-code/sess-12/pure_strands.py" (map S3Listing.key files).
Proof.
  intros o self.
  pose proof (X9_listing_is_the_session_prefix self "sess-1" eq_refl eq_refl) as H.
  cbn zeta in H. destruct H as (files & E & Hlen & Hsound & Hcomplete).
  assert (Hsize : size (S3Store.objects (S3Store.s3_client_ self)) <= S3Listing.MaxKeys)
    by (vm_compute; lia).
  exists files. split; [exact E|]. split; [exact Hlen|]. split.
  - intros f Hf. destruct (Hsound f Hf) as (o' & Hk & _ & Hs & _ & Hu).
    exists o'. auto.
  - split; [exact (Hcomplete Hsize "temp-code/sess-1/pure_strands.py" o
                      eq_refl eq_refl)|].
    split; [exact (Hcomplete Hsize "temp-code/sess-1/requirements.txt" o
                     eq_refl eq_refl)|].
    intros Hin. apply in_map_iff in Hin as (f & Hk & Hf).
    destruct (Hsound f Hf) as (o' & _ & Hp & _).
    rewrite Hk in Hp. discriminate Hp.
Defined.

(** X10.  The listing derives the type of a file from its name: an artifact
    stored under the key that [get_code_file] reads for a slot is listed with
    the name of the slot when the slot is [pure_strands] or
    [agentcore_ready], and as [requirements.txt] when the slot is
    [requirements]; that name is not a slot name [get_code_file] accepts. *)
Theorem X10_listing_names_the_manifest_by_its_file
    (self : S3Store.S3CodeStorageService) (session_id code_type : string)
    (o : S3Store.s3_object) :
  S3Store.fault (S3Store.s3_client_ self) = None ->
  PyStr.is_empty (S3Store.sanitize session_id) = false ->
  S3Store.recognized code_type = true ->
  size (S3Store.objects (S3Store.s3_client_ self)) <= S3Listing.MaxKeys ->
  S3Store.objects (S3Store.s3_client_ self)
    !! S3Store.probed_key session_id code_type = Some o ->
  exists files f,
    S3Listing.list_session_files self session_id
    = Ok (S3Listing.ListSuccess session_id files (length files))
    /\ In f files
    /\ S3Listing.key f = S3Store.probed_key session_id code_type
    /\ S3Listing.size f = S3Listing.utf8_length (S3Store.Body o)
    /\ S3Listing.code_type f
       = (if String.eqb code_type "requirements" then "requirements.txt"
          else code_type)
    /\ S3Store.recognized (S3Listing.code_type f)
       = negb (String.eqb code_type "requirements").
Proof.
  intros Hf Hs Hr Hsize Ho.
  rewrite (S3ListingFacts.list_session_files_ok _ _ Hf Hs). cbn zeta.
  eexists.
  exists (S3Listing.file_info_of (S3Store.bucket_name self)
            (S3Store.probed_key session_id code_type, o)).
  split; [reflexivity|]. split.
  { apply in_map.
    rewrite firstn_all2
      by (etransitivity; [apply S3ListingFacts.objects_under_length | exact Hsize]).
    apply S3ListingFacts.objects_under_spec. split; [exact Ho|].
    apply S3ListingFacts.probed_key_under_prefix. }
  split; [reflexivity|]. split; [reflexivity|].
  cbn [S3Listing.file_info_of S3Listing.code_type fst].
  assert (Hname : S3Listing.after_last_slash (S3Store.probed_key session_id code_type)
                  = code_type +:+ S3Store.extension_of code_type
                  /\ PyStr.has_char "/"%char
                       (code_type +:+ S3Store.extension_of code_type) = false).
  { unfold S3Store.recognized, S3Store.code_types in Hr. cbn [existsb] in Hr.
    rewrite orb_false_r in Hr.
    assert (Hslash : PyStr.has_char "/"%char
                       (code_type +:+ S3Store.extension_of code_type) = false).
    { apply orb_true_iff in Hr as [Hr|Hr]; [|apply orb_true_iff in Hr as [Hr|Hr]];
        apply String.eqb_eq in Hr; subst code_type; reflexivity. }
    split; [|exact Hslash].
    unfold S3Store.probed_key, S3Store.s3_key_of.
    rewrite <- (PyStrFacts.append_assoc "temp-code/").
    now apply S3ListingFacts.after_last_slash_append. }
  destruct Hname as [-> _].
  unfold S3Store.recognized, S3Store.code_types in Hr. cbn [existsb] in Hr.
  rewrite orb_false_r in Hr.
  apply orb_true_iff in Hr as [Hr|Hr]; [|apply orb_true_iff in Hr as [Hr|Hr]];
    apply String.eqb_eq in Hr; subst code_type; split; reflexivity.
Qed.

Lemma X10_listing_names_the_manifest_by_its_file_witness :
  let o := {| S3Store.Body := "strands"; S3Store.ContentType := "text/plain";
              S3Store.Metadata := []; S3Store.LastModified := 0 |} in
  let self :=
    {| S3Store.s3_client_ :=
         {| S3Store.objects := {[ "temp-code/r1/requirements.txt" := o ]};
            S3Store.clock := 1; S3Store.fault := None |};
       S3Store.bucket_name := "bucket" |} in
  exists files f,
    S3Listing.list_session_files self "r1"
    = Ok (S3Listing.ListSuccess "r1" files (length files))
    /\ In f files
    /\ S3Listing.key f = S3Store.probed_key "r1" "requirements"
    /\ S3Listing.size f = S3Listing.utf8_length (S3Store.Body o)
    /\ S3Listing.code_type f
       = (if String.eqb "requirements" "requirements" then "requirements.txt"
          else "requirements")
    /\ S3Store.recognized (S3Listing.code_type f)
       = negb (String.eqb "requirements" "requirements").
Proof.
  intros o self.
  apply (X10_listing_names_the_manifest_by_its_file self "r1" "requirements" o).
  - reflexivity.
  - reflexivity.
  - reflexivity.
  - vm_compute. lia.
  - reflexivity.
Defined.

(** X11.  [delete_session_files] returns a dictionary whatever happens, and
    never touches an object whose key does not start with
    [temp-code/<sanitised id>/], whichever keys S3 refuses to delete: the
    artifacts of the other sessions and the name of the bucket are as
    before. *)
Theorem X11_deletion_keeps_the_other_sessions
    (refused : string -> bool)
    (self : S3Store.S3CodeStorageService) (session_id k : string) :
  PyStr.startswith k (S3Listing.session_prefix (S3Store.sanitize session_id)) = false ->
  exists r self',
    S3Listing.delete_session_files refused self session_id = Ok (r, self')
    /\ S3Store.objects (S3Store.s3_client_ self') !! k
       = S3Store.objects (S3Store.s3_client_ self) !! k
    /\ S3Store.bucket_name self' = S3Store.bucket_name self.
Proof.
  intros Hk.
  destruct (S3Store.fault (S3Store.s3_client_ self)) as [e|] eqn:Hf.
  { destruct (S3ListingFacts.delete_session_files_failed refused self session_id)
      as [r Hr].
    - left. now rewrite Hf.
    - exists r, self. auto. }
  destruct (PyStr.is_empty (S3Store.sanitize session_id)) eqn:Hs.
  { destruct (S3ListingFacts.delete_session_files_failed refused self session_id)
      as [r Hr].
    - now right.
    - exists r, self. auto. }
  rewrite (S3ListingFacts.delete_session_files_ok _ _ _ Hf Hs).
  destruct (List.firstn _ _) as [|kv contents] eqn:E; [eauto|].
  do 2 eexists. split; [reflexivity|]. split; [|reflexivity].
  cbn [S3Store.s3_client_ S3Store.objects].
  apply lookup_foldr_delete_not_elem_of.
  rewrite list_elem_of_In. intros Hin.
  apply filter_In in Hin as [Hin _].
  apply in_map_iff in Hin as ([k' o] & Hk' & Hin). cbn [fst] in Hk'. subst k'.
  rewrite <- E in Hin.
  apply S3ListingFacts.In_firstn, S3ListingFacts.objects_under_spec in Hin as [_ Hp].
  congruence.
Qed.

Lemma X11_deletion_keeps_the_other_sessions_witness :
  let o := {| S3Store.Body := "x = 1"; S3Store.ContentType := "text/x-python";
              S3Store.Metadata := []; S3Store.LastModified := 0 |} in
  let self :=
    {| S3Store.s3_client_ :=
         {| S3Store.objects :=
              {[ "temp-code/s-1/pure_strands.py" := o;
                 "temp-code/s-12/pure_strands.py" := o ]};
            S3Store.clock := 2; S3Store.fault := None |};
       S3Store.bucket_name := "bucket" |} in
  exists r self',
    S3Listing.delete_session_files (fun _ => false) self "s-1" = Ok (r, self')
    /\ S3Store.objects (S3Store.s3_client_ self') !! "temp-code/s-12/pure_strands.py"
       = S3Store.objects (S3Store.s3_client_ self) !! "temp-code/s-12/pure_strands.py"
    /\ S3Store.bucket_name self' = S3Store.bucket_name self.
Proof.
  intros o self.
  apply (X11_deletion_keeps_the_other_sessions (fun _ => false) self "s-1"
           "temp-code/s-12/pure_strands.py").
  reflexivity.
Defined.

(** X12.  On a store that answers and holds no more than a thousand objects,
    [delete_session_files] returns a dictionary, and every object that is
    left under the prefix of the session is one S3 refused to delete: it is
    as before, and its key is reported under [errors].  When the dictionary
    reports no error, no object is left under the prefix: [get_code_file]
    answers [not_found] for each of the three slots, and
    [list_session_files] lists nothing. *)
Theorem X12_deleted_session_is_empty
    (refused : string -> bool)
    (self : S3Store.S3CodeStorageService) (session_id : string) :
  S3Store.fault (S3Store.s3_client_ self) = None ->
  PyStr.is_empty (S3Store.sanitize session_id) = false ->
  size (S3Store.objects (S3Store.s3_client_ self)) <= S3Listing.MaxKeys ->
  exists r self',
    S3Listing.delete_session_files refused self session_id = Ok (r, self')
    /\ (forall k o,
          PyStr.startswith k (S3Listing.session_prefix (S3Store.sanitize session_id))
          = true ->
          S3Store.objects (S3Store.s3_client_ self') !! k = Some o ->
          refused k = true
          /\ In k (S3Listing.delete_errors r)
          /\ S3Store.objects (S3Store.s3_client_ self) !! k = Some o)
    /\ (S3Listing.delete_errors r = [] ->
        (forall k,
            PyStr.startswith k (S3Listing.session_prefix (S3Store.sanitize session_id))
            = true ->
            S3Store.objects (S3Store.s3_client_ self') !! k = None)
        /\ (forall code_type,
              S3Store.recognized code_type = true ->
              S3Store.get_code_file self' session_id code_type
              = Ok (S3Store.GetNotFound "Code file not found"))
        /\ S3Listing.list_session_files self' session_id
           = Ok (S3Listing.ListSuccess session_id [] 0)).
Proof.
  intros Hf Hs Hsize.
  rewrite (S3ListingFacts.delete_session_files_ok _ _ _ Hf Hs).
  rewrite firstn_all2
    by (etransitivity; [apply S3ListingFacts.objects_under_length | exact Hsize]).
  set (prefix := S3Listing.session_prefix (S3Store.sanitize session_id)).
  assert (Hend : forall self' : S3Store.S3CodeStorageService,
             S3Store.fault (S3Store.s3_client_ self') = None ->
             (forall k, PyStr.startswith k prefix = true ->
                        S3Store.objects (S3Store.s3_client_ self') !! k = None) ->
             (forall k, PyStr.startswith k prefix = true ->
                        S3Store.objects (S3Store.s3_client_ self') !! k = None)
             /\ (forall code_type,
                   S3Store.recognized code_type = true ->
                   S3Store.get_code_file self' session_id code_type
                   = Ok (S3Store.GetNotFound "Code file not found"))
             /\ S3Listing.list_session_files self' session_id
                = Ok (S3Listing.ListSuccess session_id [] 0)).
  { intros self' Hf' Hnone. split; [exact Hnone|]. split.
    - intros code_type Hr.
      apply S3StoreFacts.get_code_file_missing; try assumption.
      apply Hnone, S3ListingFacts.probed_key_under_prefix.
    - rewrite (S3ListingFacts.list_session_files_ok _ _ Hf' Hs). fold prefix.
      destruct (S3Listing.objects_under (S3Store.s3_client_ self') prefix)
        as [|[k o] l] eqn:E; [reflexivity|].
      assert (Hin : In (k, o) (S3Listing.objects_under (S3Store.s3_client_ self') prefix))
        by (rewrite E; now left).
      apply S3ListingFacts.objects_under_spec in Hin as [Hk Hp].
      rewrite (Hnone _ Hp) in Hk. discriminate. }
  destruct (S3Listing.objects_under (S3Store.s3_client_ self) prefix)
    as [|kv contents] eqn:E.
  - exists (S3Listing.DeleteNothing ("No files found for session " +:+ session_id)), self.
    split; [reflexivity|].
    assert (Hnone : forall k, PyStr.startswith k prefix = true ->
                              S3Store.objects (S3Store.s3_client_ self) !! k = None).
    { intros k Hp.
      destruct (S3Store.objects (S3Store.s3_client_ self) !! k) as [o|] eqn:Ek;
        [|reflexivity].
      assert (Hin : In (k, o) (S3Listing.objects_under (S3Store.s3_client_ self) prefix))
        by now apply S3ListingFacts.objects_under_spec.
      rewrite E in Hin. contradiction. }
    split.
    + intros k o Hp Hk. rewrite (Hnone _ Hp) in Hk. discriminate.
    + intros _. now apply Hend.
  - do 2 eexists. split; [reflexivity|].
    match goal with
    | |- context [S3Listing.list_session_files ?x session_id] => set (self' := x)
    end.
    cbn [S3Listing.delete_errors].
    assert (Hleft : forall k o,
               PyStr.startswith k prefix = true ->
               S3Store.objects (S3Store.s3_client_ self') !! k = Some o ->
               refused k = true
               /\ In k (List.filter refused (map fst (kv :: contents)))
               /\ S3Store.objects (S3Store.s3_client_ self) !! k = Some o).
    { intros k o Hp Hk. subst self'.
      cbn [S3Store.s3_client_ S3Store.objects] in Hk.
      apply lookup_foldr_delete_Some in Hk as [Hnot Hk].
      assert (Hin : In k (map fst (kv :: contents))).
      { rewrite <- E. apply (in_map fst _ (k, o)).
        now apply S3ListingFacts.objects_under_spec. }
      destruct (refused k) eqn:Er.
      - split; [reflexivity|]. split; [|exact Hk]. apply filter_In. now split.
      - exfalso. apply Hnot. rewrite list_elem_of_In. apply filter_In.
        split; [exact Hin | now rewrite Er]. }
    split; [exact Hleft|].
    intros Herr. apply (Hend self'); [reflexivity|].
    intros k Hp.
    destruct (S3Store.objects (S3Store.s3_client_ self') !! k) as [o|] eqn:Ek;
      [|reflexivity].
    destruct (Hleft k o Hp Ek) as (_ & Hin & _).
    rewrite Herr in Hin. contradiction.
Qed.

Lemma X12_deleted_session_is_empty_witness :
  let o := {| S3Store.Body := "x = 1"; S3Store.ContentType := "text/x-python";
              S3Store.Metadata := []; S3Store.LastModified := 0 |} in
  let self :=
    {| S3Store.s3_client_ :=
         {| S3Store.objects :=
              {[ "temp-code/s-1/pure_strands.py" := o;
                 "temp-code/s-1/requirements.txt" := o ]};
            S3Store.clock := 2; S3Store.fault := None |};
       S3Store.bucket_name := "bucket" |} in
  let locked (k : string) := String.eqb k "temp-code/s-1/requirements.txt" in
  (exists self',
      S3Listing.delete_session_files (fun _ => false) self "s-1"
      = Ok (S3Listing.DeleteSuccess "s-1" 2 2 [], self')
      /\ (forall code_type,
            S3Store.recognized code_type = true ->
            S3Store.get_code_file self' "s-1" code_type
            = Ok (S3Store.GetNotFound "Code file not found"))
      /\ S3Listing.list_session_files self' "s-1"
         = Ok (S3Listing.ListSuccess "s-1" [] 0))
  /\ (exists self',
        S3Listing.delete_session_files locked self "s-1"
        = Ok (S3Listing.DeleteSuccess "s-1" 1 2 ["temp-code/s-1/requirements.txt"],
              self')
        /\ S3Store.objects (S3Store.s3_client_ self')
             !! "temp-code/s-1/pure_strands.py" = None).
Proof.
  intros o self locked. split.
  - destruct (X12_deleted_session_is_empty (fun _ => false) self "s-1"
                eq_refl eq_refl ltac:(vm_compute; lia))
      as (r & self' & E & _ & Hnone).
    vm_compute in E. injection E as <- <-.
    eexists. split; [vm_compute; reflexivity|].
    destruct (Hnone eq_refl) as (_ & Hget & Hlist).
    split; [exact Hget | exact Hlist].
  - destruct (X12_deleted_session_is_empty locked self "s-1"
                eq_refl eq_refl ltac:(vm_compute; lia))
      as (r & self' & E & Hleft & _).
    vm_compute in E. injection E as <- <-.
    eexists. split; [vm_compute; reflexivity|].
    vm_compute. reflexivity.
Defined.

(** X13.  Two session ids with the same sanitised form name the same
    artifacts: what is stored under one is read back under the other. *)
Theorem X13_session_ids_alias
    (self self' : S3Store.S3CodeStorageService)
    (a b code_content code_type : string) (r : S3Store.store_response) :
  S3Store.sanitize a = S3Store.sanitize b ->
  S3Store.store_code_file self a code_content code_type
    (Some (S3Store.extension_of code_type)) = Ok (r, self') ->
  S3Store.store_status r = "success" ->
  exists last_modified,
    S3Store.get_code_file self' b code_type
    = Ok (S3Store.GetSuccess code_content
            (S3Store.s3_uri_of (S3Store.bucket_name self)
               (S3Store.probed_key a code_type))
            code_type b last_modified (String.length code_content)).
Proof.
  intros Hab Hstore Hok.
  destruct (S3StoreFacts.store_code_file_success _ _ _ _ _ _ _ Hstore Hok)
    as (Hr & _ & _ & Hne & _ & Hbucket & Hfault & o & Hobj & Hbody).
  cbn [S3Store.extension_argument] in Hobj.
  assert (Hkey : S3Store.probed_key b code_type = S3Store.probed_key a code_type).
  { unfold S3Store.probed_key. now rewrite Hab. }
  assert (Hl : S3Store.objects (S3Store.s3_client_ self')
               !! S3Store.probed_key b code_type = Some o).
  { rewrite Hkey, Hobj. apply lookup_insert_eq. }
  rewrite Hab in Hne.
  rewrite (S3StoreFacts.get_code_file_present _ _ _ o Hr Hne Hfault Hl).
  rewrite Hbody, Hkey, Hbucket. eauto.
Qed.

Lemma X13_session_ids_alias_witness :
  exists last_modified,
    S3Store.get_code_file
      {| S3Store.s3_client_ :=
           {| S3Store.objects :=
                {[ "temp-code/s1/pure_strands.py" :=
                     {| S3Store.Body := "x = 1";
                        S3Store.ContentType := "text/x-python";
                        S3Store.Metadata :=
                          [ ("session-id", "s.1"); ("code-type", "pure_strands");
                            ("content-length", "5"); ("file-extension", ".py") ];
                        S3Store.LastModified := 0 |} ]};
              S3Store.clock := 1; S3Store.fault := None |};
         S3Store.bucket_name := "bucket" |}
      "s1" "pure_strands"
    = Ok (S3Store.GetSuccess "x = 1"
            (S3Store.s3_uri_of (S3Store.bucket_name (S3Store.empty_service "bucket"))
               (S3Store.probed_key "s.1" "pure_strands"))
            "pure_strands" "s1" last_modified (String.length "x = 1")).
Proof.
  apply (X13_session_ids_alias (S3Store.empty_service "bucket") _ "s.1" "s1" "x = 1"
           "pure_strands"
           (S3Store.StoreSuccess "s3://bucket/temp-code/s1/pure_strands.py" "bucket"
              "temp-code/s1/pure_strands.py" "pure_strands" "s.1" 5)).
  - reflexivity.
  - vm_compute. reflexivity.
  - reflexivity.
Defined.

(** X14.  The route that fetches an artifact answers 200 only for a
    recognised slot whose key holds an object, with the body of that object;
    it answers 400 exactly for an unrecognised slot; 404 exactly when the slot
    is recognised, the session id has an allowed character, and the store
    holds nothing under the key (or fails with the code [NoSuchKey]); and 500
    in the remaining cases: a session id without allowed character, or another
    failure of the store. *)
Theorem X14_fetch_route_statuses
    (s3_service : S3Store.S3CodeStorageService) (session_id code_type : string) :
  match S3Router.get_code_file s3_service session_id code_type with
  | S3Router.Http200 body =>
      S3Store.recognized code_type = true
      /\ exists o,
           S3Store.objects (S3Store.s3_client_ s3_service)
             !! S3Store.probed_key session_id code_type = Some o
           /\ S3Router.body_code_content body = S3Store.Body o
           /\ S3Router.body_content_length body = String.length (S3Store.Body o)
           /\ S3Router.body_session_id body = session_id
           /\ S3Router.body_code_type body = code_type
  | S3Router.HTTPException status_code detail =>
      (status_code = 400 /\ S3Store.recognized code_type = false)
      \/ (status_code = 404
          /\ S3Store.recognized code_type = true
          /\ PyStr.is_empty (S3Store.sanitize session_id) = false
          /\ (S3Store.fault (S3Store.s3_client_ s3_service)
              = Some (ClientError "NoSuchKey")
              \/ (S3Store.fault (S3Store.s3_client_ s3_service) = None
                  /\ S3Store.objects (S3Store.s3_client_ s3_service)
                       !! S3Store.probed_key session_id code_type = None)))
      \/ (status_code = 500
          /\ S3Store.recognized code_type = true
          /\ (PyStr.is_empty (S3Store.sanitize session_id) = true
              \/ exists e,
                   S3Store.fault (S3Store.s3_client_ s3_service) = Some e
                   /\ e <> ClientError "NoSuchKey"))
  end.
Proof.
  unfold S3Router.get_code_file, S3Store.get_code_file, S3Store.get_code_file_try,
    S3Store.get_object, S3Store.probed_key.
  destruct (S3Store.recognized code_type); cbn [negb]; [|now left].
  destruct (PyStr.is_empty (S3Store.sanitize session_id)).
  { right. right. auto. }
  destruct (S3Store.fault (S3Store.s3_client_ s3_service)) as [e|]; cbn [bind].
  - destruct e as [m|m|m|m| |c|m];
      try (right; right; split; [reflexivity|]; split; [reflexivity|];
           right; eexists; split; [reflexivity | discriminate]).
    destruct (String.eqb c "NoSuchKey") eqn:Ec.
    + apply String.eqb_eq in Ec. subst c. right. left. auto.
    + apply String.eqb_neq in Ec. right. right.
      split; [reflexivity|]. split; [reflexivity|].
      right. eexists. split; [reflexivity | congruence].
  - destruct (S3Store.objects (S3Store.s3_client_ s3_service) !! _) as [o|] eqn:Eo;
      cbn [bind].
    + split; [reflexivity|]. exists o. cbn. auto.
    + cbn. right. left. repeat (split; [reflexivity|]). right. split; reflexivity.
Qed.

(** X15.  The route that deletes the artifacts of a session answers 500 when
    the session has none: [delete_session_files] then returns a dictionary
    without the entry [session_id], which the route reads. *)
Theorem X15_deleting_nothing_answers_500
    (refused : string -> bool)
    (s3_service : S3Store.S3CodeStorageService) (session_id : string) :
  S3Store.fault (S3Store.s3_client_ s3_service) = None ->
  PyStr.is_empty (S3Store.sanitize session_id) = false ->
  (forall k o,
      S3Store.objects (S3Store.s3_client_ s3_service) !! k = Some o ->
      PyStr.startswith k (S3Listing.session_prefix (S3Store.sanitize session_id))
      = false) ->
  S3Listing.delete_session_files refused s3_service session_id
  = Ok (S3Listing.DeleteNothing ("No files found for session " +:+ session_id),
        s3_service)
  /\ S3Router.delete_session_files refused s3_service session_id
     = (S3Router.HTTPException 500 "Internal server error", s3_service)
  /\ S3Router.list_session_files s3_service session_id
     = S3Router.Http200 {| S3Router.list_session_id := session_id;
                           S3Router.list_files := [];
                           S3Router.list_count := 0 |}.
Proof.
  intros Hf Hs Hnone.
  assert (E : S3Listing.objects_under (S3Store.s3_client_ s3_service)
                (S3Listing.session_prefix (S3Store.sanitize session_id)) = []).
  { destruct (S3Listing.objects_under _ _) as [|[k o] l] eqn:E; [reflexivity|].
    assert (Hin : In (k, o)
                    (S3Listing.objects_under (S3Store.s3_client_ s3_service)
                       (S3Listing.session_prefix (S3Store.sanitize session_id))))
      by (rewrite E; now left).
    apply S3ListingFacts.objects_under_spec in Hin as [Hk Hp].
    rewrite (Hnone _ _ Hk) in Hp. discriminate. }
  unfold S3Router.delete_session_files, S3Router.list_session_files.
  rewrite (S3ListingFacts.delete_session_files_ok _ _ _ Hf Hs).
  rewrite (S3ListingFacts.list_session_files_ok _ _ Hf Hs).
  rewrite E. auto.
Qed.

Lemma X15_deleting_nothing_answers_500_witness :
  let o := {| S3Store.Body := "x = 1"; S3Store.ContentType := "text/x-python";
              S3Store.Metadata := []; S3Store.LastModified := 0 |} in
  let service :=
    {| S3Store.s3_client_ :=
         {| S3Store.objects := {[ "temp-code/sess-12/pure_strands.py" := o ]};
            S3Store.clock := 1; S3Store.fault := None |};
       S3Store.bucket_name := "bucket" |} in
  S3Listing.delete_session_files (fun _ => false) service "sess-1"
  = Ok (S3Listing.DeleteNothing ("No files found for session " +:+ "sess-1"), service)
  /\ S3Router.delete_session_files (fun _ => false) service "sess-1"
     = (S3Router.HTTPException 500 "Internal server error", service)
  /\ S3Router.list_session_files service "sess-1"
     = S3Router.Http200 {| S3Router.list_session_id := "sess-1";
                           S3Router.list_files := [];
                           S3Router.list_count := 0 |}.
Proof.
  intros o service.
  apply (X15_deleting_nothing_answers_500 (fun _ => false) service "sess-1").
  - reflexivity.
  - reflexivity.
  - intros k o' H.
    destruct (decide (k = "temp-code/sess-12/pure_strands.py")) as [->|Hne];
      [reflexivity|].
    cbn in H. rewrite lookup_singleton_ne in H by congruence. discriminate.
Defined.

(** ** Recovering the code from the artifact store *)

Module RecoveryFacts.
Import PyStr PyStrFacts S3Store S3StoreFacts Extraction ExtractionFacts Recovery.

(** The reference [_try_fetch_all_files] files for a slot. *)
Lemma fetched_reference (service : S3CodeStorageService) (request_id code_type : string)
    (slots : list string) :
  forall s3_uris : gmap string string,
    fold_left
      (fun s3_uris code_type =>
         match get_code_file service request_id code_type with
         | Ok (GetSuccess _ s3_uri _ _ _ _) => <[ code_type := s3_uri ]> s3_uris
         | _ => s3_uris
         end)
      slots s3_uris !! code_type
    = match (if existsb (String.eqb code_type) slots
             then match get_code_file service request_id code_type with
                  | Ok (GetSuccess _ s3_uri _ _ _ _) => Some s3_uri
                  | _ => None
                  end
             else None) with
      | Some s3_uri => Some s3_uri
      | None => s3_uris !! code_type
      end.
Proof.
  induction slots as [|slot slots IH]; intros s3_uris; cbn [fold_left existsb];
    [reflexivity|].
  rewrite IH. clear IH.
  destruct (existsb (String.eqb code_type) slots).
  { rewrite orb_true_r.
    destruct (String.eqb_spec code_type slot) as [->|Hne].
    - destruct (get_code_file service request_id slot) as [[]|]; reflexivity.
    - destruct (get_code_file service request_id code_type) as [[]|]; try reflexivity.
      all: destruct (get_code_file service request_id slot) as [[]|]; try reflexivity.
      all: now rewrite lookup_insert_ne by congruence. }
  rewrite orb_false_r.
  destruct (String.eqb_spec code_type slot) as [->|Hne].
  - destruct (get_code_file service request_id slot) as [[]|]; try reflexivity.
    now rewrite lookup_insert_eq.
  - destruct (get_code_file service request_id slot) as [[]|]; try reflexivity.
    now rewrite lookup_insert_ne by congruence.
Qed.

Lemma fetch_present (service : S3CodeStorageService) (request_id code_type : string)
    (o : s3_object) :
  recognized code_type = true ->
  is_empty (sanitize request_id) = false ->
  fault (s3_client_ service) = None ->
  objects (s3_client_ service) !! probed_key request_id code_type = Some o ->
  _fetch_code_from_s3 (Ok service) request_id code_type = FetchSuccess (Body o).
Proof.
  intros Hr Hs Hf Ho. unfold _fetch_code_from_s3. cbn [bind].
  now rewrite (get_code_file_present _ _ _ o Hr Hs Hf Ho).
Qed.

(** What the stage returns when the store does not supply the code. *)
Lemma stage_without_store (s3_service : result S3CodeStorageService)
    (response_text : string) (request_id : option string) :
  match given_id request_id with
  | Some r =>
      exists error, _fetch_code_from_s3 s3_service r "pure_strands" = FetchFailure error
  | None => True
  end ->
  exists s3_uris,
    code_extraction_stage s3_service response_text request_id
    = let! code := regex_extraction response_text in Ok (code, s3_uris).
Proof.
  intros H. unfold code_extraction_stage.
  destruct (given_id request_id) as [r|]; [|eauto].
  destruct H as [error ->].
  destruct (bool_decide _); [|eauto].
  destruct (bool_decide _); eauto.
Qed.

End RecoveryFacts.

(** X16.  [_try_fetch_all_files] files a reference under a slot exactly when
    the slot is one of the three, the store answers, the request id has an
    allowed character and the bucket holds an object under the key of the
    slot; the reference is the address of that key.  When the service cannot
    be built, nothing is filed. *)
Theorem X16_direct_fetch_finds_what_is_stored
    (service : S3Store.S3CodeStorageService) (request_id code_type s3_uri : string)
    (e : exn) :
  (Recovery._try_fetch_all_files (Ok service) request_id !! code_type = Some s3_uri
   <-> S3Store.recognized code_type = true
       /\ PyStr.is_empty (S3Store.sanitize request_id) = false
       /\ S3Store.fault (S3Store.s3_client_ service) = None
       /\ is_Some (S3Store.objects (S3Store.s3_client_ service)
                     !! S3Store.probed_key request_id code_type)
       /\ s3_uri = S3Store.s3_uri_of (S3Store.bucket_name service)
                     (S3Store.probed_key request_id code_type))
  /\ Recovery._try_fetch_all_files (Raise e) request_id = ∅.
Proof.
  split; [|reflexivity].
  unfold Recovery._try_fetch_all_files.
  rewrite RecoveryFacts.fetched_reference, lookup_empty.
  fold (S3Store.recognized code_type).
  split.
  - destruct (S3Store.recognized code_type) eqn:Hr; [|discriminate].
    destruct (S3Store.get_code_file service request_id code_type) as [r|] eqn:Eg;
      [|discriminate].
    destruct r as [c u t s lm n| |] eqn:Er; try discriminate.
    intros [= ->].
    destruct (S3StoreFacts.get_code_file_success _ _ _ _ Eg eq_refl)
      as (_ & o & Ho & Hres).
    injection Hres as _ -> _ _ _.
    revert Eg. unfold S3Store.get_code_file, S3Store.get_code_file_try,
      S3Store.get_object.
    rewrite Hr. cbn [negb].
    destruct (PyStr.is_empty (S3Store.sanitize request_id)); [discriminate|].
    destruct (S3Store.fault (S3Store.s3_client_ service)) as [x|].
    { cbn [bind]. destruct x; try discriminate.
      destruct (String.eqb code "NoSuchKey"); discriminate. }
    intros _. rewrite Ho. repeat split. now exists o.
  - intros (Hr & Hs & Hf & [o Ho] & ->).
    now rewrite Hr, (S3StoreFacts.get_code_file_present _ _ _ o Hr Hs Hf Ho).
Qed.

(** X17.  With a request id, a store that answers and holds the primary
    artifact of the request, the stage returns the stored code whatever the
    response text holds, a fenced code block included; the final code is the
    cleanup of the stored code, and the verdict of the security scan is that of
    the stored code. *)
Theorem X17_stored_code_wins
    (service : S3Store.S3CodeStorageService) (response_text request_id : string)
    (o : S3Store.s3_object) :
  PyStr.is_empty (S3Store.sanitize request_id) = false ->
  S3Store.fault (S3Store.s3_client_ service) = None ->
  S3Store.objects (S3Store.s3_client_ service)
    !! S3Store.probed_key request_id "pure_strands" = Some o ->
  exists s3_uris,
    Recovery.code_extraction_stage (Ok service) response_text (Some request_id)
    = Ok (S3Store.Body o, s3_uris)
    /\ LocalGeneration.finish_generation (Ok service) response_text (Some request_id)
       = Ok {| LocalGeneration.final_code := Cleanup.cleaned (Some (S3Store.Body o));
               LocalGeneration.metadata_s3_uris := s3_uris;
               LocalGeneration.metadata_security_validation :=
                 Validation._validate_generated_code_security (S3Store.Body o) |}.
Proof.
  intros Hs Hf Ho.
  assert (Hid : Recovery.given_id (Some request_id) = Some request_id).
  { cbn [Recovery.given_id]. destruct request_id; [discriminate | reflexivity]. }
  pose proof (RecoveryFacts.fetch_present _ _ "pure_strands" o eq_refl Hs Hf Ho)
    as Hfetch.
  assert (Hstage : exists s3_uris,
             Recovery.code_extraction_stage (Ok service) response_text (Some request_id)
             = Ok (S3Store.Body o, s3_uris)).
  { unfold Recovery.code_extraction_stage. rewrite Hid, Hfetch.
    destruct (bool_decide (S3Uris._extract_s3_uris_from_response response_text = ∅))
      eqn:E1.
    - destruct (bool_decide (Recovery._try_fetch_all_files (Ok service) request_id = ∅))
        eqn:E; [|cbn [bind]; eauto].
      apply bool_decide_eq_true in E.
      assert (Hl : Recovery._try_fetch_all_files (Ok service) request_id
                   !! "pure_strands" = None) by (rewrite E; apply lookup_empty).
      unfold Recovery._try_fetch_all_files in Hl.
      rewrite RecoveryFacts.fetched_reference in Hl.
      change (existsb (String.eqb "pure_strands") S3Store.code_types) with true in Hl.
      rewrite (S3StoreFacts.get_code_file_present service request_id "pure_strands" o
                 eq_refl Hs Hf Ho) in Hl.
      discriminate.
    - rewrite E1. cbn [bind]. eauto. }
  destruct Hstage as [s3_uris Hstage]. exists s3_uris. split; [exact Hstage|].
  unfold LocalGeneration.finish_generation. rewrite Hstage. reflexivity.
Qed.

Lemma X17_stored_code_wins_witness :
  let o := {| S3Store.Body := "x = 1"; S3Store.ContentType := "text/x-python";
              S3Store.Metadata := []; S3Store.LastModified := 0 |} in
  let service :=
    {| S3Store.s3_client_ :=
         {| S3Store.objects := {[ "temp-code/r1/pure_strands.py" := o ]};
            S3Store.clock := 1; S3Store.fault := None |};
       S3Store.bucket_name := "bucket" |} in
  exists s3_uris,
    Recovery.code_extraction_stage (Ok service) Spec.escaped_response (Some "r1")
    = Ok (S3Store.Body o, s3_uris)
    /\ LocalGeneration.finish_generation (Ok service) Spec.escaped_response (Some "r1")
       = Ok {| LocalGeneration.final_code := Cleanup.cleaned (Some (S3Store.Body o));
               LocalGeneration.metadata_s3_uris := s3_uris;
               LocalGeneration.metadata_security_validation :=
                 Validation._validate_generated_code_security (S3Store.Body o) |}.
Proof.
  intros o service.
  apply (X17_stored_code_wins service Spec.escaped_response "r1" o); reflexivity.
Defined.

(** X18.  When the store does not supply the code (no request id, or the
    fetch of the primary artifact fails), the stage stands or falls with the
    extraction from the text: it raises [ValueError] with the message of the
    failed extraction exactly when all four methods fail, and otherwise
    returns the code the extraction returns. *)
Theorem X18_without_store_the_text_decides
    (s3_service : result S3Store.S3CodeStorageService) (response_text : string)
    (request_id : option string) :
  match Recovery.given_id request_id with
  | Some r =>
      exists error,
        Recovery._fetch_code_from_s3 s3_service r "pure_strands"
        = Recovery.FetchFailure error
  | None => True
  end ->
  (Extraction.all_methods_fail response_text = true ->
   Recovery.code_extraction_stage s3_service response_text request_id
   = Raise (ValueError "Code extraction failed: All code extraction methods failed"))
  /\ (Extraction.all_methods_fail response_text = false ->
      exists code method confidence s3_uris,
        fst (Extraction._extract_code_with_fallbacks response_text)
        = Extraction.ExtractionSuccess code method confidence
        /\ Recovery.code_extraction_stage s3_service response_text request_id
           = Ok (code, s3_uris)).
Proof.
  intros H.
  destruct (RecoveryFacts.stage_without_store _ response_text _ H) as [s3_uris ->].
  unfold Recovery.regex_extraction, Extraction._extract_code_with_fallbacks.
  split.
  - intros Hall.
    now rewrite (ExtractionFacts.try_methods_all_fail _ _ [] Hall).
  - intros Hall.
    destruct (fst (Extraction.try_methods Extraction.extraction_methods response_text []))
      as [code method confidence|error raw] eqn:E.
    + exists code, method, confidence, s3_uris. auto.
    + assert (Hs : Extraction.success
                     (fst (Extraction.try_methods Extraction.extraction_methods
                             response_text [])) = false) by now rewrite E.
      apply ExtractionFacts.try_methods_failure in Hs.
      unfold Extraction.all_methods_fail in Hall. congruence.
Qed.

Lemma X18_without_store_the_text_decides_witness :
  (Extraction.all_methods_fail "see s3://bucket/temp-code/r1/pure_strands.py" = true ->
   Recovery.code_extraction_stage (Ok (S3Store.empty_service "bucket"))
     "see s3://bucket/temp-code/r1/pure_strands.py" (Some "r1")
   = Raise (ValueError "Code extraction failed: All code extraction methods failed"))
  /\ (Extraction.all_methods_fail "see s3://bucket/temp-code/r1/pure_strands.py" = false ->
      exists code method confidence s3_uris,
        fst (Extraction._extract_code_with_fallbacks
               "see s3://bucket/temp-code/r1/pure_strands.py")
        = Extraction.ExtractionSuccess code method confidence
        /\ Recovery.code_extraction_stage (Ok (S3Store.empty_service "bucket"))
             "see s3://bucket/temp-code/r1/pure_strands.py" (Some "r1")
           = Ok (code, s3_uris)).
Proof.
  apply (X18_without_store_the_text_decides (Ok (S3Store.empty_service "bucket"))
           "see s3://bucket/temp-code/r1/pure_strands.py" (Some "r1")).
  exists "Code file not found". reflexivity.
Defined.
(** ** The effective model identifier *)

Module EffectiveModelFacts.
Import PyStr PyStrFacts WhiteSpaceEdits Spec ModelIdFacts EffectiveModel.

Lemma given_nonempty (s : option string) (m : string) :
  given s = Some m -> is_empty m = false.
Proof.
  destruct s as [v|]; cbn [given]; [|discriminate].
  destruct (is_empty v) eqn:E; [discriminate|]. now intros [= <-].
Qed.

(** A model id that is not empty has a regional prefix once formatted. *)
Lemma format_prefixed session_region model_id region :
  is_empty model_id = false ->
  ModelUtils.has_regional_prefix
    (ModelUtils.format_model_for_cris session_region model_id region) = true.
Proof.
  intros H. unfold ModelUtils.format_model_for_cris. rewrite H.
  destruct (ModelUtils.has_regional_prefix model_id) eqn:Ep; [exact Ep|].
  apply prefixed_has_prefix, get_regional_prefix_known.
Qed.

(** Formatting returns the model id or puts one of the three prefixes
    before it. *)
Lemma format_cases session_region model_id region :
  ModelUtils.format_model_for_cris session_region model_id region = model_id
  \/ exists p,
       In p ModelUtils.regional_prefixes
       /\ ModelUtils.format_model_for_cris session_region model_id region
          = p +:+ model_id.
Proof.
  unfold ModelUtils.format_model_for_cris.
  destruct (is_empty model_id); [now left|].
  destruct (ModelUtils.has_regional_prefix model_id); [now left|].
  right. eexists. split; [apply get_regional_prefix_known | reflexivity].
Qed.

Lemma contains_char (c : ascii) (s : string) :
  contains (String c EmptyString) s = has_char c s.
Proof.
  induction s as [|a s IH]; cbn [contains has_char startswith]; [reflexivity|].
  now rewrite IH, andb_true_r, Ascii.eqb_sym.
Qed.

(** The method of the service does what the function does when it is given
    a region, and leaves the service as it is. *)
Lemma service_format_with_region config_region session_region self model_id region :
  ModelIDService.format_model_for_cris config_region session_region self model_id
    (Some region)
  = (ModelUtils.format_model_for_cris session_region model_id (Some region), self).
Proof.
  unfold ModelIDService.format_model_for_cris, ModelUtils.format_model_for_cris.
  destruct (is_empty model_id); [reflexivity|].
  destruct (ModelUtils.has_regional_prefix model_id); reflexivity.
Qed.

Lemma subtext_contains (p q s : string) :
  contains (p +:+ q) s = true -> contains p s = true.
Proof.
  assert (Hs : forall t, startswith t (p +:+ q) = true -> startswith t p = true).
  { induction p as [|a p IH]; intros t; [reflexivity|].
    cbn [String.append startswith]. destruct t as [|b t]; [discriminate|].
    intros H. apply andb_true_iff in H as [Hab Ht].
    now rewrite Hab, (IH _ Ht). }
  induction s as [|c s IH]; cbn [contains]; intros H;
    apply orb_true_iff in H as [H|H]; try discriminate.
  - now rewrite (Hs _ H).
  - now rewrite (Hs _ H).
  - rewrite (IH H). apply orb_true_r.
Qed.

End EffectiveModelFacts.

(** X19.  [get_effective_model_id] of [model_utils.py] always returns a model
    id with one of the three regional prefixes, whatever it is given, no model
    id at all included; and the first of the request, user and default ids
    that is given and not empty decides, the others playing no part. *)
Theorem X19_effective_model_id_is_prefixed
    (session_region : result (option string))
    (request_model_id user_model_id default_model_id region : option string) :
  let chosen :=
    EffectiveModel.get_effective_model_id session_region request_model_id
      user_model_id default_model_id region in
  ModelUtils.has_regional_prefix chosen = true
  /\ (forall m user' default',
        EffectiveModel.given request_model_id = Some m ->
        EffectiveModel.get_effective_model_id session_region request_model_id
          user' default' region
        = ModelUtils.format_model_for_cris session_region m region)
  /\ (forall m default',
        EffectiveModel.given request_model_id = None ->
        EffectiveModel.given user_model_id = Some m ->
        EffectiveModel.get_effective_model_id session_region request_model_id
          user_model_id default' region
        = ModelUtils.format_model_for_cris session_region m region).
Proof.
  cbn zeta. unfold EffectiveModel.get_effective_model_id. split; [|split].
  - apply EffectiveModelFacts.format_prefixed.
    destruct (EffectiveModel.given request_model_id) as [m|] eqn:E1;
      [exact (EffectiveModelFacts.given_nonempty _ _ E1)|].
    destruct (EffectiveModel.given user_model_id) as [m|] eqn:E2;
      [exact (EffectiveModelFacts.given_nonempty _ _ E2)|].
    destruct (EffectiveModel.given default_model_id) as [m|] eqn:E3;
      [exact (EffectiveModelFacts.given_nonempty _ _ E3) | reflexivity].
  - intros m user' default' ->. reflexivity.
  - intros m default' -> ->. reflexivity.
Qed.

(** X20.  Formatting keeps a model id valid: an id that [validate_model_id]
    accepts is still accepted once [format_model_for_cris] has returned it,
    prefixed or not. *)
Theorem X20_formatting_keeps_a_model_id_valid
    (session_region : result (option string)) (model_id : string)
    (region : option string) :
  EffectiveModel.validate_model_id model_id = true ->
  EffectiveModel.validate_model_id
    (ModelUtils.format_model_for_cris session_region model_id region) = true.
Proof.
  intros H.
  destruct (EffectiveModelFacts.format_cases session_region model_id region)
    as [->|(p & Hp & ->)]; [exact H|].
  unfold EffectiveModel.validate_model_id in *.
  destruct (PyStr.is_empty model_id) eqn:He; [discriminate|].
  destruct (String.length model_id <? 5) eqn:Hl; [discriminate|].
  destruct (existsb (fun char => PyStr.contains char model_id)
              EffectiveModel.invalid_chars) eqn:Hc; [discriminate|].
  apply Nat.ltb_ge in Hl.
  assert (Hne : PyStr.is_empty (p +:+ model_id) = false).
  { destruct p; [exact He | reflexivity]. }
  assert (Hlen : (String.length (p +:+ model_id) <? 5) = false).
  { apply Nat.ltb_ge. rewrite PyStrFacts.length_append. lia. }
  rewrite Hne, Hlen.
  assert (Hchars : existsb (fun char => PyStr.contains char (p +:+ model_id))
                     EffectiveModel.invalid_chars = false).
  { unfold EffectiveModel.invalid_chars, PyStr.NL, PyStr.CRs in *.
    cbn [existsb] in *.
    rewrite !EffectiveModelFacts.contains_char in *.
    rewrite !PyStrFacts.has_char_append.
    repeat (apply orb_false_iff in Hc as [?H Hc]).
    unfold ModelUtils.regional_prefixes in Hp.
    destruct Hp as [<-|[<-|[<-|[]]]]; cbn [PyStr.has_char Ascii.eqb Bool.eqb orb];
      repeat match goal with H : PyStr.has_char _ model_id = false |- _ =>
                               rewrite H; clear H end;
      reflexivity. }
  now rewrite Hchars.
Qed.

Lemma X20_formatting_keeps_a_model_id_valid_witness :
  EffectiveModel.validate_model_id
    (ModelUtils.format_model_for_cris (Ok None)
       "anthropic.claude-3-5-sonnet-20241022-v2:0" (Some "eu-west-1")) = true.
Proof.
  apply (X20_formatting_keeps_a_model_id_valid (Ok None)
           "anthropic.claude-3-5-sonnet-20241022-v2:0" (Some "eu-west-1")).
  reflexivity.
Defined.

(** X21.  A model that supports reasoning tokens supports prompt caching:
    each reasoning pattern holds a caching pattern. *)
Theorem X21_reasoning_models_support_caching (model_id : string) :
  ModelsRouter._supports_reasoning model_id = true ->
  ModelsRouter._supports_prompt_caching model_id = true.
Proof.
  unfold ModelsRouter._supports_reasoning, ModelsRouter._supports_prompt_caching,
    ModelsRouter.reasoning_patterns, ModelsRouter.caching_patterns.
  cbn [existsb]. rewrite !orb_false_r. intros H.
  apply orb_true_iff in H as [H|H].
  - now rewrite H.
  - rewrite (EffectiveModelFacts.subtext_contains "claude-3-5-sonnet" "-20241022-v2"
               model_id H).
    now rewrite orb_true_r.
Qed.

Lemma X21_reasoning_models_support_caching_witness :
  ModelsRouter._supports_prompt_caching "us.anthropic.claude-3-5-sonnet-20241022-v2:0"
  = true.
Proof.
  apply (X21_reasoning_models_support_caching
           "us.anthropic.claude-3-5-sonnet-20241022-v2:0").
  reflexivity.
Defined.

(** X22.  The capabilities reported for a model do not depend on its
    regional prefix: formatting a model id changes neither what
    [_supports_reasoning] nor what [_supports_prompt_caching] answers. *)
Theorem X22_capabilities_ignore_the_regional_prefix
    (session_region : result (option string)) (model_id : string)
    (region : option string) :
  ModelsRouter._supports_reasoning
    (ModelUtils.format_model_for_cris session_region model_id region)
  = ModelsRouter._supports_reasoning model_id
  /\ ModelsRouter._supports_prompt_caching
       (ModelUtils.format_model_for_cris session_region model_id region)
     = ModelsRouter._supports_prompt_caching model_id.
Proof.
  destruct (EffectiveModelFacts.format_cases session_region model_id region)
    as [->|(p & Hp & ->)]; [split; reflexivity|].
  unfold ModelsRouter._supports_reasoning, ModelsRouter._supports_prompt_caching,
    ModelsRouter.reasoning_patterns, ModelsRouter.caching_patterns,
    ModelUtils.regional_prefixes in *.
  destruct Hp as [<-|[<-|[<-|[]]]];
    cbn [existsb String.append PyStr.contains PyStr.startswith Ascii.eqb Bool.eqb
         andb orb];
    split; reflexivity.
Qed.
(** ** The model id service: defaults and preferences *)

Module ModelDefaultsFacts.
Import PyStr PyStrFacts Spec ModelIdFacts EffectiveModel EffectiveModelFacts.
Import ModelIDService ModelIDDefaults.

Section Collaborators.

Variable all_config : result (gmap string string).
Variable session_region : result (option string).
Variable expert_agent_model : string -> result (option string).

Lemma format_settled_id self model_id region :
  settled model_id = true ->
  format all_config session_region self model_id region = (model_id, self).
Proof. apply service_format_settled. Qed.

Lemma format_is_settled self model_id region :
  settled (fst (format all_config session_region self model_id region)) = true.
Proof. apply service_format_gives_settled. Qed.

Lemma format_with_region self model_id region :
  format all_config session_region self model_id (Some region)
  = (ModelUtils.format_model_for_cris session_region model_id (Some region), self).
Proof. apply service_format_with_region. Qed.

(** Formatting leaves the cached default alone. *)
Lemma format_keeps_default self model_id region :
  _default_model_cache (snd (format all_config session_region self model_id region))
  = _default_model_cache self.
Proof.
  unfold format, format_model_for_cris.
  destruct (is_empty model_id); [reflexivity|].
  destruct (ModelUtils.has_regional_prefix model_id); [reflexivity|].
  unfold get_regional_prefix.
  destruct region as [r|]; [reflexivity|].
  unfold detect_region.
  destruct (truthy (_region_cache self)); reflexivity.
Qed.

Lemma user_preference_settled self user_id m self' :
  get_user_model_preference all_config session_region expert_agent_model self user_id
  = (Some m, self') ->
  settled m = true.
Proof.
  unfold get_user_model_preference.
  destruct (expert_agent_model user_id) as [[v|]|]; cbn [given]; try discriminate.
  destruct (is_empty v); [discriminate|].
  pose proof (format_is_settled self v None) as H.
  destruct (format all_config session_region self v None) as [f s].
  now intros [= <- _].
Qed.

Lemma user_preference_keeps_default self user_id :
  _default_model_cache
    (snd (get_user_model_preference all_config session_region expert_agent_model
            self user_id))
  = _default_model_cache self.
Proof.
  unfold get_user_model_preference.
  destruct (expert_agent_model user_id) as [[v|]|]; cbn [given]; try reflexivity.
  destruct (is_empty v); [reflexivity|].
  pose proof (format_keeps_default self v None) as H.
  now destruct (format all_config session_region self v None) as [f s].
Qed.

Lemma default_settled self :
  (forall m, _default_model_cache self = Some m -> settled m = true) ->
  settled (fst (get_system_default_model_id all_config session_region self)) = true.
Proof.
  intros Hc. unfold get_system_default_model_id, format.
  destruct (_default_model_cache self) as [c|] eqn:E; cbn [given].
  - destruct (is_empty c) eqn:Ee.
    + destruct all_config as [config|e];
        rewrite service_format_with_region; cbn [fst]; apply format_gives_settled.
    + cbn [fst]. now apply Hc.
  - destruct all_config as [config|e];
      rewrite service_format_with_region; cbn [fst]; apply format_gives_settled.
Qed.

End Collaborators.

End ModelDefaultsFacts.

(** X23.  The system default model id is computed once: a second call of
    [get_system_default_model_id] returns what the first returned and leaves
    the service as the first left it; and a first call on a service without
    cached default caches what it returns, which is empty or has a regional
    prefix, and leaves the cached region alone. *)
Theorem X23_default_model_is_computed_once
    (all_config : result (gmap string string))
    (session_region : result (option string))
    (self : ModelIDService.ModelIDService) :
  let first := ModelIDDefaults.get_system_default_model_id all_config session_region self in
  ModelIDDefaults.get_system_default_model_id all_config session_region (snd first)
  = first
  /\ (ModelIDService._default_model_cache self = None ->
      ModelIDService._default_model_cache (snd first) = Some (fst first)
      /\ Spec.settled (fst first) = true
      /\ ModelIDService._region_cache (snd first) = ModelIDService._region_cache self).
Proof.
  cbn zeta. unfold ModelIDDefaults.get_system_default_model_id.
  destruct self as [rc [c|]]; cbn [ModelIDService._default_model_cache
                                     EffectiveModel.given].
  - destruct (PyStr.is_empty c) eqn:Ee.
    + split; [|discriminate].
      destruct all_config as [config|e];
        rewrite ModelDefaultsFacts.format_with_region;
        cbn [snd fst ModelIDDefaults.with_default_cache
             ModelIDService._default_model_cache EffectiveModel.given];
        match goal with
        | |- context [PyStr.is_empty ?m] => destruct (PyStr.is_empty m) eqn:Em
        end;
        try rewrite ModelDefaultsFacts.format_with_region; reflexivity.
    + split; [|discriminate].
      cbn [snd ModelIDService._default_model_cache EffectiveModel.given].
      now rewrite Ee.
  - split.
    + destruct all_config as [config|e];
        rewrite ModelDefaultsFacts.format_with_region;
        cbn [snd fst ModelIDDefaults.with_default_cache
             ModelIDService._default_model_cache EffectiveModel.given];
        match goal with
        | |- context [PyStr.is_empty ?m] => destruct (PyStr.is_empty m) eqn:Em
        end;
        try rewrite ModelDefaultsFacts.format_with_region; reflexivity.
    + intros _.
      destruct all_config as [config|e];
        rewrite ModelDefaultsFacts.format_with_region;
        cbn [snd fst ModelIDDefaults.with_default_cache
             ModelIDService._default_model_cache ModelIDService._region_cache];
        (split; [reflexivity|]); (split; [|reflexivity]);
        apply ModelIdFacts.format_gives_settled.
Qed.

(** X24.  The [region] argument of [get_effective_model_id] of the service
    has no effect, on the model id returned or on the service: the user's
    preference is formatted with the detected region and the default with the
    configured one, and what is formatted once is not formatted again.  The
    cached default is assumed to be one the service has computed (empty or
    with a regional prefix). *)
Theorem X24_region_argument_has_no_effect
    (all_config : result (gmap string string))
    (session_region : result (option string))
    (expert_agent_model : string -> result (option string))
    (self : ModelIDService.ModelIDService) (user_id region : option string) :
  (forall m, ModelIDService._default_model_cache self = Some m ->
             Spec.settled m = true) ->
  ModelIDDefaults.get_effective_model_id all_config session_region expert_agent_model
    self user_id region
  = ModelIDDefaults.get_effective_model_id all_config session_region expert_agent_model
      self user_id None
  /\ Spec.settled
       (fst (ModelIDDefaults.get_effective_model_id all_config session_region
               expert_agent_model self user_id region)) = true.
Proof.
  intros Hc.
  assert (Hgen : forall region',
             exists m s,
               Spec.settled m = true
               /\ (let (effective_model_id, self0) :=
                     match EffectiveModel.given user_id with
                     | Some u =>
                         let (user_model_id, self0) :=
                           ModelIDDefaults.get_user_model_preference all_config
                             session_region expert_agent_model self u in
                         (EffectiveModel.given user_model_id, self0)
                     | None => (None, self)
                     end in
                   match effective_model_id with
                   | Some m => (m, self0)
                   | None =>
                       ModelIDDefaults.get_system_default_model_id all_config
                         session_region self0
                   end) = (m, s)
               /\ ModelIDDefaults.get_effective_model_id all_config session_region
                    expert_agent_model self user_id region' = (m, s)).
  { intros region'. unfold ModelIDDefaults.get_effective_model_id.
    destruct (EffectiveModel.given user_id) as [u|].
    - pose proof (ModelDefaultsFacts.user_preference_settled all_config session_region
                    expert_agent_model self u) as Hu.
      pose proof (ModelDefaultsFacts.user_preference_keeps_default all_config
                    session_region expert_agent_model self u) as Hk.
      destruct (ModelIDDefaults.get_user_model_preference all_config session_region
                  expert_agent_model self u) as [[pref|] s1]; cbn [snd] in Hk.
      + cbn [EffectiveModel.given].
        destruct (PyStr.is_empty pref) eqn:Ee.
        * assert (Hs1 : forall m, ModelIDService._default_model_cache s1 = Some m ->
                                  Spec.settled m = true)
            by (rewrite Hk; exact Hc).
          pose proof (ModelDefaultsFacts.default_settled all_config session_region
                        s1 Hs1) as Hd.
          destruct (ModelIDDefaults.get_system_default_model_id all_config
                      session_region s1) as [m s2].
          cbn [fst] in Hd. exists m, s2. split; [exact Hd|]. split; [reflexivity|].
          now apply ModelDefaultsFacts.format_settled_id.
        * exists pref, s1. split; [now apply (Hu pref s1)|]. split; [reflexivity|].
          apply ModelDefaultsFacts.format_settled_id. now apply (Hu pref s1).
      + cbn [EffectiveModel.given].
        assert (Hs1 : forall m, ModelIDService._default_model_cache s1 = Some m ->
                                Spec.settled m = true)
          by (rewrite Hk; exact Hc).
        pose proof (ModelDefaultsFacts.default_settled all_config session_region
                      s1 Hs1) as Hd.
        destruct (ModelIDDefaults.get_system_default_model_id all_config
                    session_region s1) as [m s2].
        cbn [fst] in Hd. exists m, s2. split; [exact Hd|]. split; [reflexivity|].
        now apply ModelDefaultsFacts.format_settled_id.
    - pose proof (ModelDefaultsFacts.default_settled all_config session_region
                    self Hc) as Hd.
      destruct (ModelIDDefaults.get_system_default_model_id all_config
                  session_region self) as [m s2].
      cbn [fst] in Hd. exists m, s2. split; [exact Hd|]. split; [reflexivity|].
      now apply ModelDefaultsFacts.format_settled_id. }
  destruct (Hgen region) as (m & s & Hm & E & ->).
  destruct (Hgen None) as (m' & s' & _ & E' & ->).
  rewrite E in E'. split; [exact E' | exact Hm].
Qed.

Lemma X24_region_argument_has_no_effect_witness :
  let self := {| ModelIDService._region_cache := None;
                 ModelIDService._default_model_cache := None |} in
  ModelIDDefaults.get_effective_model_id
    (Ok {[ "REGION" := "us-east-1" ]}) (Ok None) (fun _ => Ok None)
    self (Some "user@example.com") (Some "eu-west-1")
  = ModelIDDefaults.get_effective_model_id
      (Ok {[ "REGION" := "us-east-1" ]}) (Ok None) (fun _ => Ok None)
      self (Some "user@example.com") None
  /\ Spec.settled
       (fst (ModelIDDefaults.get_effective_model_id
               (Ok {[ "REGION" := "us-east-1" ]}) (Ok None) (fun _ => Ok None)
               self (Some "user@example.com") (Some "eu-west-1"))) = true.
Proof.
  intros self.
  apply (X24_region_argument_has_no_effect
           (Ok {[ "REGION" := "us-east-1" ]}) (Ok None) (fun _ => Ok None)
           self (Some "user@example.com") (Some "eu-west-1")).
  intros m H. discriminate H.
Defined.
(** ** What a successful extraction returns *)

Module ExtractionInvariants.
Import PyStr PyStrFacts Extraction ExtractionFacts.

Lemma lstrip_head (s : string) :
  lstrip s = EmptyString
  \/ exists c t, lstrip s = String c t /\ isspace c = false.
Proof.
  induction s as [|c s IH]; cbn [lstrip]; [now left|].
  destruct (isspace c) eqn:E; [exact IH|]. right. eauto.
Qed.

Lemma strip_idempotent (s : string) : strip (strip s) = strip s.
Proof.
  unfold strip. destruct (lstrip_head s) as [->|(c & t & -> & Hc)]; [reflexivity|].
  cbn [rstrip]. rewrite Hc, andb_false_r. cbn [lstrip]. rewrite Hc.
  cbn [rstrip]. now rewrite rstrip_idempotent, Hc, andb_false_r.
Qed.

Lemma first_pattern_match_stripped (ps : list Regex.regex) (response code : string) :
  first_pattern_match ps response = Ok code -> strip code = code.
Proof.
  induction ps as [|p ps IH]; cbn [first_pattern_match]; [discriminate|].
  destruct (last_match _); [|exact IH].
  intros [= <-]. apply strip_idempotent.
Qed.

(** Each of the four methods returns a text without white space around
    it. *)
Lemma method_stripped (name : string) (method : string -> result string)
    (response code : string) :
  In (name, method) extraction_methods ->
  method response = Ok code -> strip code = code.
Proof.
  unfold extraction_methods. cbn [In].
  intros [H|[H|[H|[H|[]]]]]; injection H as _ <-.
  - unfold _extract_python_blocks. destruct (last_match _); [|discriminate].
    intros [= <-]. apply strip_idempotent.
  - unfold _extract_generic_blocks. destruct (find _ _); [|discriminate].
    intros [= <-]. apply strip_idempotent.
  - unfold _extract_import_based. destruct (last_match _); [|discriminate].
    intros [= <-]. apply strip_idempotent.
  - apply first_pattern_match_stripped.
Qed.

Lemma method_named (name : string) (method : string -> result string) :
  In (name, method) extraction_methods ->
  In name ["python_blocks"; "generic_blocks"; "import_based"; "pattern_matching"].
Proof.
  unfold extraction_methods. cbn [In].
  intros [H|[H|[H|[H|[]]]]]; injection H as <- _; tauto.
Qed.

End ExtractionInvariants.

(** X25.  The code of a successful extraction has no white space before or
    after it and more than fifty characters; it is what the method named in
    the result returns for the response; and the confidence is at most 1.0
    (ten tenths). *)
Theorem X25_extracted_code_is_stripped_and_long
    (response code method : string) (confidence : nat) :
  fst (Extraction._extract_code_with_fallbacks response)
  = Extraction.ExtractionSuccess code method confidence ->
  PyStr.strip code = code
  /\ 50 < String.length code
  /\ confidence <= 10
  /\ In method ["python_blocks"; "generic_blocks"; "import_based"; "pattern_matching"]
  /\ exists extract,
       In (method, extract) Extraction.extraction_methods
       /\ extract response = Ok code.
Proof.
  unfold Extraction._extract_code_with_fallbacks.
  destruct (Extraction.try_methods Extraction.extraction_methods response [])
    as [r logs] eqn:E. cbn [fst]. intros ->.
  destruct (ExtractionFacts.try_methods_success _ _ _ _ _ _ _ E)
    as ((extract & Hin & Hm & Hv) & Hconf & _).
  pose proof (ExtractionInvariants.method_stripped _ _ _ _ Hin Hm) as Hs.
  split; [exact Hs|]. split.
  - unfold Extraction.viable in Hv. apply andb_true_iff in Hv as [_ Hv].
    rewrite Hs in Hv. now apply Nat.ltb_lt in Hv.
  - split; [subst confidence; apply Nat.le_min_r|].
    split; [exact (ExtractionInvariants.method_named _ _ Hin)|].
    exists extract. now split.
Qed.

Lemma X25_extracted_code_is_stripped_and_long_witness :
  PyStr.strip Spec.escaped_code = Spec.escaped_code
  /\ 50 < String.length Spec.escaped_code
  /\ 8 <= 10
  /\ In "python_blocks"
       ["python_blocks"; "generic_blocks"; "import_based"; "pattern_matching"]
  /\ exists extract,
       In ("python_blocks", extract) Extraction.extraction_methods
       /\ extract Spec.escaped_response = Ok Spec.escaped_code.
Proof.
  apply (X25_extracted_code_is_stripped_and_long Spec.escaped_response
           Spec.escaped_code "python_blocks" 8).
  vm_compute. reflexivity.
Defined.
(** ** Escaped payloads and buffered streams *)

Module FramingFacts.
Import PyStr PyStrFacts Sse Orchestrator Spec.

(** Replacing a one-character text goes through a concatenation. *)
Lemma replace_char_append (c : ascii) (new a b : string) :
  replace (String c EmptyString) new (a +:+ b)
  = replace (String c EmptyString) new a +:+ replace (String c EmptyString) new b.
Proof.
  unfold replace. induction a as [|x a IH]; [reflexivity|].
  cbn [String.append replace_from startswith String.length Nat.sub].
  rewrite andb_true_r.
  destruct (Ascii.eqb c x); rewrite IH; [now rewrite append_assoc | reflexivity].
Qed.

Lemma replace_char_gone (c : ascii) (new s : string) :
  has_char c new = false ->
  has_char c (replace (String c EmptyString) new s) = false.
Proof.
  intros Hn. unfold replace. induction s as [|x s IH]; [reflexivity|].
  cbn [replace_from startswith String.length Nat.sub]. rewrite andb_true_r.
  destruct (Ascii.eqb c x) eqn:E.
  - now rewrite has_char_append, Hn, IH.
  - cbn [has_char]. now rewrite Ascii.eqb_sym, E, IH.
Qed.

Lemma replace_char_absent (c d : ascii) (new s : string) :
  has_char d new = false -> has_char d s = false ->
  has_char d (replace (String c EmptyString) new s) = false.
Proof.
  intros Hn. unfold replace. induction s as [|x s IH]; [reflexivity|].
  cbn [replace_from startswith String.length Nat.sub has_char].
  rewrite andb_true_r. intros H. apply orb_false_iff in H as [Hx Hs].
  destruct (Ascii.eqb c x).
  - now rewrite has_char_append, Hn, IH.
  - cbn [has_char]. now rewrite Hx, IH.
Qed.

(** The lines of a stream of content lines and empty lines, read in one
    go. *)
Lemma collect_sse_lines (items : list (option string)) :
  collect_lines (sse_lines items) = join NL (payloads_of items).
Proof.
  unfold collect_lines. f_equal.
  induction items as [|[p|] items IH]; cbn [sse_lines map flat_map payloads_of];
    [reflexivity| |exact IH].
  cbn [String.append is_empty startswith Ascii.eqb Bool.eqb andb drop app].
  f_equal. exact IH.
Qed.

End FramingFacts.

(** X26.  The payload of a content frame is written on one line: the escaping
    of line 1356 leaves neither a line feed nor a carriage return in the text.
    The escaping is not reversible: a line feed and the two characters
    backslash and n are written the same way. *)
Theorem X26_escaped_payload_is_one_line (text a b : string) :
  PyStr.has_char PyStr.LF (Sse.escape_newlines text) = false
  /\ PyStr.has_char PyStr.CR (Sse.escape_newlines text) = false
  /\ Sse.escape_newlines (a +:+ PyStr.NL +:+ b) = Sse.escape_newlines (a +:+ "\n" +:+ b).
Proof.
  unfold Sse.escape_newlines, PyStr.CRs, PyStr.NL. split; [|split].
  - apply FramingFacts.replace_char_absent; [reflexivity|].
    now apply FramingFacts.replace_char_gone.
  - now apply FramingFacts.replace_char_gone.
  - f_equal. rewrite !FramingFacts.replace_char_append. reflexivity.
Qed.

(** X27.  A buffered reading ([stream=False]) of an event stream made of
    content lines and empty lines drops the empty lines, takes the payloads of
    the content lines as they are, in their order, joins them with line feeds
    and parses the whole as one JSON text; it yields no frame. *)
Theorem X27_buffered_stream_joins_the_payloads
    (json_loads : string -> option Response.pyval)
    (reconstruct_result :
       Response.pyval -> option string -> option Orchestrator.GenerationResult)
    (content_type : string) (items : list (option string))
    (events : list Orchestrator.event) (request_id : option string) :
  PyStr.contains "text/event-stream" content_type = true ->
  Orchestrator.process_body json_loads reconstruct_result
    {| Orchestrator.contentType := content_type;
       Orchestrator.iter_lines := Spec.sse_lines items;
       Orchestrator.events := events |}
    request_id false
  = {| Orchestrator.yielded := [];
       Orchestrator.returned :=
         reconstruct_result
           (Orchestrator.parse_result json_loads
              (PyStr.join PyStr.NL (Spec.payloads_of items)))
           request_id |}.
Proof.
  intros H. unfold Orchestrator.process_body.
  cbn [Orchestrator.contentType Orchestrator.iter_lines]. rewrite H.
  now rewrite FramingFacts.collect_sse_lines.
Qed.

Lemma X27_buffered_stream_joins_the_payloads_witness :
  let shown (v : Response.pyval) (request_id : option string) :=
    Some {| Orchestrator.configuration_analysis := "";
            Orchestrator.generated_code := "";
            Orchestrator.testing_verification := "";
            Orchestrator.final_working_code := "";
            Orchestrator.reasoning_process := request_id;
            Orchestrator.metadata := [("parsed", v)] |} in
  let read (items : list (option string)) :=
    Orchestrator.returned
      (Orchestrator.process_body Json.json_loads_fragment shown
         {| Orchestrator.contentType := "text/event-stream; charset=utf-8";
            Orchestrator.iter_lines := Spec.sse_lines items;
            Orchestrator.events := [] |}
         (Some "r1") false) in
  read [None; Some (Spec.quoted "ab"); None] = shown (Response.PStr "ab") (Some "r1")
  /\ read [Some "generated"; None]
     = shown (Response.PDict [("result", Response.PStr "generated")]) (Some "r1").
Proof.
  intros shown read. unfold read. split.
  - rewrite (X27_buffered_stream_joins_the_payloads Json.json_loads_fragment shown
               "text/event-stream; charset=utf-8"
               [None; Some (Spec.quoted "ab"); None] [] (Some "r1") eq_refl).
    reflexivity.
  - rewrite (X27_buffered_stream_joins_the_payloads Json.json_loads_fragment shown
               "text/event-stream; charset=utf-8"
               [Some "generated"; None] [] (Some "r1") eq_refl).
    reflexivity.
Defined.

(** ** One artifact per key *)

Module S3IsolationFacts.
Import PyStr PyStrFacts RxFacts S3Store S3StoreFacts.

(** What [store_code_file] does to the service: nothing, or one object
    written under the key of the slot on a store that answers. *)
Lemma store_code_file_cases (self self' : S3CodeStorageService)
    (session_id code_content code_type : string) (file_extension : option string)
    (r : store_response) :
  store_code_file self session_id code_content code_type file_extension = Ok (r, self') ->
  (self' = self /\ store_status r = "error")
  \/ (store_status r = "success"
      /\ fault (s3_client_ self) = None
      /\ fault (s3_client_ self') = None
      /\ bucket_name self' = bucket_name self
      /\ exists o,
           Body o = code_content
           /\ objects (s3_client_ self')
              = <[ s3_key_of (sanitize session_id) code_type
                     (extension_argument file_extension) := o ]>
                  (objects (s3_client_ self))).
Proof.
  unfold store_code_file, store_code_file_try, put_object.
  destruct (recognized code_type); cbn [negb].
  2:{ intros [= <- <-]. now left. }
  destruct (blank session_id).
  { intros [= <- <-]. now left. }
  destruct (blank code_content).
  { intros [= <- <-]. now left. }
  destruct (is_empty (sanitize session_id)).
  { intros [= <- <-]. now left. }
  destruct (fault (s3_client_ self)) as [e|]; cbn [bind].
  { destruct e; intros [= <- <-]; now left. }
  intros [= <- <-]. right. cbn.
  repeat (split; [reflexivity|]).
  eexists. split; [|reflexivity]. reflexivity.
Qed.

(** A sanitised session id holds no slash. *)
Lemma sanitize_no_slash (session_id : string) :
  has_char "/"%char (sanitize session_id) = false.
Proof.
  apply (all_chars_has_char allowed_char); [apply sanitize_allowed | reflexivity].
Qed.

(** Texts without slash that are followed by a slash end where the first
    slash is. *)
Lemma slash_ends (a b x y : string) :
  has_char "/"%char a = false -> has_char "/"%char b = false ->
  a +:+ "/" +:+ x = b +:+ "/" +:+ y -> a = b /\ x = y.
Proof.
  revert b. induction a as [|c a IH]; intros [|d b] Ha Hb H;
    cbn [String.append has_char] in *.
  - injection H as ->. auto.
  - injection H as <- _. cbn in Hb. discriminate.
  - injection H as -> _. cbn in Ha. discriminate.
  - injection H as -> H.
    apply orb_false_iff in Ha as [_ Ha]. apply orb_false_iff in Hb as [_ Hb].
    destruct (IH _ Ha Hb H) as [-> ->]. auto.
Qed.

Lemma s3_key_inj (s1 s2 t1 t2 e1 e2 : string) :
  s3_key_of (sanitize s1) t1 e1 = s3_key_of (sanitize s2) t2 e2 ->
  sanitize s1 = sanitize s2 /\ t1 +:+ e1 = t2 +:+ e2.
Proof.
  unfold s3_key_of. intros H.
  apply (f_equal (drop (String.length "temp-code/"))) in H.
  rewrite !drop_append in H.
  exact (slash_ends _ _ _ _ (sanitize_no_slash s1) (sanitize_no_slash s2) H).
Qed.

(** The names of two different slots start with different letters. *)
Lemma slot_names_differ (t1 t2 e1 e2 : string) :
  recognized t1 = true -> recognized t2 = true -> t1 <> t2 ->
  t1 +:+ e1 <> t2 +:+ e2.
Proof.
  unfold recognized, code_types. cbn [existsb]. rewrite !orb_false_r.
  intros H1 H2 Hne.
  apply orb_true_iff in H1 as [H1|H1]; [|apply orb_true_iff in H1 as [H1|H1]];
    apply String.eqb_eq in H1; subst t1;
    (apply orb_true_iff in H2 as [H2|H2]; [|apply orb_true_iff in H2 as [H2|H2]]);
    apply String.eqb_eq in H2; subst t2;
    try contradiction; cbn [String.append]; discriminate.
Qed.

(** [get_code_file] reads the name of the bucket, the state of the store
    and one key. *)
Lemma get_code_file_reads (self self' : S3CodeStorageService)
    (session_id code_type : string) :
  bucket_name self' = bucket_name self ->
  fault (s3_client_ self') = fault (s3_client_ self) ->
  objects (s3_client_ self') !! probed_key session_id code_type
  = objects (s3_client_ self) !! probed_key session_id code_type ->
  get_code_file self' session_id code_type = get_code_file self session_id code_type.
Proof.
  intros Hb Hf Ho. unfold get_code_file, get_code_file_try, get_object.
  unfold probed_key in Ho. now rewrite Hb, Hf, Ho.
Qed.

End S3IsolationFacts.

(** X28.  A key holds one artifact, the last one stored: after two
    successful calls of [store_code_file] for the same session, slot and
    extension, whatever the extension, the bucket is the one before the first
    call with the second content under the key of the slot with that
    extension; and when the extension is the one [get_code_file] reads for the
    slot, [get_code_file] returns the second content. *)
Theorem X28_last_store_wins
    (self self1 self2 : S3Store.S3CodeStorageService)
    (session_id first second code_type : string) (file_extension : option string)
    (r1 r2 : S3Store.store_response) :
  S3Store.store_code_file self session_id first code_type file_extension
  = Ok (r1, self1) ->
  S3Store.store_status r1 = "success" ->
  S3Store.store_code_file self1 session_id second code_type file_extension
  = Ok (r2, self2) ->
  S3Store.store_status r2 = "success" ->
  let key :=
    S3Store.s3_key_of (S3Store.sanitize session_id) code_type
      (S3Store.extension_argument file_extension) in
  (exists o,
      S3Store.Body o = second
      /\ S3Store.objects (S3Store.s3_client_ self2)
         = <[ key := o ]> (S3Store.objects (S3Store.s3_client_ self)))
  /\ (S3Store.extension_argument file_extension = S3Store.extension_of code_type ->
      exists last_modified,
        S3Store.get_code_file self2 session_id code_type
        = Ok (S3Store.GetSuccess second
                (S3Store.s3_uri_of (S3Store.bucket_name self) key)
                code_type session_id last_modified (String.length second))).
Proof.
  intros H1 Hs1 H2 Hs2 key.
  destruct (S3StoreFacts.store_code_file_success _ _ _ _ _ _ _ H1 Hs1)
    as (Hr & _ & _ & Hne & _ & Hb1 & _ & o1 & Ho1 & _).
  destruct (S3StoreFacts.store_code_file_success _ _ _ _ _ _ _ H2 Hs2)
    as (_ & _ & _ & _ & _ & Hb2 & Hf2 & o2 & Ho2 & Hbody2).
  fold key in Ho1, Ho2.
  assert (Hobj : S3Store.objects (S3Store.s3_client_ self2)
                 = <[ key := o2 ]> (S3Store.objects (S3Store.s3_client_ self))).
  { rewrite Ho2, Ho1. apply insert_insert_eq. }
  split; [exists o2; now split|].
  intros Hext.
  assert (Hkey : S3Store.probed_key session_id code_type = key).
  { unfold S3Store.probed_key, key. now rewrite Hext. }
  assert (Hl : S3Store.objects (S3Store.s3_client_ self2)
               !! S3Store.probed_key session_id code_type = Some o2)
    by (rewrite Hkey, Hobj; apply lookup_insert_eq).
  rewrite (S3StoreFacts.get_code_file_present _ _ _ o2 Hr Hne Hf2 Hl).
  rewrite Hbody2, Hb2, Hb1, Hkey. eauto.
Qed.

Lemma X28_last_store_wins_witness :
  let o1 := {| S3Store.Body := "strands"; S3Store.ContentType := "text/x-python";
               S3Store.Metadata :=
                 [ ("session-id", "s1"); ("code-type", "requirements");
                   ("content-length", "7"); ("file-extension", ".py") ];
               S3Store.LastModified := 0 |} in
  let o2 := {| S3Store.Body := "boto3"; S3Store.ContentType := "text/x-python";
               S3Store.Metadata :=
                 [ ("session-id", "s1"); ("code-type", "requirements");
                   ("content-length", "5"); ("file-extension", ".py") ];
               S3Store.LastModified := 1 |} in
  let self2 :=
    {| S3Store.s3_client_ :=
         {| S3Store.objects :=
              <[ "temp-code/s1/requirements.py" := o2 ]>
                (<[ "temp-code/s1/requirements.py" := o1 ]> ∅);
            S3Store.clock := 2; S3Store.fault := None |};
       S3Store.bucket_name := "bucket" |} in
  (exists o,
      S3Store.Body o = "boto3"
      /\ S3Store.objects (S3Store.s3_client_ self2)
         = <[ "temp-code/s1/requirements.py" := o ]>
             (S3Store.objects (S3Store.s3_client_ (S3Store.empty_service "bucket"))))
  /\ S3Store.get_code_file self2 "s1" "requirements"
     = Ok (S3Store.GetNotFound "Code file not found").
Proof.
  intros o1 o2 self2. split; [|reflexivity].
  exact (proj1 (X28_last_store_wins (S3Store.empty_service "bucket")
           {| S3Store.s3_client_ :=
                {| S3Store.objects := <[ "temp-code/s1/requirements.py" := o1 ]> ∅;
                   S3Store.clock := 1; S3Store.fault := None |};
              S3Store.bucket_name := "bucket" |}
           self2 "s1" "strands" "boto3" "requirements" None
           (S3Store.StoreSuccess "s3://bucket/temp-code/s1/requirements.py" "bucket"
              "temp-code/s1/requirements.py" "requirements" "s1" 7)
           (S3Store.StoreSuccess "s3://bucket/temp-code/s1/requirements.py" "bucket"
              "temp-code/s1/requirements.py" "requirements" "s1" 5)
           eq_refl eq_refl eq_refl eq_refl)).
Defined.

(** X29.  Sessions whose ids differ once sanitised do not see each other:
    whatever [store_code_file] is asked to store for one session, in any slot
    and with any extension, [get_code_file] answers for the other session what
    it answered before. *)
Theorem X29_sessions_are_isolated
    (self self' : S3Store.S3CodeStorageService)
    (a b code_content code_type other_type : string)
    (file_extension : option string) (r : S3Store.store_response) :
  S3Store.sanitize a <> S3Store.sanitize b ->
  S3Store.store_code_file self a code_content code_type file_extension = Ok (r, self') ->
  S3Store.get_code_file self' b other_type = S3Store.get_code_file self b other_type.
Proof.
  intros Hab Hstore.
  destruct (S3IsolationFacts.store_code_file_cases _ _ _ _ _ _ _ Hstore)
    as [[-> _]|(_ & Hf & Hf' & Hb & o & _ & Ho)]; [reflexivity|].
  apply S3IsolationFacts.get_code_file_reads; [exact Hb | congruence|].
  rewrite Ho. apply lookup_insert_ne. unfold S3Store.probed_key. intros Hk.
  apply S3IsolationFacts.s3_key_inj in Hk as [Hk _]. contradiction.
Qed.

Lemma X29_sessions_are_isolated_witness :
  S3Store.get_code_file
    {| S3Store.s3_client_ :=
         {| S3Store.objects :=
              {[ "temp-code/s1/pure_strands.py" :=
                   {| S3Store.Body := "x = 1";
                      S3Store.ContentType := "text/x-python";
                      S3Store.Metadata :=
                        [ ("session-id", "s1"); ("code-type", "pure_strands");
                          ("content-length", "5"); ("file-extension", ".py") ];
                      S3Store.LastModified := 0 |} ]};
            S3Store.clock := 1; S3Store.fault := None |};
       S3Store.bucket_name := "bucket" |}
    "s12" "pure_strands"
  = S3Store.get_code_file (S3Store.empty_service "bucket") "s12" "pure_strands".
Proof.
  apply (X29_sessions_are_isolated (S3Store.empty_service "bucket") _ "s1" "s12"
           "x = 1" "pure_strands" "pure_strands" None
           (S3Store.StoreSuccess "s3://bucket/temp-code/s1/pure_strands.py" "bucket"
              "temp-code/s1/pure_strands.py" "pure_strands" "s1" 5)).
  - vm_compute. discriminate.
  - reflexivity.
Defined.

(** X30.  The slots of a session do not overlap: storing in one slot, with
    any extension, leaves what [get_code_file] answers for another slot as it
    was. *)
Theorem X30_slots_do_not_overlap
    (self self' : S3Store.S3CodeStorageService)
    (session_id code_content code_type other_type : string)
    (file_extension : option string) (r : S3Store.store_response) :
  S3Store.recognized other_type = true ->
  other_type <> code_type ->
  S3Store.store_code_file self session_id code_content code_type file_extension
  = Ok (r, self') ->
  S3Store.get_code_file self' session_id other_type
  = S3Store.get_code_file self session_id other_type.
Proof.
  intros Hro Hne Hstore.
  destruct (S3IsolationFacts.store_code_file_cases _ _ _ _ _ _ _ Hstore)
    as [[-> _]|(Hok & Hf & Hf' & Hb & o & _ & Ho)]; [reflexivity|].
  destruct (S3StoreFacts.store_code_file_success _ _ _ _ _ _ _ Hstore Hok)
    as (Hr & _).
  apply S3IsolationFacts.get_code_file_reads; [exact Hb | congruence|].
  rewrite Ho. apply lookup_insert_ne. unfold S3Store.probed_key. intros Hk.
  apply S3IsolationFacts.s3_key_inj in Hk as [_ Hk].
  exact (S3IsolationFacts.slot_names_differ _ _ _ _ Hr Hro (not_eq_sym Hne) Hk).
Qed.

Lemma X30_slots_do_not_overlap_witness :
  S3Store.get_code_file
    {| S3Store.s3_client_ :=
         {| S3Store.objects :=
              {[ "temp-code/s1/requirements.py" :=
                   {| S3Store.Body := "strands";
                      S3Store.ContentType := "text/x-python";
                      S3Store.Metadata :=
                        [ ("session-id", "s1"); ("code-type", "requirements");
                          ("content-length", "7"); ("file-extension", ".py") ];
                      S3Store.LastModified := 0 |} ]};
            S3Store.clock := 1; S3Store.fault := None |};
       S3Store.bucket_name := "bucket" |}
    "s1" "pure_strands"
  = S3Store.get_code_file (S3Store.empty_service "bucket") "s1" "pure_strands".
Proof.
  apply (X30_slots_do_not_overlap (S3Store.empty_service "bucket") _ "s1" "strands"
           "requirements" "pure_strands" None
           (S3Store.StoreSuccess "s3://bucket/temp-code/s1/requirements.py" "bucket"
              "temp-code/s1/requirements.py" "requirements" "s1" 7)).
  - reflexivity.
  - discriminate.
  - reflexivity.
Defined.
